(** * Pantry backend: item lifecycle and storage-area ordering

    A shallow embedding of the Express/SQLite backend of the pantry
    application: the two tables of [backend/src/db.ts] with the prepared
    statements the route handlers use, and the handlers of
    [routes/items.ts] and [routes/storageAreas.ts].

    Conventions of the embedding.
    - A table is the list of its rows in rowid order; [INSERT] appends.
    - JavaScript numbers that the handlers treat as integers (quantities,
      epoch milliseconds, display ranks) are [Z]; the sums and the
      differences of quantities are rounded as the doubles of the code
      are (section Numbers).
    - [undefined] and SQL [NULL] are [None].
    - A string ([String.string]) is the sequence of the bytes of the
      UTF-8 form of a well-formed string, which is what the requests
      carry and what SQLite stores and compares; SQLite's built-in
      [LOWER] folds the ASCII letters only, and so does [LOWER] below.
    - A statement that SQLite rejects (primary key or foreign key
      violation) throws; the handler's [catch] turns that into a 500 and
      leaves the writes already made in place.  Such a statement
      returns [None].
    - [generateId()], [Date.now()] and [new Date()] are inputs of the
      handlers. *)

From Stdlib Require Import ZArith String Ascii List Lia Bool Permutation Sorted.
From stdpp Require Import base tactics list sorting strings pretty.
Import ListNotations.
Local Open Scope Z_scope.

(** ** Strings *)

Definition emptyb (s : string) : bool :=
  match s with EmptyString => true | String _ _ => false end.

(** The white space and the line terminators of ECMAScript, which
    [String.prototype.trim] removes, by the length of their UTF-8 form.
    One byte: TAB, LF, VT, FF, CR and the space. *)
Definition isWhiteSpace1 (c : ascii) : bool :=
  let n := N_of_ascii c in
  ((9 <=? n) && (n <=? 13) || (n =? 32))%N.

(** Two bytes: U+00A0 (C2 A0). *)
Definition isWhiteSpace2 (c1 c2 : ascii) : bool :=
  ((N_of_ascii c1 =? 194) && (N_of_ascii c2 =? 160))%N.

(** Three bytes: U+1680 (E1 9A 80), U+2000 to U+200A (E2 80 80 to
    E2 80 8A), U+2028 and U+2029 (E2 80 A8, E2 80 A9), U+202F
    (E2 80 AF), U+205F (E2 81 9F), U+3000 (E3 80 80) and U+FEFF
    (EF BB BF). *)
Definition isWhiteSpace3 (c1 c2 c3 : ascii) : bool :=
  let n1 := N_of_ascii c1 in
  let n2 := N_of_ascii c2 in
  let n3 := N_of_ascii c3 in
  ((n1 =? 225) && (n2 =? 154) && (n3 =? 128)
   || (n1 =? 226) && (n2 =? 128)
      && ((128 <=? n3) && (n3 <=? 138) || (n3 =? 168) || (n3 =? 169)
          || (n3 =? 175))
   || (n1 =? 226) && (n2 =? 129) && (n3 =? 159)
   || (n1 =? 227) && (n2 =? 128) && (n3 =? 128)
   || (n1 =? 239) && (n2 =? 187) && (n3 =? 191))%N.

(** Whether the bytes begin with a character that [p1], [p2] or [p3]
    recognises. *)
Definition startsWith (p1 : ascii -> bool) (p2 : ascii -> ascii -> bool)
    (p3 : ascii -> ascii -> ascii -> bool) (l : list ascii) : bool :=
  match l with
  | c1 :: l1 =>
      p1 c1
      || match l1 with
         | c2 :: l2 =>
             p2 c1 c2
             || match l2 with
                | c3 :: _ => p3 c1 c2 c3
                | [] => false
                end
         | [] => false
         end
  | [] => false
  end.

(** The bytes without the recognised characters they begin with. *)
Fixpoint dropLeading (p1 : ascii -> bool) (p2 : ascii -> ascii -> bool)
    (p3 : ascii -> ascii -> ascii -> bool) (l : list ascii) : list ascii :=
  match l with
  | [] => []
  | c1 :: l1 =>
      if p1 c1 then dropLeading p1 p2 p3 l1
      else
        match l1 with
        | [] => l
        | c2 :: l2 =>
            if p2 c1 c2 then dropLeading p1 p2 p3 l2
            else
              match l2 with
              | [] => l
              | c3 :: l3 =>
                  if p3 c1 c2 c3 then dropLeading p1 p2 p3 l3 else l
              end
        end
  end.

(** [String.prototype.trimStart] *)
Definition trimStart (l : list ascii) : list ascii :=
  dropLeading isWhiteSpace1 isWhiteSpace2 isWhiteSpace3 l.

(** [String.prototype.trimEnd]: the same on the bytes read backwards. *)
Definition trimEnd (l : list ascii) : list ascii :=
  rev (dropLeading isWhiteSpace1 (fun c2 c1 => isWhiteSpace2 c1 c2)
         (fun c3 c2 c1 => isWhiteSpace3 c1 c2 c3) (rev l)).

(** [String.prototype.trim] *)
Definition trim (s : string) : string :=
  string_of_list_ascii (trimEnd (trimStart (list_ascii_of_string s))).

Definition lowerAscii (c : ascii) : ascii :=
  let n := N_of_ascii c in
  if ((65 <=? n) && (n <=? 90))%N then ascii_of_N (n + 32) else c.

(** SQLite's [LOWER()]. *)
Fixpoint LOWER (s : string) : string :=
  match s with
  | EmptyString => EmptyString
  | String c s' => String (lowerAscii c) (LOWER s')
  end.

(** [x || null] on an optional string: [undefined], [null] and the empty
    string all become [NULL]. *)
Definition orNull (x : option string) : option string :=
  match x with
  | Some s => if emptyb s then None else Some s
  | None => None
  end.

(** JavaScript truthiness of an optional string. *)
Definition truthy (x : option string) : bool :=
  match x with
  | Some s => negb (emptyb s)
  | None => false
  end.

(** ** Numbers

    A quantity is a JavaScript number, an IEEE 754 double, that holds an
    integer; it is the [Z] of its value.  The sum and the difference of
    two such numbers are the exact result rounded to the nearest double,
    to the one with the even significand when two are equally near.
    Nothing is rounded up to [2 ^ 53] in absolute value.  The range of
    the exponent is not modelled: the values stay below [2 ^ 1024]. *)

(** The double nearest to the integer [z]: 53 significant bits. *)
Definition fl (z : Z) : Z :=
  let e := Z.log2 (Z.abs z) - 52 in
  if e <=? 0 then z
  else
    let ulp := 2 ^ e in
    let m := z / ulp in
    let r := z mod ulp in
    if 2 * r <? ulp then m * ulp
    else if ulp <? 2 * r then (m + 1) * ulp
    else if Z.even m then m * ulp
    else (m + 1) * ulp.
Arguments fl : simpl never.

(** [a + b] and [a - b] on numbers. *)
Definition jsAdd (a b : Z) : Z := fl (a + b).
Arguments jsAdd : simpl never.

Definition jsSub (a b : Z) : Z := fl (a - b).
Arguments jsSub : simpl never.

(** ** Data model ([backend/src/types.ts]) *)

Inductive AreaColor := slate | blue | cyan | emerald | amber | violet | rose.

Inductive AreaIcon :=
  refrigerator | snowflake | warehouse | box | home | archive | package.

Module StorageArea.
Record t := mk {
  id : string;
  name : string;
  icon : AreaIcon;
  color : AreaColor;
  order : Z
}.
Definition setOrder (a : t) (o : Z) : t :=
  mk (id a) (name a) (icon a) (color a) o.
End StorageArea.

Module PantryItem.
Record t := mk {
  id : string;
  name : string;
  quantity : Z;
  storageAreaId : string;
  createdAt : Z;
  isOpened : bool;
  openedAt : option Z;
  expiryDate : option string
}.
Definition setQuantity (r : t) (q : Z) : t :=
  mk (id r) (name r) q (storageAreaId r) (createdAt r)
     (isOpened r) (openedAt r) (expiryDate r).
End PantryItem.

Definition DEFAULT_STORAGE_AREAS : list StorageArea.t :=
  [ StorageArea.mk "fridge" "Fridge" refrigerator cyan 0;
    StorageArea.mk "freezer" "Freezer" snowflake blue 1;
    StorageArea.mk "pantry" "Pantry" warehouse amber 2 ].

(** ** The database ([backend/src/db.ts]) *)

Record Db := mkDb {
  storage_areas : list StorageArea.t;
  items : list PantryItem.t
}.

(** Rows of [storage_areas] in ascending ["order"]: a stable insertion
    sort of the table (rows of equal rank stay in rowid order). *)
Fixpoint insertByOrder (a : StorageArea.t) (l : list StorageArea.t)
  : list StorageArea.t :=
  match l with
  | [] => [a]
  | b :: l' =>
      if StorageArea.order a <=? StorageArea.order b
      then a :: l
      else b :: insertByOrder a l'
  end.

Definition sortByOrder (l : list StorageArea.t) : list StorageArea.t :=
  fold_right insertByOrder [] l.

(** ** Calendar dates of the JavaScript runtime *)

Definition DAY : Z := 1000 * 60 * 60 * 24.

(** Civil date of a day number counted from 1970-01-01 (proleptic
    Gregorian calendar), as [Date.prototype.toISOString] computes it. *)
Definition civil_from_days (z : Z) : Z * Z * Z :=
  let z := z + 719468 in
  let era := z / 146097 in
  let doe := z - era * 146097 in
  let yoe := (doe - doe / 1460 + doe / 36524 - doe / 146096) / 365 in
  let doy := doe - (365 * yoe + yoe / 4 - yoe / 100) in
  let mp := (5 * doy + 2) / 153 in
  let d := doy - (153 * mp + 2) / 5 + 1 in
  let m := if mp <? 10 then mp + 3 else mp - 9 in
  let y := yoe + era * 400 in
  (if m <=? 2 then y + 1 else y, m, d).

Definition digit (n : Z) : ascii := ascii_of_N (48 + Z.to_N (n mod 10)).

(** The [k] low decimal digits of [n], most significant first. *)
Fixpoint digits (k : nat) (n : Z) (acc : string) : string :=
  match k with
  | O => acc
  | S k' => digits k' (n / 10) (String (digit n) acc)
  end.

(** ISO 8601 year: four digits for 0..9999, otherwise a sign and six. *)
Definition isoYear (y : Z) : string :=
  if (0 <=? y) && (y <=? 9999) then digits 4 y EmptyString
  else if y <? 0 then String "-" (digits 6 (- y) EmptyString)
  else String "+" (digits 6 y EmptyString).

(** [new Date(t).toISOString().split('T')[0]]: the UTC calendar date of
    the instant [t].  The [RangeError] of [toISOString] on an instant
    outside the range of [Date] cannot arise in [openItem], where the
    instant lies between two valid dates. *)
Definition toISODate (t : Z) : string :=
  let '(y, m, d) := civil_from_days (t / DAY) in
  (isoYear y +:+ String "-" (digits 2 m (String "-" (digits 2 d EmptyString)))).

(** [Math.ceil(a / b)] for integers in the exactly representable range. *)
Definition ceilDiv (a b : Z) : Z := - ((- a) / b).

(** *** A reference runtime: a process whose local time zone is UTC

    Used to run the model on concrete requests; the theorems take the
    parser of the engine as a variable.  [Date_parse] is
    [new Date(s).getTime()] on the strings of the form [YYYY-MM-DD],
    which V8 reads as midnight UTC of that day, with a day up to 31 in
    every month (2024-06-31 is 2024-07-01).  The requests below carry
    no other string; on the other forms that an engine reads as well
    [Date_parse] does not follow it. *)

Module Utc.

(** Day number, counted from 1970-01-01, of a civil date. *)
Definition days_from_civil (y m d : Z) : Z :=
  let y := if m <=? 2 then y - 1 else y in
  let era := y / 400 in
  let yoe := y - era * 400 in
  let mp := (m + 9) mod 12 in
  let doy := (153 * mp + 2) / 5 + d - 1 in
  let doe := yoe * 365 + yoe / 4 - yoe / 100 + doy in
  era * 146097 + doe - 719468.

Fixpoint parseDigits (k : nat) (s : string) (acc : Z) : option (Z * string) :=
  match k with
  | O => Some (acc, s)
  | S k' =>
      match s with
      | String c s' =>
          let n := N_of_ascii c in
          if ((48 <=? n) && (n <=? 57))%N
          then parseDigits k' s' (10 * acc + (Z.of_N n - 48))
          else None
      | EmptyString => None
      end
  end.

Definition Date_parse (s : string) : option Z :=
  match parseDigits 4 s 0 with
  | Some (y, String "-" s1) =>
      match parseDigits 2 s1 0 with
      | Some (m, String "-" s2) =>
          match parseDigits 2 s2 0 with
          | Some (d, EmptyString) =>
              if (1 <=? m) && (m <=? 12) && (1 <=? d) && (d <=? 31)
              then Some (days_from_civil y m d * DAY)
              else None
          | _ => None
          end
      | _ => None
      end
  | _ => None
  end.

Definition startOfDay (now : Z) : Z := now / DAY * DAY.

End Utc.

(** Start of the local day in a zone [offset] milliseconds east of UTC
    (without daylight saving). *)
Definition startOfDayIn (offset now : Z) : Z :=
  (now + offset) / DAY * DAY - offset.

(** Sample data: the seeded areas and one carton of milk. *)
Definition seeded : Db := mkDb DEFAULT_STORAGE_AREAS [].

Definition milk : PantryItem.t :=
  PantryItem.mk "i1" "Milk" 3 "fridge" 1717200000000 false None
    (Some "2024-06-20").

Definition fridgeWithMilk : Db := mkDb DEFAULT_STORAGE_AREAS [milk].

(** Noon UTC of 2024-06-10. *)
Definition noon_2024_06_10 : Z := 1718020800000.

(** ** HTTP responses *)

Inductive Response (A : Type) : Type :=
| Json (status : Z) (body : A)          (* res.status(n).json(body) *)
| Error (status : Z) (error : string)   (* res.status(n).json({ error }) *)
| NoContent.                            (* res.status(204).send() *)
Arguments Json {A} status body.
Arguments Error {A} status error.
Arguments NoContent {A}.

(** Request bodies, with the types the handlers declare for them. *)
Record ItemBody := mkItemBody {
  body_name : string;
  body_quantity : Z;
  body_storageAreaId : string;
  body_expiryDate : option string
}.

Record AreaBody := mkAreaBody {
  area_name : string;
  area_icon : AreaIcon;
  area_color : AreaColor
}.

(** [Partial<StorageArea>] of [PUT /api/storage-areas/:id]. *)
Record AreaPatch := mkAreaPatch {
  patch_name : option string;
  patch_icon : option AreaIcon;
  patch_color : option AreaColor;
  patch_order : option Z
}.

(** ** The client ([frontend/src/api/index.ts], [hooks/usePantryStore.ts]) *)

(** Rows of [items] in ascending [name] (bytewise, as SQLite's default
    collation compares): a stable insertion sort of the table. *)
Fixpoint insertByName (r : PantryItem.t) (l : list PantryItem.t)
  : list PantryItem.t :=
  match l with
  | [] => [r]
  | x :: l' =>
      if String.leb (PantryItem.name r) (PantryItem.name x)
      then r :: l
      else x :: insertByName r l'
  end.

Definition sortByName (l : list PantryItem.t) : list PantryItem.t :=
  fold_right insertByName [] l.

(** The outcome of [fetchJson]: the parsed body, [undefined] for a 204,
    or a thrown [Error] with its message. *)
Inductive Fetched (A : Type) : Type :=
| Resolved (value : A)
| ResolvedVoid
| Rejected (message : string).
Arguments Resolved {A} value.
Arguments ResolvedVoid {A}.
Arguments Rejected {A} message.

(** [response.ok] *)
Definition responseOk (status : Z) : bool :=
  (200 <=? status) && (status <=? 299).

(** [fetchJson] on the response of a handler.  A response that is not
    ok throws [error.error || `HTTP ${status}`]; the handlers send an
    error body only with the statuses 400, 404 and 500.  The transport
    itself does not fail here. *)
Definition fetchJson {A} (response : Response A) : Fetched A :=
  match response with
  | Json status body =>
      if responseOk status then Resolved body
      else Rejected ("HTTP " +:+ pretty status)
  | Error status error =>
      if emptyb error then Rejected ("HTTP " +:+ pretty status)
      else Rejected error
  | NoContent => ResolvedVoid
  end.

(** [Array.prototype.findIndex], [None] for -1. *)
Fixpoint findIndex {A} (p : A -> bool) (l : list A) : option nat :=
  match l with
  | [] => None
  | x :: l' => if p x then Some O else option_map S (findIndex p l')
  end.

(** The state of [usePantryStore]. *)
Module PantryStore.
Record t := mk {
  storageAreas : list StorageArea.t;
  items : list PantryItem.t;
  isLoading : bool;
  error : option string
}.
Definition setStorageAreas (st : t) (areas : list StorageArea.t) : t :=
  mk areas (items st) (isLoading st) (error st).
Definition setItems (st : t) (its : list PantryItem.t) : t :=
  mk (storageAreas st) its (isLoading st) (error st).
Definition setError (st : t) (message : string) : t :=
  mk (storageAreas st) (items st) (isLoading st) (Some message).
End PantryStore.

(** The state updates of the hook, as functions of the previous state. *)

(** [addItem]: a merged item replaces the one with its id, a new one is
    appended. *)
Definition addItem_update (result : PantryItem.t) (prev : list PantryItem.t)
  : list PantryItem.t :=
  match findIndex (fun item => String.eqb (PantryItem.id item)
                                 (PantryItem.id result)) prev with
  | Some existingIndex => <[existingIndex := result]> prev
  | None => prev ++ [result]
  end.

(** [prev.map((item) => (item.id === id ? updated : item))] *)
Definition replaceItem (id : string) (updated : PantryItem.t)
    (prev : list PantryItem.t) : list PantryItem.t :=
  map (fun item => if String.eqb (PantryItem.id item) id then updated else item)
    prev.

(** [prev.filter((item) => item.id !== id)] *)
Definition removeItem_update (id : string) (prev : list PantryItem.t)
  : list PantryItem.t :=
  filter (fun item => negb (String.eqb (PantryItem.id item) id)) prev.

(** [openItem]: the original goes, the returned items are appended. *)
Definition openItem_update (id : string) (result : list PantryItem.t)
    (prev : list PantryItem.t) : list PantryItem.t :=
  removeItem_update id prev ++ result.

(** [getItemCountForArea] *)
Definition getItemCountForArea (st : PantryStore.t) (storageAreaId : string)
  : Z :=
  fold_left (fun sum item => jsAdd sum (PantryItem.quantity item))
    (filter (fun item => String.eqb (PantryItem.storageAreaId item)
                           storageAreaId)
       (PantryStore.items st))
    0.

(** U+00A0, the no-break space, and U+3000, the ideographic space, in
    UTF-8. *)
Definition NBSP : string :=
  String (ascii_of_N 194) (String (ascii_of_N 160) EmptyString).

Definition IDEOGRAPHIC_SPACE : string :=
  String (ascii_of_N 227)
    (String (ascii_of_N 128) (String (ascii_of_N 128) EmptyString)).

(** A sack of rice whose quantity is [2 ^ 53 + 2], and a carton of milk
    that is already opened. *)
Definition rice : PantryItem.t :=
  PantryItem.mk "i1" "Rice" 9007199254740994 "pantry" 1717200000000 false
    None None.

Definition openedMilk : PantryItem.t :=
  PantryItem.mk "i1" "Milk" 3 "fridge" 1717200000000 true
    (Some 1717300000000) (Some "2024-06-20").

(** The state of the hook that shows [fridgeWithMilk]. *)
Definition storeWithMilk : PantryStore.t :=
  PantryStore.mk DEFAULT_STORAGE_AREAS [milk] false None.

Definition eggs : PantryItem.t :=
  PantryItem.mk "i2" "Eggs" 6 "fridge" 1717200000000 false None None.

Section Backend.

Set Default Proof Using "Type".

(** The environment of the process. *)

(** Whether SQLite enforces the [FOREIGN KEY ... ON DELETE CASCADE]
    clause of [items.storage_area_id] (the [foreign_keys] pragma of the
    connection). *)
Variable foreign_keys : bool.

(** [new Date(s).getTime()]; [None] is [NaN] (an invalid date). *)
Variable Date_parse : string -> option Z.

(** [d.setHours(0, 0, 0, 0); d.getTime()] for the instant [now]: the
    start of the current day in the local time zone. *)
Variable startOfDay : Z -> Z.

(** *** Statements on [storage_areas] *)

(** [SELECT ... FROM storage_areas ORDER BY "order" ASC] *)
Definition storageAreaQueries_getAll (s : Db) : list StorageArea.t :=
  sortByOrder (storage_areas s).

(** [SELECT ... WHERE id = ?] *)
Definition storageAreaQueries_getById (s : Db) (id : string)
  : option StorageArea.t :=
  find (fun a => String.eqb (StorageArea.id a) id) (storage_areas s).

(** [INSERT INTO storage_areas ...]; [id] is the primary key. *)
Definition storageAreaQueries_insert (s : Db) (a : StorageArea.t)
  : option Db :=
  match storageAreaQueries_getById s (StorageArea.id a) with
  | Some _ => None
  | None => Some (mkDb (storage_areas s ++ [a]) (items s))
  end.

(** [UPDATE storage_areas SET name, icon, color, "order" WHERE id = @id] *)
Definition storageAreaQueries_update (s : Db) (a : StorageArea.t) : Db :=
  mkDb (map (fun b => if String.eqb (StorageArea.id b) (StorageArea.id a)
                      then a else b) (storage_areas s))
       (items s).

(** [DELETE FROM storage_areas WHERE id = ?], with the cascade. *)
Definition storageAreaQueries_delete (s : Db) (id : string) : Db :=
  mkDb (filter (fun a => negb (String.eqb (StorageArea.id a) id))
          (storage_areas s))
       (if foreign_keys
        then filter (fun r => negb (String.eqb (PantryItem.storageAreaId r) id))
               (items s)
        else items s).

(** [SELECT MAX("order") as maxOrder]: [NULL] on the empty table. *)
Definition storageAreaQueries_getMaxOrder (s : Db) : option Z :=
  match storage_areas s with
  | [] => None
  | a :: l =>
      Some (fold_left (fun m b => Z.max m (StorageArea.order b)) l
              (StorageArea.order a))
  end.

(** [UPDATE storage_areas SET "order" = @order WHERE id = @id] *)
Definition storageAreaQueries_updateOrder (s : Db) (id : string) (order : Z)
  : Db :=
  mkDb (map (fun b => if String.eqb (StorageArea.id b) id
                      then StorageArea.setOrder b order else b)
            (storage_areas s))
       (items s).

(** *** Statements on [items] *)

(** [SELECT ... FROM items WHERE id = ?] *)
Definition itemQueries_getById (s : Db) (id : string)
  : option PantryItem.t :=
  find (fun r => String.eqb (PantryItem.id r) id) (items s).

(** [expiry_date = @expiryDate OR
     (expiry_date IS NULL AND @expiryDate IS NULL)]:
    a comparison with [NULL] is not true. *)
Definition expiryMatches (column param : option string) : bool :=
  match column, param with
  | Some a, Some b => String.eqb a b
  | None, None => true
  | _, _ => false
  end.

(** The [WHERE] clause of [findMergeable]. *)
Definition mergeable (storageAreaId name : string)
    (expiryDate : option string) (r : PantryItem.t) : bool :=
  String.eqb (PantryItem.storageAreaId r) storageAreaId
  && String.eqb (LOWER (PantryItem.name r)) (LOWER name)
  && negb (PantryItem.isOpened r)
  && expiryMatches (PantryItem.expiryDate r) expiryDate.

(** [SELECT ... FROM items WHERE ... LIMIT 1] *)
Definition itemQueries_findMergeable (s : Db) (storageAreaId name : string)
    (expiryDate : option string) : option PantryItem.t :=
  find (mergeable storageAreaId name expiryDate) (items s).

(** [INSERT INTO items ...]: [id] is the primary key and
    [storage_area_id] references [storage_areas(id)]. *)
Definition itemQueries_insert (s : Db) (r : PantryItem.t) : option Db :=
  match itemQueries_getById s (PantryItem.id r) with
  | Some _ => None
  | None =>
      if foreign_keys
         && negb (bool_decide
              (is_Some (storageAreaQueries_getById s
                          (PantryItem.storageAreaId r))))
      then None
      else Some (mkDb (storage_areas s) (items s ++ [r]))
  end.

(** [UPDATE items SET quantity = @quantity WHERE id = @id] *)
Definition itemQueries_updateQuantity (s : Db) (id : string) (quantity : Z)
  : Db :=
  mkDb (storage_areas s)
       (map (fun r => if String.eqb (PantryItem.id r) id
                      then PantryItem.setQuantity r quantity else r)
            (items s)).

(** [UPDATE items SET name, quantity, is_opened, opened_at, expiry_date
     WHERE id = @id] *)
Definition itemQueries_update (s : Db) (id name : string) (quantity : Z)
    (isOpened : bool) (openedAt : option Z) (expiryDate : option string)
  : Db :=
  mkDb (storage_areas s)
       (map (fun r => if String.eqb (PantryItem.id r) id
                      then PantryItem.mk (PantryItem.id r) name quantity
                             (PantryItem.storageAreaId r)
                             (PantryItem.createdAt r)
                             isOpened openedAt expiryDate
                      else r)
            (items s)).

(** [DELETE FROM items WHERE id = ?] *)
Definition itemQueries_delete (s : Db) (id : string) : Db :=
  mkDb (storage_areas s)
       (filter (fun r => negb (String.eqb (PantryItem.id r) id)) (items s)).

(** [DELETE FROM items WHERE storage_area_id = ?] *)
Definition itemQueries_deleteByStorageArea (s : Db) (id : string) : Db :=
  mkDb (storage_areas s)
       (filter (fun r => negb (String.eqb (PantryItem.storageAreaId r) id))
          (items s)).

(** [reorderAreas(ids)]: one [updateOrder] per id, with its index. *)
Fixpoint reorderFrom (index : Z) (ids : list string) (s : Db) : Db :=
  match ids with
  | [] => s
  | id :: rest =>
      reorderFrom (index + 1) rest (storageAreaQueries_updateOrder s id index)
  end.

Definition reorderAreas (ids : list string) (s : Db) : Db :=
  reorderFrom 0 ids s.

(** Start-up of [db.ts]: the defaults are inserted into an empty
    [storage_areas] table, in one transaction. *)
Fixpoint insertMany (areas : list StorageArea.t) (s : Db) : option Db :=
  match areas with
  | [] => Some s
  | a :: rest =>
      match storageAreaQueries_insert s a with
      | Some s' => insertMany rest s'
      | None => None
      end
  end.

Definition seed (s : Db) : Db :=
  if (Z.of_nat (length (storage_areas s)) =? 0)
  then match insertMany DEFAULT_STORAGE_AREAS s with
       | Some s' => s'
       | None => s
       end
  else s.

(** *** [routes/items.ts] *)

(** [GET /api/items/:id] *)
Definition getItem (id : string) (s : Db) : Response PantryItem.t * Db :=
  match itemQueries_getById s id with
  | None => (Error 404 "Item not found", s)
  | Some item => (Json 200 item, s)
  end.

(** [POST /api/items]: create an item, or merge it into a duplicate.
    [genId] is the value of [generateId()] and [now] that of
    [Date.now()]. *)
Definition createOrMergeItem (genId : string) (now : Z) (body : ItemBody)
    (s : Db) : Response PantryItem.t * Db :=
  let trimmedName := trim (body_name body) in
  let quantity := body_quantity body in
  let storageAreaId := body_storageAreaId body in
  let expiryDate := body_expiryDate body in
  if emptyb trimmedName then (Error 400 "Name is required", s)
  else if (quantity =? 0) || (quantity <? 1) then
    (Error 400 "Quantity must be at least 1", s)
  else if emptyb storageAreaId then
    (Error 400 "Storage area ID is required", s)
  else
    match itemQueries_findMergeable s storageAreaId trimmedName
            (orNull expiryDate) with
    | Some existingItem =>
        let newQuantity := jsAdd (PantryItem.quantity existingItem) quantity in
        let s1 := itemQueries_updateQuantity s
                    (PantryItem.id existingItem) newQuantity in
        match itemQueries_getById s1 (PantryItem.id existingItem) with
        | Some updated => (Json 200 updated, s1)
        | None => (Error 500 "Failed to create item", s1)
        end
    | None =>
        let newItem :=
          PantryItem.mk genId trimmedName quantity storageAreaId now
            false None expiryDate in
        match itemQueries_insert s newItem with
        | Some s1 => (Json 201 newItem, s1)
        | None => (Error 500 "Failed to create item", s)
        end
    end.

(** [PUT /api/items/:id/quantity] *)
Definition adjustQuantity (id : string) (quantity : Z) (s : Db)
  : Response PantryItem.t * Db :=
  match itemQueries_getById s id with
  | None => (Error 404 "Item not found", s)
  | Some _ =>
      if quantity <? 1 then (NoContent, itemQueries_delete s id)
      else
        let s1 := itemQueries_updateQuantity s id quantity in
        match itemQueries_getById s1 id with
        | Some updated => (Json 200 updated, s1)
        | None => (Error 500 "Failed to update item quantity", s1)
        end
  end.

(** The number of days left, [NaN] ([None]) for an invalid date. *)
Definition daysLeft (today : Z) (expiryDate : string) : option Z :=
  match Date_parse expiryDate with
  | Some expiry => Some (ceilDiv (expiry - today) (1000 * 60 * 60 * 24))
  | None => None
  end.

(** The expiry date of an item opened at the instant [now]: the days
    remaining are halved, with a minimum of one day. *)
Definition newExpiryDate (now : Z) (expiryDate : option string)
  : option string :=
  match expiryDate with
  | Some d =>
      if emptyb d then expiryDate
      else
        let today := startOfDay now in
        match daysLeft today d with
        | Some daysLeft =>
            if 1 <? daysLeft then
              let newDaysLeft := Z.max 1 (daysLeft / 2) in
              let newExpiryTime := today + newDaysLeft * 24 * 60 * 60 * 1000 in
              Some (toISODate newExpiryTime)
            else expiryDate
        | None => expiryDate
        end
  | None => expiryDate
  end.

(** [PUT /api/items/:id/open]: open an item, splitting it when only a
    part is opened.  [now] is the instant of [new Date()] and [openedNow]
    that of the later [Date.now()]. *)
Definition openItem (genId : string) (now openedNow : Z) (id : string)
    (quantityToOpen : Z) (s : Db) : Response (list PantryItem.t) * Db :=
  match itemQueries_getById s id with
  | None => (Error 404 "Item not found", s)
  | Some item =>
      let newExpiry := newExpiryDate now (PantryItem.expiryDate item) in
      if PantryItem.quantity item <=? quantityToOpen then
        let s1 := itemQueries_update s id (PantryItem.name item)
                    (PantryItem.quantity item) true (Some openedNow)
                    (orNull newExpiry) in
        match itemQueries_getById s1 id with
        | Some updated => (Json 200 [updated], s1)
        | None => (Error 500 "Failed to open item", s1)
        end
      else
        let s1 := itemQueries_updateQuantity s id
                    (jsSub (PantryItem.quantity item) quantityToOpen) in
        let openedItem :=
          PantryItem.mk genId (PantryItem.name item) quantityToOpen
            (PantryItem.storageAreaId item) (PantryItem.createdAt item)
            true (Some openedNow) newExpiry in
        match itemQueries_insert s1 openedItem with
        | None => (Error 500 "Failed to open item", s1)
        | Some s2 =>
            match itemQueries_getById s2 id with
            | Some updatedOriginal =>
                (Json 200 [updatedOriginal; openedItem], s2)
            | None => (Error 500 "Failed to open item", s2)
            end
        end
  end.

(** [DELETE /api/items/:id] *)
Definition deleteItem (id : string) (s : Db) : Response unit * Db :=
  match itemQueries_getById s id with
  | None => (Error 404 "Item not found", s)
  | Some _ => (NoContent, itemQueries_delete s id)
  end.

(** *** [routes/storageAreas.ts] *)

(** [POST /api/storage-areas].  The new rank is written as the integer
    above the greatest one, which is what the [+ 1] of the handler
    gives on doubles for the ranks within [2 ^ 53]. *)
Definition createArea (genId : string) (body : AreaBody) (s : Db)
  : Response StorageArea.t * Db :=
  if emptyb (trim (area_name body)) then (Error 400 "Name is required", s)
  else
    let order :=
      match storageAreaQueries_getMaxOrder s with
      | Some maxOrder => maxOrder
      | None => -1
      end + 1 in
    let newArea :=
      StorageArea.mk genId (trim (area_name body)) (area_icon body)
        (area_color body) order in
    match storageAreaQueries_insert s newArea with
    | Some s1 => (Json 201 newArea, s1)
    | None => (Error 500 "Failed to create storage area", s)
    end.

(** [PUT /api/storage-areas/:id] *)
Definition updateArea (id : string) (patch : AreaPatch) (s : Db)
  : Response StorageArea.t * Db :=
  match storageAreaQueries_getById s id with
  | None => (Error 404 "Storage area not found", s)
  | Some existing =>
      let updated :=
        StorageArea.mk id
          (match patch_name patch with
           | Some n => if emptyb (trim n) then StorageArea.name existing
                       else trim n
           | None => StorageArea.name existing
           end)
          (default (StorageArea.icon existing) (patch_icon patch))
          (default (StorageArea.color existing) (patch_color patch))
          (default (StorageArea.order existing) (patch_order patch)) in
      (Json 200 updated, storageAreaQueries_update s updated)
  end.

(** [DELETE /api/storage-areas/:id]: the items of the area go first,
    then the area, then the remaining areas are renumbered. *)
Definition deleteArea (id : string) (s : Db) : Response unit * Db :=
  match storageAreaQueries_getById s id with
  | None => (Error 404 "Storage area not found", s)
  | Some _ =>
      let s1 := itemQueries_deleteByStorageArea s id in
      let s2 := storageAreaQueries_delete s1 id in
      let remaining := storageAreaQueries_getAll s2 in
      let ids := map StorageArea.id remaining in
      let s3 := if 0 <? Z.of_nat (length ids) then reorderAreas ids s2
                else s2 in
      (NoContent, s3)
  end.

(** [PUT /api/storage-areas/reorder/batch]; the body field [ids] is an
    array. *)
Definition reorderBatch (ids : list string) (s : Db)
  : Response (list StorageArea.t) * Db :=
  let s1 := reorderAreas ids s in
  (Json 200 (storageAreaQueries_getAll s1), s1).

(** *** Vocabulary of the statements below *)

(** A body that passes the checks of [POST /api/items]. *)
Definition validBody (body : ItemBody) : Prop :=
  emptyb (trim (body_name body)) = false
  /\ 1 <= body_quantity body
  /\ emptyb (body_storageAreaId body) = false.

(** The record [POST /api/items] inserts when nothing is merged. *)
Definition newItemOf (genId : string) (now : Z) (body : ItemBody)
  : PantryItem.t :=
  PantryItem.mk genId (trim (body_name body)) (body_quantity body)
    (body_storageAreaId body) now false None (body_expiryDate body).

(** The record an item becomes when it is opened as a whole. *)
Definition openedInPlace (now openedNow : Z) (item : PantryItem.t)
  : PantryItem.t :=
  PantryItem.mk (PantryItem.id item) (PantryItem.name item)
    (PantryItem.quantity item) (PantryItem.storageAreaId item)
    (PantryItem.createdAt item) true (Some openedNow)
    (orNull (newExpiryDate now (PantryItem.expiryDate item))).

(** The record split off when a part of an item is opened. *)
Definition splitOff (genId : string) (now openedNow quantityToOpen : Z)
    (item : PantryItem.t) : PantryItem.t :=
  PantryItem.mk genId (PantryItem.name item) quantityToOpen
    (PantryItem.storageAreaId item) (PantryItem.createdAt item)
    true (Some openedNow) (newExpiryDate now (PantryItem.expiryDate item)).

(** The constraints of the schema: [id] is a primary key of both tables
    and, where foreign keys are enforced, every item references an
    existing area. *)
Definition schemaOk (s : Db) : Prop :=
  NoDup (map StorageArea.id (storage_areas s))
  /\ NoDup (map PantryItem.id (items s))
  /\ (foreign_keys = true ->
      forall r, r ∈ items s ->
        PantryItem.storageAreaId r ∈ map StorageArea.id (storage_areas s)).

(** The display ranks of a table are a permutation of [0..count-1]. *)
Definition ordersPacked (areas : list StorageArea.t) : Prop :=
  map StorageArea.order areas ≡ₚ seqZ 0 (Z.of_nat (length areas)).

Definition orderLe (a b : StorageArea.t) : Prop :=
  StorageArea.order a <= StorageArea.order b.

Definition orderLt (a b : StorageArea.t) : Prop :=
  StorageArea.order a < StorageArea.order b.

(** What [reorderAreas] does to one row: every occurrence of its id in
    the sequence overwrites the rank with the index of the occurrence. *)
Fixpoint reindex (index : Z) (ids : list string) (a : StorageArea.t)
  : StorageArea.t :=
  match ids with
  | [] => a
  | id :: rest =>
      reindex (index + 1) rest
        (if String.eqb (StorageArea.id a) id
         then StorageArea.setOrder a index else a)
  end.

(** A listing with its ranks replaced by [index, index + 1, ...]. *)
Fixpoint renumber (index : Z) (l : list StorageArea.t)
  : list StorageArea.t :=
  match l with
  | [] => []
  | a :: l' => StorageArea.setOrder a index :: renumber (index + 1) l'
  end.

(** *** The remaining statements and routes *)

(** [SELECT ... FROM items ORDER BY name ASC] *)
Definition itemQueries_getAll (s : Db) : list PantryItem.t :=
  sortByName (items s).

(** [SELECT ... FROM items WHERE storage_area_id = ? ORDER BY name ASC] *)
Definition itemQueries_getByStorageArea (s : Db) (storageAreaId : string)
  : list PantryItem.t :=
  sortByName
    (filter (fun r => String.eqb (PantryItem.storageAreaId r) storageAreaId)
       (items s)).

(** [GET /api/items] *)
Definition getItems (s : Db) : Response (list PantryItem.t) * Db :=
  (Json 200 (itemQueries_getAll s), s).

(** [GET /api/items/area/:storageAreaId] *)
Definition getItemsByArea (storageAreaId : string) (s : Db)
  : Response (list PantryItem.t) * Db :=
  (Json 200 (itemQueries_getByStorageArea s storageAreaId), s).

(** [GET /api/storage-areas] *)
Definition getAreas (s : Db) : Response (list StorageArea.t) * Db :=
  (Json 200 (storageAreaQueries_getAll s), s).

(** [GET /api/storage-areas/:id] *)
Definition getArea (id : string) (s : Db) : Response StorageArea.t * Db :=
  match storageAreaQueries_getById s id with
  | None => (Error 404 "Storage area not found", s)
  | Some area => (Json 200 area, s)
  end.

(** *** The actions of [usePantryStore]

    An action runs on the state of the hook and the database behind the
    API: it sends its request, the handler runs, and the state is
    updated from the outcome of [fetchJson].  Where an action reads the
    body of a response, a 204 leaves the state as it is; only
    [PUT /api/items/:id/quantity] answers 204 to such an action, and
    [updateItemQuantity] tests for it. *)

(** The message of the [TypeError] of the engine for a property read on
    [undefined]. *)
Variable TypeError_message : string.

Definition initialStore : PantryStore.t :=
  PantryStore.mk DEFAULT_STORAGE_AREAS [] true None.

(** [loadData] (also [refresh]), at its end. *)
Definition loadData (w : PantryStore.t * Db) : PantryStore.t * Db :=
  let '(st, db) := w in
  let '(areasResponse, db1) := getAreas db in
  let '(itemsResponse, db2) := getItems db1 in
  let failed message :=
    PantryStore.mk DEFAULT_STORAGE_AREAS [] false (Some message) in
  match fetchJson areasResponse, fetchJson itemsResponse with
  | Resolved areas, Resolved allItems =>
      (PantryStore.mk
         (if 0 <? Z.of_nat (length areas) then areas
          else DEFAULT_STORAGE_AREAS)
         allItems false None, db2)
  | Rejected message, _ => (failed message, db2)
  | _, Rejected message => (failed message, db2)
  | _, _ => (failed TypeError_message, db2)
  end.

Definition addStorageArea (genId name : string) (icon : AreaIcon)
    (color : AreaColor) (w : PantryStore.t * Db) : PantryStore.t * Db :=
  let '(st, db) := w in
  let trimmedName := trim name in
  if emptyb trimmedName then w
  else
    let '(response, db1) :=
      createArea genId (mkAreaBody trimmedName icon color) db in
    match fetchJson response with
    | Resolved newArea =>
        (PantryStore.setStorageAreas st
           (PantryStore.storageAreas st ++ [newArea]), db1)
    | ResolvedVoid => (st, db1)
    | Rejected message => (PantryStore.setError st message, db1)
    end.

Definition updateStorageArea (id : string) (updates : AreaPatch)
    (w : PantryStore.t * Db) : PantryStore.t * Db :=
  let '(st, db) := w in
  let '(response, db1) := updateArea id updates db in
  match fetchJson response with
  | Resolved updated =>
      (PantryStore.setStorageAreas st
         (map (fun area => if String.eqb (StorageArea.id area) id
                           then updated else area)
            (PantryStore.storageAreas st)), db1)
  | ResolvedVoid => (st, db1)
  | Rejected message => (PantryStore.setError st message, db1)
  end.

Definition deleteStorageArea (id : string) (w : PantryStore.t * Db)
  : PantryStore.t * Db :=
  let '(st, db) := w in
  let '(response, db1) := deleteArea id db in
  match fetchJson response with
  | Rejected message => (PantryStore.setError st message, db1)
  | _ =>
      (PantryStore.setItems
         (PantryStore.setStorageAreas st
            (filter (fun area => negb (String.eqb (StorageArea.id area) id))
               (PantryStore.storageAreas st)))
         (filter (fun item => negb (String.eqb (PantryItem.storageAreaId item)
                                      id))
            (PantryStore.items st)), db1)
  end.

Definition reorderStorageAreas (ids : list string) (w : PantryStore.t * Db)
  : PantryStore.t * Db :=
  let '(st, db) := w in
  let '(response, db1) := reorderBatch ids db in
  match fetchJson response with
  | Resolved reordered => (PantryStore.setStorageAreas st reordered, db1)
  | ResolvedVoid => (st, db1)
  | Rejected message => (PantryStore.setError st message, db1)
  end.

Definition addItem (genId : string) (now : Z) (name : string) (quantity : Z)
    (storageAreaId : string) (expiryDate : option string)
    (w : PantryStore.t * Db) : PantryStore.t * Db :=
  let '(st, db) := w in
  let trimmedName := trim name in
  if emptyb trimmedName || (quantity <? 1) then w
  else
    let '(response, db1) :=
      createOrMergeItem genId now
        (mkItemBody trimmedName quantity storageAreaId expiryDate) db in
    match fetchJson response with
    | Resolved result =>
        (PantryStore.setItems st (addItem_update result (PantryStore.items st)),
         db1)
    | ResolvedVoid => (st, db1)
    | Rejected message => (PantryStore.setError st message, db1)
    end.

Definition updateItemQuantity (id : string) (quantity : Z)
    (w : PantryStore.t * Db) : PantryStore.t * Db :=
  let '(st, db) := w in
  if quantity <? 1 then
    let '(response, db1) := deleteItem id db in
    match fetchJson response with
    | Rejected message => (PantryStore.setError st message, db1)
    | _ =>
        (PantryStore.setItems st (removeItem_update id (PantryStore.items st)),
         db1)
    end
  else
    let '(response, db1) := adjustQuantity id quantity db in
    match fetchJson response with
    | Resolved updated =>
        (PantryStore.setItems st
           (replaceItem id updated (PantryStore.items st)), db1)
    | ResolvedVoid => (st, db1)
    | Rejected message => (PantryStore.setError st message, db1)
    end.

Definition removeItem (id : string) (w : PantryStore.t * Db)
  : PantryStore.t * Db :=
  let '(st, db) := w in
  let '(response, db1) := deleteItem id db in
  match fetchJson response with
  | Rejected message => (PantryStore.setError st message, db1)
  | _ =>
      (PantryStore.setItems st (removeItem_update id (PantryStore.items st)),
       db1)
  end.

Definition usePantryStore_openItem (genId : string) (now openedNow : Z)
    (id : string) (quantityToOpen : Z) (w : PantryStore.t * Db)
  : PantryStore.t * Db :=
  let '(st, db) := w in
  let '(response, db1) := openItem genId now openedNow id quantityToOpen db in
  match fetchJson response with
  | Resolved result =>
      (PantryStore.setItems st (openItem_update id result (PantryStore.items st)),
       db1)
  | ResolvedVoid => (st, db1)
  | Rejected message => (PantryStore.setError st message, db1)
  end.

(** *** Vocabulary for the client and the store *)

(** The sum of the quantities of a list of items. *)
Definition totalQuantity (l : list PantryItem.t) : Z :=
  fold_right (fun r sum => PantryItem.quantity r + sum) 0 l.

(** The hook holds the items of the database, in some order. *)
Definition itemsMirror (st : PantryStore.t) (db : Db) : Prop :=
  PantryStore.items st ≡ₚ items db.

(** The hook holds the listing of the areas, ranks aside. *)
Definition areasMirror (st : PantryStore.t) (db : Db) : Prop :=
  map (fun a => StorageArea.setOrder a 0) (PantryStore.storageAreas st)
  = map (fun a => StorageArea.setOrder a 0) (storageAreaQueries_getAll db).

(** At most one unopened record for an area, a name up to case and an
    expiry date other than the empty string. *)
Definition uniqueKeys (l : list PantryItem.t) : Prop :=
  forall r1 r2, r1 ∈ l -> r2 ∈ l ->
    PantryItem.isOpened r1 = false -> PantryItem.isOpened r2 = false ->
    PantryItem.storageAreaId r1 = PantryItem.storageAreaId r2 ->
    LOWER (PantryItem.name r1) = LOWER (PantryItem.name r2) ->
    PantryItem.expiryDate r1 = PantryItem.expiryDate r2 ->
    PantryItem.expiryDate r1 <> Some EmptyString ->
    PantryItem.id r1 = PantryItem.id r2.

(** ** Properties of the numbers *)

(** Up to [2 ^ 53] in absolute value every integer is a double. *)
Lemma fl_exact (z : Z) : - 2 ^ 53 <= z <= 2 ^ 53 -> fl z = z.
Proof.
  change (2 ^ 53) with 9007199254740992. intros Hz. unfold fl.
  destruct (Z.eq_dec (Z.abs z) 9007199254740992) as [Heq|Hne].
  - assert (z = 9007199254740992 \/ z = - 9007199254740992) as [-> | ->]
      by lia; reflexivity.
  - assert (Hlog : Z.log2 (Z.abs z) < 53).
    { destruct (Z.eq_dec (Z.abs z) 0) as [->|Hz0]; [done|].
      apply Z.log2_lt_pow2; [lia|].
      change (2 ^ 53) with 9007199254740992. lia. }
    destruct (Z.leb_spec (Z.log2 (Z.abs z) - 52) 0); [done|lia].
Qed.

Lemma jsAdd_exact (a b : Z) :
  - 2 ^ 53 <= a + b <= 2 ^ 53 -> jsAdd a b = a + b.
Proof. apply fl_exact. Qed.

Lemma jsSub_exact (a b : Z) :
  - 2 ^ 53 <= a - b <= 2 ^ 53 -> jsSub a b = a - b.
Proof. apply fl_exact. Qed.

(** ** Properties of the statements *)

Lemma find_map_stable {A} (p : A -> bool) (f : A -> A) (l : list A) :
  (forall x, p (f x) = p x) ->
  find p (map f l) = option_map f (find p l).
Proof.
  intros Hp. induction l as [|x l IH]; simpl; [done|].
  rewrite Hp. destruct (p x); [done|apply IH].
Qed.

Lemma find_snoc {A} (p : A -> bool) (l : list A) (x : A) :
  find p (l ++ [x]) =
  match find p l with
  | Some y => Some y
  | None => if p x then Some x else None
  end.
Proof.
  induction l as [|y l IH]; simpl; [done|].
  destruct (p y); [done|apply IH].
Qed.

Lemma find_filter_out {A} (p : A -> bool) (l : list A) :
  find p (filter (fun x => negb (p x)) l) = None.
Proof.
  induction l as [|x l IH]; [done|].
  rewrite filter_cons. destruct (decide _) as [Hx|Hx]; [|apply IH].
  simpl. destruct (p x); [done|apply IH].
Qed.

Lemma find_None_not_in {A} (p : A -> bool) (l : list A) :
  find p l = None <-> forall x, x ∈ l -> p x = false.
Proof.
  split.
  - intros H x Hx. apply (find_none p l H). by apply list_elem_of_In.
  - induction l as [|x l IH]; intros H; simpl; [done|].
    rewrite (H x) by left. apply IH. intros y Hy. apply H. by right.
Qed.

Lemma getById_found (s : Db) (id : string) (r : PantryItem.t) :
  itemQueries_getById s id = Some r ->
  r ∈ items s /\ PantryItem.id r = id.
Proof.
  intros H. apply find_some in H as [Hin Heq].
  split; [by apply list_elem_of_In|by apply String.eqb_eq].
Qed.

Lemma getById_unique_aux (l : list PantryItem.t) (r : PantryItem.t) :
  NoDup (map PantryItem.id l) -> r ∈ l ->
  find (fun x => String.eqb (PantryItem.id x) (PantryItem.id r)) l = Some r.
Proof.
  induction l as [|x l IH]; intros Hnd Hin; [by inv Hin|].
  simpl in *. apply NoDup_cons in Hnd as [Hx Hnd].
  destruct (String.eqb_spec (PantryItem.id x) (PantryItem.id r)) as [Heq|Hne].
  - apply elem_of_cons in Hin as [->|Hin]; [done|]. exfalso. apply Hx.
    rewrite Heq. apply list_elem_of_fmap. by exists r.
  - apply elem_of_cons in Hin as [->|Hin]; [done|]. by apply IH.
Qed.

(** With [id] a primary key, a stored row is the one its id selects. *)
Lemma getById_of_row (s : Db) (r : PantryItem.t) :
  NoDup (map PantryItem.id (items s)) -> r ∈ items s ->
  itemQueries_getById s (PantryItem.id r) = Some r.
Proof. apply getById_unique_aux. Qed.

Lemma getById_updateQuantity (s : Db) (id id' : string) (q : Z) :
  itemQueries_getById (itemQueries_updateQuantity s id q) id' =
  option_map (fun r => if String.eqb (PantryItem.id r) id
                       then PantryItem.setQuantity r q else r)
    (itemQueries_getById s id').
Proof.
  unfold itemQueries_getById, itemQueries_updateQuantity; simpl.
  apply find_map_stable. intros x. by destruct (String.eqb _ id).
Qed.

Lemma getById_update (s : Db) (id id' name : string) (q : Z) (o : bool)
    (t : option Z) (e : option string) :
  itemQueries_getById (itemQueries_update s id name q o t e) id' =
  option_map (fun r => if String.eqb (PantryItem.id r) id
                       then PantryItem.mk (PantryItem.id r) name q
                              (PantryItem.storageAreaId r)
                              (PantryItem.createdAt r) o t e
                       else r)
    (itemQueries_getById s id').
Proof.
  unfold itemQueries_getById, itemQueries_update; simpl.
  apply find_map_stable. intros x. by destruct (String.eqb _ id).
Qed.

Lemma getById_delete (s : Db) (id : string) :
  itemQueries_getById (itemQueries_delete s id) id = None.
Proof.
  unfold itemQueries_getById, itemQueries_delete; simpl.
  apply (find_filter_out (fun r => String.eqb (PantryItem.id r) id)).
Qed.

Lemma getById_insert (s : Db) (r : PantryItem.t) (id : string) :
  itemQueries_getById (mkDb (storage_areas s) (items s ++ [r])) id =
  match itemQueries_getById s id with
  | Some y => Some y
  | None => if String.eqb (PantryItem.id r) id then Some r else None
  end.
Proof.
  exact (find_snoc (fun x => String.eqb (PantryItem.id x) id) (items s) r).
Qed.

Lemma insert_fresh (s : Db) (r : PantryItem.t) :
  itemQueries_getById s (PantryItem.id r) = None ->
  (foreign_keys = true ->
   is_Some (storageAreaQueries_getById s (PantryItem.storageAreaId r))) ->
  itemQueries_insert s r = Some (mkDb (storage_areas s) (items s ++ [r])).
Proof.
  intros Hid Hfk. unfold itemQueries_insert. rewrite Hid.
  destruct foreign_keys; [|done]. simpl.
  rewrite bool_decide_eq_true_2 by auto. done.
Qed.

(** ** Properties of the item handlers *)

Lemma toISODate_nonempty (t : Z) : emptyb (toISODate t) = false.
Proof.
  unfold toISODate. destruct (civil_from_days _) as [[y m] d].
  by destruct (isoYear y).
Qed.

Lemma newExpiryDate_truthy (now : Z) (d : string) :
  emptyb d = false ->
  orNull (newExpiryDate now (Some d)) = newExpiryDate now (Some d).
Proof.
  intros Hd. unfold newExpiryDate. rewrite Hd.
  destruct (daysLeft _ d) as [n|]; simpl; [|by rewrite Hd].
  destruct (1 <? n); simpl; [by rewrite toISODate_nonempty|by rewrite Hd].
Qed.

Lemma openItem_full (genId : string) (now openedNow : Z) (id : string)
    (q : Z) (s : Db) (item : PantryItem.t) :
  itemQueries_getById s id = Some item ->
  PantryItem.quantity item <= q ->
  openItem genId now openedNow id q s =
  (Json 200 [openedInPlace now openedNow item],
   itemQueries_update s id (PantryItem.name item) (PantryItem.quantity item)
     true (Some openedNow)
     (orNull (newExpiryDate now (PantryItem.expiryDate item)))).
Proof.
  intros Hget Hq. unfold openItem. rewrite Hget.
  destruct (Z.leb_spec (PantryItem.quantity item) q); [|lia].
  rewrite getById_update, Hget. simpl.
  apply getById_found in Hget as [_ Hid].
  rewrite (proj2 (String.eqb_eq _ _) Hid). unfold openedInPlace.
  by rewrite Hid.
Qed.

Lemma openItem_split (genId : string) (now openedNow : Z) (id : string)
    (q : Z) (s : Db) (item : PantryItem.t) :
  itemQueries_getById s id = Some item ->
  q < PantryItem.quantity item ->
  itemQueries_getById s genId = None ->
  (foreign_keys = true ->
   is_Some (storageAreaQueries_getById s (PantryItem.storageAreaId item))) ->
  openItem genId now openedNow id q s =
  (Json 200 [PantryItem.setQuantity item (jsSub (PantryItem.quantity item) q);
             splitOff genId now openedNow q item],
   mkDb (storage_areas s)
     (items (itemQueries_updateQuantity s id (jsSub (PantryItem.quantity item) q))
      ++ [splitOff genId now openedNow q item])).
Proof.
  intros Hget Hq Hfresh Hfk. unfold openItem. rewrite Hget.
  destruct (Z.leb_spec (PantryItem.quantity item) q); [lia|].
  fold (splitOff genId now openedNow q item).
  rewrite insert_fresh; cycle 1.
  { by rewrite getById_updateQuantity; simpl; rewrite Hfresh. }
  { exact Hfk. }
  rewrite getById_insert, getById_updateQuantity, Hget. simpl.
  apply getById_found in Hget as [_ Hid].
  by rewrite (proj2 (String.eqb_eq _ _) Hid).
Qed.

Lemma map_id_stable (f : PantryItem.t -> PantryItem.t)
    (l : list PantryItem.t) :
  (forall r, PantryItem.id (f r) = PantryItem.id r) ->
  map PantryItem.id (map f l) = map PantryItem.id l.
Proof.
  intros Hf. rewrite map_map. apply map_ext. intros r. apply Hf.
Qed.

(** C3 (as amended).  Opening a part of an item: for a stored item of
    quantity [Q], at most [2 ^ 53], and [1 <= quantityToOpen < Q], when
    [generateId()] returns an id that no item has, [openItem] answers
    with two records whose quantities sum to [Q] and the table gains
    one row, the one of the new id.  The original keeps its id, its
    opened flag (an unopened item stays unopened) and its own expiry
    date, and has quantity [Q - quantityToOpen]; the new record has the
    generated id, the original's name, storage area and creation time,
    the quantity [quantityToOpen], [isOpened = true] and [openedAt]
    set. *)
Theorem openItem_split_conserves_quantity (genId : string)
    (now openedNow : Z) (id : string) (q : Z) (s : Db) (item : PantryItem.t) :
  itemQueries_getById s id = Some item ->
  1 <= q < PantryItem.quantity item ->
  PantryItem.quantity item <= 2 ^ 53 ->
  itemQueries_getById s genId = None ->
  (foreign_keys = true ->
   is_Some (storageAreaQueries_getById s (PantryItem.storageAreaId item))) ->
  exists original opened s',
    openItem genId now openedNow id q s = (Json 200 [original; opened], s')
    /\ items s' =
       map (fun r => if String.eqb (PantryItem.id r) id
                     then PantryItem.setQuantity r (PantryItem.quantity item - q)
                     else r) (items s) ++ [opened]
    /\ map PantryItem.id (items s') = map PantryItem.id (items s) ++ [genId]
    /\ storage_areas s' = storage_areas s
    /\ itemQueries_getById s' id = Some original
    /\ itemQueries_getById s' genId = Some opened
    /\ PantryItem.quantity original + PantryItem.quantity opened
       = PantryItem.quantity item
    /\ (PantryItem.id original = id
        /\ PantryItem.isOpened original = PantryItem.isOpened item
        /\ (PantryItem.isOpened item = false ->
            PantryItem.isOpened original = false)
        /\ PantryItem.expiryDate original = PantryItem.expiryDate item
        /\ PantryItem.quantity original = PantryItem.quantity item - q
        /\ PantryItem.name original = PantryItem.name item
        /\ PantryItem.storageAreaId original = PantryItem.storageAreaId item
        /\ PantryItem.createdAt original = PantryItem.createdAt item
        /\ PantryItem.openedAt original = PantryItem.openedAt item)
    /\ (PantryItem.id opened = genId
        /\ PantryItem.name opened = PantryItem.name item
        /\ PantryItem.storageAreaId opened = PantryItem.storageAreaId item
        /\ PantryItem.createdAt opened = PantryItem.createdAt item
        /\ PantryItem.quantity opened = q
        /\ PantryItem.isOpened opened = true
        /\ PantryItem.openedAt opened = Some openedNow).
Proof.
  intros Hget [Hq1 Hq2] Hmax Hfresh Hfk.
  assert (Hexact : jsSub (PantryItem.quantity item) q
                   = PantryItem.quantity item - q).
  { apply jsSub_exact. change (2 ^ 53) with 9007199254740992 in *. lia. }
  eexists _, _, _.
  split; [apply openItem_split; [done|lia|done|done]|].
  rewrite Hexact.
  pose proof (getById_found _ _ _ Hget) as [_ Hid].
  split; [done|].
  split.
  { cbn [items itemQueries_updateQuantity]. rewrite map_app. f_equal.
    apply map_id_stable. intros r. by destruct (String.eqb _ id). }
  split; [done|].
  set (s1 := itemQueries_updateQuantity s id (PantryItem.quantity item - q)).
  split.
  { rewrite (getById_insert s1). unfold s1.
    rewrite getById_updateQuantity, Hget. simpl.
    by rewrite (proj2 (String.eqb_eq _ _) Hid). }
  split.
  { rewrite (getById_insert s1). unfold s1.
    rewrite getById_updateQuantity, Hfresh. simpl.
    by rewrite String.eqb_refl. }
  split; [simpl; lia|].
  by repeat split.
Qed.



(** The expiry date of the record that [openItem] marks as opened, for
    an item that has an expiry date [d]: with [today] the start of the
    current day in the zone of the process and
    [daysLeft = ceil((d - today) / 1 day)], it is the UTC date of the
    instant [today + max(1, floor(daysLeft / 2))] days when
    [daysLeft > 1], and [d] itself otherwise (also when [d] is not a
    valid date).  When [d] is read as the instant ten days after
    [today], the result is the UTC date of [today] plus five days; when
    it is read as an instant at most one day after [today], it is
    kept.  A date-only [d] is read as midnight UTC, so these two cases
    speak of a process whose midnight is that of UTC. *)
Theorem openItem_expiry_halving (genId : string) (now openedNow : Z)
    (id : string) (q : Z) (s : Db) (item : PantryItem.t) (d : string) :
  itemQueries_getById s id = Some item ->
  PantryItem.expiryDate item = Some d ->
  emptyb d = false ->
  itemQueries_getById s genId = None ->
  (foreign_keys = true ->
   is_Some (storageAreaQueries_getById s (PantryItem.storageAreaId item))) ->
  let today := startOfDay now in
  exists body opened s',
    openItem genId now openedNow id q s = (Json 200 body, s')
    /\ last body = Some opened
    /\ PantryItem.isOpened opened = true
    /\ PantryItem.expiryDate opened =
       match Date_parse d with
       | Some expiry =>
           let daysLeft := ceilDiv (expiry - today) DAY in
           if 1 <? daysLeft
           then Some (toISODate (today + Z.max 1 (daysLeft / 2) * DAY))
           else Some d
       | None => Some d
       end
    /\ (Date_parse d = Some (today + 10 * DAY) ->
        PantryItem.expiryDate opened = Some (toISODate (today + 5 * DAY)))
    /\ (forall expiry, Date_parse d = Some expiry -> expiry <= today + DAY ->
        PantryItem.expiryDate opened = Some d).
Proof.
  intros Hget Hd Hne Hfresh Hfk today.
  assert (Hrule : newExpiryDate now (Some d) =
    match Date_parse d with
    | Some expiry =>
        let daysLeft := ceilDiv (expiry - today) DAY in
        if 1 <? daysLeft
        then Some (toISODate (today + Z.max 1 (daysLeft / 2) * DAY))
        else Some d
    | None => Some d
    end).
  { unfold newExpiryDate, daysLeft. rewrite Hne. fold today.
    destruct (Date_parse d) as [expiry|]; [|done]. simpl.
    change (1000 * 60 * 60 * 24) with DAY.
    destruct (1 <? ceilDiv (expiry - today) DAY); [|done].
    do 2 f_equal. unfold DAY. lia. }
  assert (Hopened : exists body opened s',
    openItem genId now openedNow id q s = (Json 200 body, s')
    /\ last body = Some opened
    /\ PantryItem.isOpened opened = true
    /\ PantryItem.expiryDate opened = newExpiryDate now (Some d)).
  { destruct (Z.le_gt_cases (PantryItem.quantity item) q) as [Hq|Hq].
    - eexists _, _, _. split; [by apply openItem_full|].
      split; [done|]. split; [done|]. simpl.
      rewrite Hd. by apply newExpiryDate_truthy.
    - eexists _, _, _. split; [apply openItem_split; [done|lia|done|done]|].
      split; [done|]. split; [done|]. simpl. by rewrite Hd. }
  destruct Hopened as (body & opened & s' & Hrun & Hlast & Hflag & Hexp).
  exists body, opened, s'.
  split; [done|]. split; [done|]. split; [done|].
  rewrite Hexp, Hrule. split; [done|]. split.
  - intros ->. cbv zeta.
    replace (today + 10 * DAY - today) with (10 * DAY) by lia.
    change (ceilDiv (10 * DAY) DAY) with 10.
    change (1 <? 10) with true. cbv iota.
    by change (Z.max 1 (10 / 2)) with 5.
  - intros expiry -> Hle. cbv zeta.
    assert (ceilDiv (expiry - today) DAY <= 1) as Hc.
    { unfold ceilDiv.
      assert (-1 <= (- (expiry - today)) / DAY); [|lia].
      apply Z.div_le_lower_bound; unfold DAY in *; lia. }
    destruct (Z.ltb_spec 1 (ceilDiv (expiry - today) DAY)); [lia|done].
Qed.

(** C6.  [adjustQuantity]: an unknown id is answered 404 and the store
    is unchanged; a quantity below 1 deletes the record, answers 204
    without a record, and a later lookup of the id is answered 404;
    otherwise the quantity is overwritten with exactly the new value and
    the updated record is returned, every other field unchanged. *)
Theorem adjustQuantity_spec (id : string) (quantity : Z) (s : Db) :
  (itemQueries_getById s id = None ->
   adjustQuantity id quantity s = (Error 404 "Item not found", s))
  /\ (forall item, itemQueries_getById s id = Some item -> quantity < 1 ->
      exists s',
        adjustQuantity id quantity s = (NoContent, s')
        /\ items s' =
           filter (fun r => negb (String.eqb (PantryItem.id r) id)) (items s)
        /\ storage_areas s' = storage_areas s
        /\ getItem id s' = (Error 404 "Item not found", s'))
  /\ (forall item, itemQueries_getById s id = Some item -> 1 <= quantity ->
      exists updated s',
        adjustQuantity id quantity s = (Json 200 updated, s')
        /\ itemQueries_getById s' id = Some updated
        /\ map PantryItem.id (items s') = map PantryItem.id (items s)
        /\ (forall r, r ∈ items s -> PantryItem.id r <> id -> r ∈ items s')
        /\ PantryItem.quantity updated = quantity
        /\ PantryItem.id updated = PantryItem.id item
        /\ PantryItem.name updated = PantryItem.name item
        /\ PantryItem.storageAreaId updated = PantryItem.storageAreaId item
        /\ PantryItem.createdAt updated = PantryItem.createdAt item
        /\ PantryItem.isOpened updated = PantryItem.isOpened item
        /\ PantryItem.openedAt updated = PantryItem.openedAt item
        /\ PantryItem.expiryDate updated = PantryItem.expiryDate item).
Proof.
  split; [|split].
  - intros Hget. unfold adjustQuantity. by rewrite Hget.
  - intros item Hget Hq. eexists. unfold adjustQuantity. rewrite Hget.
    destruct (Z.ltb_spec quantity 1); [|lia].
    split; [done|]. split; [done|]. split; [done|].
    unfold getItem. by rewrite getById_delete.
  - intros item Hget Hq.
    pose proof (getById_found _ _ _ Hget) as [_ Hid].
    assert (Hupd : itemQueries_getById
                     (itemQueries_updateQuantity s id quantity) id
                   = Some (PantryItem.setQuantity item quantity)).
    { rewrite getById_updateQuantity, Hget. simpl.
      by rewrite (proj2 (String.eqb_eq _ _) Hid). }
    eexists _, _. unfold adjustQuantity. rewrite Hget.
    destruct (Z.ltb_spec quantity 1); [lia|]. rewrite Hupd.
    split; [done|]. split; [done|].
    split.
    { simpl. apply map_id_stable. intros r. by destruct (String.eqb _ id). }
    split.
    { intros r Hr Hne. simpl. apply list_elem_of_fmap. exists r.
      split; [|done].
      by destruct (String.eqb_spec (PantryItem.id r) id). }
    by repeat split.
Qed.

(** [openItem] does not validate [quantityToOpen]: a
    request with [quantityToOpen <= 0] for a stored item of quantity [Q]
    is answered 200.  When [quantityToOpen < Q] the item is split: the
    original's quantity becomes [Q - quantityToOpen] and a new opened
    record of quantity [quantityToOpen] is inserted, so the store
    changes; when [Q <= quantityToOpen] the record is opened in place.
    The sibling handlers refuse such a quantity: [POST /api/items]
    answers 400 below 1, and [PUT /api/items/:id/quantity] deletes. *)
Theorem openItem_nonpositive_not_validated (genId : string)
    (now openedNow : Z) (id : string) (q : Z) (s : Db) (item : PantryItem.t) :
  itemQueries_getById s id = Some item ->
  q <= 0 ->
  itemQueries_getById s genId = None ->
  (foreign_keys = true ->
   is_Some (storageAreaQueries_getById s (PantryItem.storageAreaId item))) ->
  (q < PantryItem.quantity item ->
   exists s',
     openItem genId now openedNow id q s =
     (Json 200 [PantryItem.setQuantity item
                  (jsSub (PantryItem.quantity item) q);
                splitOff genId now openedNow q item], s')
     /\ items s' =
        items (itemQueries_updateQuantity s id
                 (jsSub (PantryItem.quantity item) q))
        ++ [splitOff genId now openedNow q item]
     /\ length (items s') = S (length (items s))
     /\ s' <> s)
  /\ (PantryItem.quantity item <= q ->
      openItem genId now openedNow id q s =
      (Json 200 [openedInPlace now openedNow item],
       itemQueries_update s id (PantryItem.name item)
         (PantryItem.quantity item) true (Some openedNow)
         (orNull (newExpiryDate now (PantryItem.expiryDate item))))).
Proof.
  intros Hget Hq Hfresh Hfk. split.
  - intros Hlt. eexists. split; [by apply openItem_split|].
    split; [done|].
    assert (Hlen : length (items (itemQueries_updateQuantity s id
                     (jsSub (PantryItem.quantity item) q))
                   ++ [splitOff genId now openedNow q item])
                   = S (length (items s))).
    { rewrite length_app. simpl. rewrite length_map. lia. }
    split; [exact Hlen|].
    intros Heq. rewrite <- Heq in Hlen at 2. simpl in Hlen. lia.
  - intros Hge. by apply openItem_full.
Qed.

(** ** Creation and merging *)

Lemma expiryMatches_eq (column param : option string) :
  expiryMatches column param = true <-> column = param.
Proof.
  destruct column as [a|], param as [b|]; simpl; try (split; congruence).
  rewrite String.eqb_eq. split; congruence.
Qed.

(** The [WHERE] clause of [findMergeable], spelled out. *)
Lemma mergeable_iff (storageAreaId name : string) (expiryDate : option string)
    (r : PantryItem.t) :
  mergeable storageAreaId name expiryDate r = true <->
  PantryItem.storageAreaId r = storageAreaId
  /\ LOWER (PantryItem.name r) = LOWER name
  /\ PantryItem.isOpened r = false
  /\ PantryItem.expiryDate r = expiryDate.
Proof.
  unfold mergeable. rewrite !andb_true_iff, !String.eqb_eq, negb_true_iff,
    expiryMatches_eq.
  split; [intros [[[? ?] ?] ?]|intros (? & ? & ? & ?)]; auto.
Qed.

Lemma mergeable_name (storageAreaId n1 n2 : string)
    (expiryDate : option string) (r : PantryItem.t) :
  LOWER n1 = LOWER n2 ->
  mergeable storageAreaId n1 expiryDate r
  = mergeable storageAreaId n2 expiryDate r.
Proof. intros H. unfold mergeable. by rewrite H. Qed.

Lemma findMergeable_name (s : Db) (storageAreaId n1 n2 : string)
    (expiryDate : option string) :
  LOWER n1 = LOWER n2 ->
  itemQueries_findMergeable s storageAreaId n1 expiryDate
  = itemQueries_findMergeable s storageAreaId n2 expiryDate.
Proof.
  intros H. unfold itemQueries_findMergeable.
  induction (items s) as [|r l IH]; simpl; [done|].
  by rewrite (mergeable_name _ _ _ _ _ H), IH.
Qed.

Lemma findMergeable_Some (s : Db) (storageAreaId name : string)
    (expiryDate : option string) (r : PantryItem.t) :
  itemQueries_findMergeable s storageAreaId name expiryDate = Some r ->
  r ∈ items s /\ mergeable storageAreaId name expiryDate r = true.
Proof.
  intros H. apply find_some in H as [Hin Hm].
  split; [by apply list_elem_of_In|done].
Qed.

Lemma findMergeable_insert (s : Db) (r : PantryItem.t)
    (storageAreaId name : string) (expiryDate : option string) :
  itemQueries_findMergeable (mkDb (storage_areas s) (items s ++ [r]))
    storageAreaId name expiryDate =
  match itemQueries_findMergeable s storageAreaId name expiryDate with
  | Some y => Some y
  | None => if mergeable storageAreaId name expiryDate r then Some r else None
  end.
Proof.
  exact (find_snoc (mergeable storageAreaId name expiryDate) (items s) r).
Qed.

Lemma filter_none {A} (p : A -> bool) (l : list A) :
  (forall x, x ∈ l -> p x = false) -> filter (fun x => p x) l = [].
Proof.
  induction l as [|x l IH]; intros H; [done|].
  rewrite filter_cons_False; [|rewrite (H x) by left; exact id].
  apply IH. intros y Hy. apply H. by right.
Qed.

Ltac pass_checks Hvalid body :=
  let Hn := fresh "Hname" in
  let Hq := fresh "Hquantity" in
  let Ha := fresh "Harea" in
  destruct Hvalid as (Hn & Hq & Ha);
  unfold createOrMergeItem; rewrite Hn, Ha;
  destruct (Z.eqb_spec (body_quantity body) 0); [lia|];
  destruct (Z.ltb_spec (body_quantity body) 1); [lia|];
  cbn [orb].

(** Nothing to merge with: a record is inserted. *)
Lemma createOrMergeItem_create (genId : string) (now : Z) (body : ItemBody)
    (s : Db) :
  validBody body ->
  itemQueries_findMergeable s (body_storageAreaId body)
    (trim (body_name body)) (orNull (body_expiryDate body)) = None ->
  itemQueries_getById s genId = None ->
  (foreign_keys = true ->
   is_Some (storageAreaQueries_getById s (body_storageAreaId body))) ->
  createOrMergeItem genId now body s =
  (Json 201 (newItemOf genId now body),
   mkDb (storage_areas s) (items s ++ [newItemOf genId now body])).
Proof.
  intros Hvalid Hfind Hfresh Hfk. pass_checks Hvalid body.
  rewrite Hfind. fold (newItemOf genId now body).
  by rewrite insert_fresh.
Qed.

(** A duplicate is found: its quantity grows by the requested one. *)
Lemma createOrMergeItem_merge (genId : string) (now : Z) (body : ItemBody)
    (s : Db) (existing : PantryItem.t) :
  validBody body ->
  itemQueries_findMergeable s (body_storageAreaId body)
    (trim (body_name body)) (orNull (body_expiryDate body)) = Some existing ->
  itemQueries_getById s (PantryItem.id existing) = Some existing ->
  createOrMergeItem genId now body s =
  (Json 200 (PantryItem.setQuantity existing
               (jsAdd (PantryItem.quantity existing) (body_quantity body))),
   itemQueries_updateQuantity s (PantryItem.id existing)
     (jsAdd (PantryItem.quantity existing) (body_quantity body))).
Proof.
  intros Hvalid Hfind Hget. pass_checks Hvalid body.
  rewrite Hfind, getById_updateQuantity, Hget. simpl.
  by rewrite String.eqb_refl.
Qed.

(** The rule the handler implements: the request is merged into the first
    row of its area that is unopened, has the same name up to the case of
    ASCII letters, and whose stored expiry date equals the requested one
    after [|| null]; without such a row a record is created.  The
    merged quantity is the sum as the handler adds it, exact up to
    [2 ^ 53]. *)
Lemma createOrMergeItem_rule (genId : string) (now : Z) (body : ItemBody)
    (s : Db) :
  validBody body ->
  NoDup (map PantryItem.id (items s)) ->
  itemQueries_getById s genId = None ->
  (foreign_keys = true ->
   is_Some (storageAreaQueries_getById s (body_storageAreaId body))) ->
  (forall r, r ∈ items s ->
     ~ (PantryItem.storageAreaId r = body_storageAreaId body
        /\ LOWER (PantryItem.name r) = LOWER (trim (body_name body))
        /\ PantryItem.isOpened r = false
        /\ PantryItem.expiryDate r = orNull (body_expiryDate body)))
  /\ createOrMergeItem genId now body s =
     (Json 201 (newItemOf genId now body),
      mkDb (storage_areas s) (items s ++ [newItemOf genId now body]))
  \/
  (exists r, r ∈ items s
     /\ PantryItem.storageAreaId r = body_storageAreaId body
     /\ LOWER (PantryItem.name r) = LOWER (trim (body_name body))
     /\ PantryItem.isOpened r = false
     /\ PantryItem.expiryDate r = orNull (body_expiryDate body)
     /\ createOrMergeItem genId now body s =
        (Json 200 (PantryItem.setQuantity r
                     (jsAdd (PantryItem.quantity r) (body_quantity body))),
         itemQueries_updateQuantity s (PantryItem.id r)
           (jsAdd (PantryItem.quantity r) (body_quantity body)))
     /\ (- 2 ^ 53 <= PantryItem.quantity r + body_quantity body <= 2 ^ 53 ->
         jsAdd (PantryItem.quantity r) (body_quantity body)
         = PantryItem.quantity r + body_quantity body)).
Proof.
  intros Hvalid Hnd Hfresh Hfk.
  destruct (itemQueries_findMergeable s (body_storageAreaId body)
              (trim (body_name body)) (orNull (body_expiryDate body)))
    as [r|] eqn:Hfind.
  - right. exists r.
    pose proof (findMergeable_Some _ _ _ _ _ Hfind) as [Hin Hm].
    apply mergeable_iff in Hm as (H1 & H2 & H3 & H4).
    repeat (split; [done|]). split; [|apply jsAdd_exact].
    apply createOrMergeItem_merge; [done|done|].
    by apply getById_of_row.
  - left. split; [|by apply createOrMergeItem_create].
    intros r Hin Hm. apply mergeable_iff in Hm.
    pose proof (proj1 (find_None_not_in _ _) Hfind r Hin). congruence.
Qed.

(** Two requests for the same key, the expiry date absent or a non-empty
    string, starting without an unopened record of that key: one record
    results, with the id and creation time of the first request and
    the sum of the two quantities as the handler adds them, which is
    [q1 + q2] up to [2 ^ 53]. *)
Lemma createOrMergeItem_twice (genId1 genId2 : string) (now1 now2 : Z)
    (b1 b2 : ItemBody) (s : Db) :
  validBody b1 -> validBody b2 ->
  body_storageAreaId b1 = body_storageAreaId b2 ->
  LOWER (trim (body_name b1)) = LOWER (trim (body_name b2)) ->
  body_expiryDate b1 = body_expiryDate b2 ->
  orNull (body_expiryDate b1) = body_expiryDate b1 ->
  itemQueries_findMergeable s (body_storageAreaId b1)
    (trim (body_name b1)) (body_expiryDate b1) = None ->
  itemQueries_getById s genId1 = None ->
  (foreign_keys = true ->
   is_Some (storageAreaQueries_getById s (body_storageAreaId b1))) ->
  let first := newItemOf genId1 now1 b1 in
  let merged :=
    PantryItem.setQuantity first (jsAdd (body_quantity b1) (body_quantity b2)) in
  let '(r1, s1) := createOrMergeItem genId1 now1 b1 s in
  let '(r2, s2) := createOrMergeItem genId2 now2 b2 s1 in
  r1 = Json 201 first
  /\ r2 = Json 200 merged
  /\ items s2 = items s ++ [merged]
  /\ filter (fun r => mergeable (body_storageAreaId b1) (trim (body_name b1))
                        (body_expiryDate b1) r) (items s2) = [merged]
  /\ PantryItem.id merged = genId1
  /\ PantryItem.createdAt merged = now1
  /\ (body_quantity b1 + body_quantity b2 <= 2 ^ 53 ->
      PantryItem.quantity merged = body_quantity b1 + body_quantity b2).
Proof.
  intros Hv1 Hv2 Harea Hname Hexp Hnorm Hnone Hfresh Hfk first merged.
  assert (Hexact : body_quantity b1 + body_quantity b2 <= 2 ^ 53 ->
            PantryItem.quantity merged
            = body_quantity b1 + body_quantity b2).
  { intros Hmax. destruct Hv1 as (_ & Hq1 & _), Hv2 as (_ & Hq2 & _).
    apply jsAdd_exact. change (2 ^ 53) with 9007199254740992 in *. lia. }
  rewrite createOrMergeItem_create; [|done|by rewrite Hnorm|done|done].
  fold first.
  assert (Hm : mergeable (body_storageAreaId b1) (trim (body_name b1))
                 (body_expiryDate b1) first = true).
  { apply mergeable_iff. by repeat split. }
  rewrite (createOrMergeItem_merge _ _ _ _ first); [|done| |]; cycle 1.
  { rewrite <- Hexp, Hnorm, <- Harea, findMergeable_insert.
    rewrite <- (findMergeable_name _ _ _ _ _ Hname), Hnone.
    by rewrite <- (mergeable_name _ _ _ _ _ Hname), Hm. }
  { rewrite getById_insert. simpl. by rewrite Hfresh, String.eqb_refl. }
  assert (Hold : forall r, r ∈ items s ->
            (if String.eqb (PantryItem.id r) genId1
             then PantryItem.setQuantity r
                    (jsAdd (body_quantity b1) (body_quantity b2))
             else r) = r).
  { intros r Hr.
    pose proof (proj1 (find_None_not_in _ _) Hfresh r Hr) as Hne.
    simpl in Hne. by rewrite Hne. }
  assert (Hitems : map (fun r => if String.eqb (PantryItem.id r) genId1
                          then PantryItem.setQuantity r
                                 (jsAdd (body_quantity b1) (body_quantity b2))
                          else r) (items s ++ [first]) = items s ++ [merged]).
  { rewrite map_app. simpl. rewrite String.eqb_refl. f_equal.
    rewrite <- (map_id (items s)) at 2. apply map_ext_in.
    intros r Hr. apply Hold. by apply list_elem_of_In. }
  split; [done|]. split; [done|]. simpl. rewrite Hitems.
  split; [done|]. split; [|by repeat split].
  rewrite filter_app.
  replace (filter _ (items s)) with (@nil PantryItem.t).
  - simpl. rewrite filter_cons_True; [done|].
    apply Is_true_true. apply mergeable_iff.
    apply mergeable_iff in Hm as (?&?&?&?). by repeat split.
  - symmetry.
    apply (filter_none (mergeable (body_storageAreaId b1)
                          (trim (body_name b1)) (body_expiryDate b1))).
    apply find_None_not_in. exact Hnone.
Qed.


(** ** Ordering of the storage areas *)

Lemma insertByOrder_perm (a : StorageArea.t) (l : list StorageArea.t) :
  insertByOrder a l ≡ₚ a :: l.
Proof.
  induction l as [|b l IH]; simpl; [done|].
  destruct (_ <=? _); [done|]. rewrite IH. apply perm_swap.
Qed.

Lemma sortByOrder_perm (l : list StorageArea.t) : sortByOrder l ≡ₚ l.
Proof.
  induction l as [|a l IH]; simpl; [done|].
  by rewrite insertByOrder_perm, IH.
Qed.

Lemma insertByOrder_sorted (a : StorageArea.t) (l : list StorageArea.t) :
  StronglySorted orderLe l -> StronglySorted orderLe (insertByOrder a l).
Proof.
  induction 1 as [|b l Hl IH Hb]; simpl.
  { repeat constructor. }
  destruct (Z.leb_spec (StorageArea.order a) (StorageArea.order b)) as [Hab|Hab].
  - constructor; [by constructor|].
    constructor; [done|].
    eapply Forall_impl; [exact Hb|]. unfold orderLe. intros; lia.
  - constructor; [done|].
    rewrite insertByOrder_perm. constructor; [unfold orderLe; lia|done].
Qed.

Lemma sortByOrder_sorted (l : list StorageArea.t) :
  StronglySorted orderLe (sortByOrder l).
Proof.
  induction l as [|a l IH]; simpl; [constructor|].
  by apply insertByOrder_sorted.
Qed.

Lemma insertByOrder_head (a : StorageArea.t) (l : list StorageArea.t) :
  Forall (orderLe a) l -> insertByOrder a l = a :: l.
Proof.
  destruct 1 as [|b l Hb _]; simpl; [done|].
  destruct (Z.leb_spec (StorageArea.order a) (StorageArea.order b));
    [done|unfold orderLe in Hb; lia].
Qed.

Lemma filter_insertByOrder (p : StorageArea.t -> bool) (a : StorageArea.t)
    (l : list StorageArea.t) :
  StronglySorted orderLe l ->
  filter (fun x => p x) (insertByOrder a l) =
  if p a then insertByOrder a (filter (fun x => p x) l)
  else filter (fun x => p x) l.
Proof.
  induction 1 as [|b l Hl IH Hb]; simpl.
  { rewrite filter_cons, filter_nil.
    destruct (p a); by destruct (decide _). }
  destruct (Z.leb_spec (StorageArea.order a) (StorageArea.order b)) as [Hab|Hab].
  - rewrite (filter_cons _ a).
    destruct (p a) eqn:Ha; destruct (decide _) as [?|?]; try done.
    rewrite insertByOrder_head; [done|].
    apply Forall_forall. intros c Hc.
    apply list_elem_of_filter in Hc as [_ Hc].
    apply elem_of_cons in Hc as [->|Hc]; [done|].
    rewrite Forall_forall in Hb. specialize (Hb c Hc).
    unfold orderLe in *. lia.
  - rewrite (filter_cons _ b), IH, (filter_cons _ b).
    destruct (p a), (decide _); try done. simpl.
    by destruct (Z.leb_spec (StorageArea.order a) (StorageArea.order b));
      [lia|].
Qed.

Lemma filter_sortByOrder (p : StorageArea.t -> bool)
    (l : list StorageArea.t) :
  filter (fun x => p x) (sortByOrder l) = sortByOrder (filter (fun x => p x) l).
Proof.
  induction l as [|a l IH]; simpl; [done|].
  rewrite filter_insertByOrder by apply sortByOrder_sorted.
  rewrite filter_cons, IH.
  destruct (p a); by destruct (decide _).
Qed.

(** [reorderAreas] through [reindex]. *)
Lemma reorderFrom_areas (index : Z) (ids : list string) (s : Db) :
  storage_areas (reorderFrom index ids s)
  = map (reindex index ids) (storage_areas s).
Proof.
  revert index s. induction ids as [|id rest IH]; intros index s; simpl.
  { by rewrite map_id. }
  rewrite IH. simpl. by rewrite map_map.
Qed.

Lemma reorderFrom_items (index : Z) (ids : list string) (s : Db) :
  items (reorderFrom index ids s) = items s.
Proof.
  revert index s. induction ids as [|id rest IH]; intros index s; simpl;
    [done|by rewrite IH].
Qed.

Lemma reindex_id (index : Z) (ids : list string) (a : StorageArea.t) :
  StorageArea.id (reindex index ids a) = StorageArea.id a.
Proof.
  revert index a. induction ids as [|id rest IH]; intros index a; simpl;
    [done|].
  rewrite IH. by destruct (String.eqb _ id).
Qed.

Lemma reindex_not_in (index : Z) (ids : list string) (a : StorageArea.t) :
  StorageArea.id a ∉ ids -> reindex index ids a = a.
Proof.
  revert index. induction ids as [|id rest IH]; intros index Hnot; simpl;
    [done|].
  apply not_elem_of_cons in Hnot as [Hne Hnot].
  destruct (String.eqb_spec (StorageArea.id a) id); [done|]. by apply IH.
Qed.

(** On a listing without repeated ids, [reorderAreas] applied to the ids
    of the listing renumbers it. *)
Lemma reindex_renumber (index : Z) (l : list StorageArea.t) :
  NoDup (map StorageArea.id l) ->
  map (reindex index (map StorageArea.id l)) l = renumber index l.
Proof.
  revert index. induction l as [|a l IH]; intros index Hnd; simpl; [done|].
  apply NoDup_cons in Hnd as [Ha Hnd].
  rewrite String.eqb_refl. f_equal.
  - by apply reindex_not_in.
  - rewrite <- IH by done. apply map_ext_in. intros b Hb.
    destruct (String.eqb_spec (StorageArea.id b) (StorageArea.id a)) as [Heq|];
      [|done].
    exfalso. apply Ha. rewrite <- Heq. apply list_elem_of_fmap.
    exists b. split; [done|by apply list_elem_of_In].
Qed.

Lemma renumber_order (index : Z) (l : list StorageArea.t) :
  map StorageArea.order (renumber index l)
  = seqZ index (Z.of_nat (length l)).
Proof.
  revert index. induction l as [|a l IH]; intros index; [done|].
  cbn [renumber map length]. rewrite IH, (seqZ_cons index) by lia.
  do 2 f_equal; lia.
Qed.

Lemma renumber_id (index : Z) (l : list StorageArea.t) :
  map StorageArea.id (renumber index l) = map StorageArea.id l.
Proof.
  revert index. induction l as [|a l IH]; intros index; simpl; [done|].
  by rewrite IH.
Qed.

Lemma length_renumber (index : Z) (l : list StorageArea.t) :
  length (renumber index l) = length l.
Proof.
  revert index. induction l as [|a l IH]; intros index; simpl; [done|].
  by rewrite IH.
Qed.

Lemma renumber_ge (index : Z) (l : list StorageArea.t) (x : StorageArea.t) :
  x ∈ renumber index l -> index <= StorageArea.order x.
Proof.
  revert index. induction l as [|a l IH]; intros index Hx; simpl in Hx.
  { by apply elem_of_nil in Hx. }
  apply elem_of_cons in Hx as [->|Hx]; [simpl; lia|].
  apply IH in Hx. lia.
Qed.

Lemma renumber_sorted (index : Z) (l : list StorageArea.t) :
  StronglySorted orderLt (renumber index l).
Proof.
  revert index. induction l as [|a l IH]; intros index; simpl;
    constructor; [apply IH|].
  apply Forall_forall. intros x Hx. apply renumber_ge in Hx.
  unfold orderLt. simpl. lia.
Qed.

Lemma orderLt_orderLe (l : list StorageArea.t) :
  StronglySorted orderLt l -> StronglySorted orderLe l.
Proof.
  induction 1 as [|a l Hl IH Ha]; constructor; [done|].
  eapply Forall_impl; [exact Ha|]. unfold orderLt, orderLe. intros; lia.
Qed.

Lemma renumber_order_inj (index : Z) (l : list StorageArea.t)
    (x y : StorageArea.t) :
  x ∈ renumber index l -> y ∈ renumber index l ->
  StorageArea.order x = StorageArea.order y -> x = y.
Proof.
  revert index. induction l as [|a l IH]; intros index Hx Hy Heq;
    simpl in Hx, Hy.
  { by apply elem_of_nil in Hx. }
  apply elem_of_cons in Hx as [->|Hx]; apply elem_of_cons in Hy as [->|Hy].
  - done.
  - apply renumber_ge in Hy. simpl in Heq. lia.
  - apply renumber_ge in Hx. simpl in Heq. lia.
  - by apply (IH (index + 1)).
Qed.

(** Listing a table to which [reorderAreas] was applied with the ids of
    a listing of it gives that listing, renumbered. *)
Lemma sortByOrder_reindex (t l : list StorageArea.t) :
  NoDup (map StorageArea.id t) -> l ≡ₚ t ->
  sortByOrder (map (reindex 0 (map StorageArea.id l)) t) = renumber 0 l.
Proof.
  intros Hnd Hperm.
  assert (Hndl : NoDup (map StorageArea.id l)) by by rewrite Hperm.
  assert (Hp : sortByOrder (map (reindex 0 (map StorageArea.id l)) t)
               ≡ₚ renumber 0 l).
  { rewrite sortByOrder_perm, <- Hperm. by rewrite reindex_renumber. }
  apply (StronglySorted_unique_strong orderLe); [| | |done].
  - intros x y Hx Hy Hxy Hyx. rewrite Hp in Hx.
    apply (renumber_order_inj 0 l); [done|done|].
    unfold orderLe in *. lia.
  - apply sortByOrder_sorted.
  - apply orderLt_orderLe, renumber_sorted.
Qed.

Lemma NoDup_map_filter {A B} (f : A -> B) (p : A -> bool) (l : list A) :
  NoDup (map f l) -> NoDup (map f (filter (fun x => p x) l)).
Proof.
  induction l as [|a l IH]; intros Hnd; [constructor|].
  simpl in Hnd. apply NoDup_cons in Hnd as [Ha Hnd].
  rewrite filter_cons. destruct (decide _); [|by apply IH].
  simpl. apply NoDup_cons. split; [|by apply IH].
  intros Hin. apply Ha. apply list_elem_of_fmap in Hin as (b & Hb & Hin).
  apply list_elem_of_filter in Hin as [_ Hin].
  apply list_elem_of_fmap. by exists b.
Qed.

Lemma length_filter_out_id (id : string) (l : list StorageArea.t)
    (a : StorageArea.t) :
  NoDup (map StorageArea.id l) ->
  find (fun x => String.eqb (StorageArea.id x) id) l = Some a ->
  S (length (filter (fun x => negb (String.eqb (StorageArea.id x) id)) l))
  = length l.
Proof.
  induction l as [|b l IH]; intros Hnd Hfind; [done|].
  simpl in Hnd, Hfind. apply NoDup_cons in Hnd as [Hb Hnd].
  destruct (String.eqb_spec (StorageArea.id b) id) as [Heq|Hne].
  - rewrite filter_cons_False;
      [|rewrite (proj2 (String.eqb_eq _ _) Heq); exact (fun H => H)].
    simpl. f_equal. clear IH Hfind.
    induction l as [|c l IH]; [done|].
    simpl in Hb, Hnd. apply NoDup_cons in Hnd as [_ Hnd].
    apply not_elem_of_cons in Hb as [Hc Hb].
    rewrite filter_cons_True.
    + simpl. f_equal. by apply IH.
    + apply Is_true_true, negb_true_iff. apply String.eqb_neq. congruence.
  - rewrite filter_cons_True.
    + simpl. f_equal. by apply IH.
    + apply Is_true_true, negb_true_iff. by apply String.eqb_neq.
Qed.

Lemma map_id_filter (q : string -> bool) (l : list StorageArea.t) :
  map StorageArea.id (filter (fun a => q (StorageArea.id a)) l)
  = filter (fun x => q x) (map StorageArea.id l).
Proof.
  induction l as [|a l IH]; [done|].
  change (map StorageArea.id (a :: l))
    with (StorageArea.id a :: map StorageArea.id l).
  rewrite !filter_cons.
  destruct (decide (q (StorageArea.id a))); simpl; by rewrite IH.
Qed.

Lemma filter_twice {A} (p : A -> bool) (l : list A) :
  filter (fun x => p x) (filter (fun x => p x) l) = filter (fun x => p x) l.
Proof.
  induction l as [|x l IH]; [done|].
  rewrite filter_cons. destruct (decide _) as [Hx|Hx]; [|done].
  by rewrite filter_cons_True, IH.
Qed.

(** [deleteArea] on an existing area, with [id] a primary key of
    [storage_areas]: the items of the area are gone, and the listing of
    the areas is the former listing without the area, renumbered from
    0. *)
Lemma deleteArea_found (id : string) (s : Db) (area : StorageArea.t) :
  NoDup (map StorageArea.id (storage_areas s)) ->
  storageAreaQueries_getById s id = Some area ->
  exists s',
    deleteArea id s = (NoContent, s')
    /\ items s' =
       filter (fun r => negb (String.eqb (PantryItem.storageAreaId r) id))
         (items s)
    /\ storageAreaQueries_getAll s' =
       renumber 0
         (filter (fun a => negb (String.eqb (StorageArea.id a) id))
            (storageAreaQueries_getAll s))
    /\ storageAreaQueries_getById s' id = None
    /\ S (length (storage_areas s')) = length (storage_areas s).
Proof.
  intros Hnd Hget.
  set (t2 := filter (fun a => negb (String.eqb (StorageArea.id a) id))
               (storage_areas s)).
  set (its := filter (fun r => negb (String.eqb (PantryItem.storageAreaId r) id))
                (items s)).
  set (s2 := storageAreaQueries_delete (itemQueries_deleteByStorageArea s id) id).
  assert (Hareas2 : storage_areas s2 = t2) by done.
  assert (Hitems2 : items s2 = its).
  { unfold s2, storageAreaQueries_delete. simpl.
    destruct foreign_keys; [|done]. apply (filter_twice
      (fun r => negb (String.eqb (PantryItem.storageAreaId r) id))). }
  set (ids := map StorageArea.id (storageAreaQueries_getAll s2)).
  exists (reorderAreas ids s2).
  split.
  { unfold deleteArea. rewrite Hget. fold s2. fold ids.
    destruct (Z.ltb_spec 0 (Z.of_nat (length ids))) as [|Hlen]; [done|].
    destruct ids; [done|simpl in Hlen; lia]. }
  unfold reorderAreas.
  split; [by rewrite reorderFrom_items|].
  assert (Hnd2 : NoDup (map StorageArea.id t2)).
  { apply (NoDup_map_filter StorageArea.id
             (fun a => negb (String.eqb (StorageArea.id a) id))), Hnd. }
  split.
  { unfold storageAreaQueries_getAll at 1.
    rewrite reorderFrom_areas, Hareas2. unfold ids, storageAreaQueries_getAll.
    rewrite Hareas2, sortByOrder_reindex; [|done|apply sortByOrder_perm].
    f_equal. symmetry.
    apply (filter_sortByOrder
             (fun a => negb (String.eqb (StorageArea.id a) id))). }
  split.
  { unfold storageAreaQueries_getById.
    rewrite reorderFrom_areas, Hareas2, find_map_stable.
    - unfold t2.
      by rewrite (find_filter_out
                    (fun a => String.eqb (StorageArea.id a) id)).
    - intros x. by rewrite reindex_id. }
  rewrite reorderFrom_areas, length_map, Hareas2.
  by apply (length_filter_out_id id _ area).
Qed.

Lemma deleteArea_not_found (id : string) (s : Db) :
  storageAreaQueries_getById s id = None ->
  deleteArea id s = (Error 404 "Storage area not found", s).
Proof. intros H. unfold deleteArea. by rewrite H. Qed.

Lemma ordersPacked_NoDup (l : list StorageArea.t) :
  ordersPacked l -> NoDup (map StorageArea.order l).
Proof. unfold ordersPacked. intros ->. apply NoDup_seqZ. Qed.

Lemma sorted_strict (l : list StorageArea.t) :
  NoDup (map StorageArea.order l) ->
  StronglySorted orderLe l -> StronglySorted orderLt l.
Proof.
  intros Hnd. induction 1 as [|a l Hl IH Ha]; [constructor|].
  simpl in Hnd. apply NoDup_cons in Hnd as [Hnot Hnd].
  constructor; [by apply IH|].
  rewrite Forall_forall in *. intros b Hb. specialize (Ha b Hb).
  assert (StorageArea.order a <> StorageArea.order b).
  { intros Heq. apply Hnot. rewrite Heq. apply list_elem_of_fmap.
    by exists b. }
  unfold orderLe, orderLt in *. lia.
Qed.

(** C7.  With [N] areas whose ranks are [0..N-1], deleting one of them
    deletes every item that references it and the area itself, and the
    surviving areas, listed in their former relative order, have the
    ranks [0..N-2]; an id that references no area is answered 404 and
    nothing is deleted. *)
Theorem deleteArea_repacks_order (id : string) (s : Db) :
  NoDup (map StorageArea.id (storage_areas s)) ->
  ordersPacked (storage_areas s) ->
  (forall area, storageAreaQueries_getById s id = Some area ->
     exists s',
       deleteArea id s = (NoContent, s')
       /\ items s' =
          filter (fun r => negb (String.eqb (PantryItem.storageAreaId r) id))
            (items s)
       /\ storageAreaQueries_getById s' id = None
       /\ StronglySorted orderLt (storageAreaQueries_getAll s)
       /\ storageAreaQueries_getAll s' =
          renumber 0
            (filter (fun a => negb (String.eqb (StorageArea.id a) id))
               (storageAreaQueries_getAll s))
       /\ map StorageArea.id (storageAreaQueries_getAll s') =
          filter (fun x => negb (String.eqb x id))
            (map StorageArea.id (storageAreaQueries_getAll s))
       /\ map StorageArea.order (storageAreaQueries_getAll s') =
          seqZ 0 (Z.of_nat (length (storage_areas s)) - 1))
  /\ (storageAreaQueries_getById s id = None ->
      deleteArea id s = (Error 404 "Storage area not found", s)).
Proof.
  intros Hnd Hpacked. split; [|apply deleteArea_not_found].
  intros area Hget.
  destruct (deleteArea_found id s area Hnd Hget)
    as (s' & Hrun & Hitems & Hall & Hgone & Hlen).
  exists s'. split; [done|]. split; [done|]. split; [done|].
  split.
  { apply sorted_strict; [|apply sortByOrder_sorted].
    apply ordersPacked_NoDup in Hpacked.
    unfold storageAreaQueries_getAll. by rewrite sortByOrder_perm. }
  split; [done|].
  split.
  { rewrite Hall, renumber_id.
    apply (map_id_filter (fun x => negb (String.eqb x id))). }
  assert (Hcount : length (storageAreaQueries_getAll s')
                    = length (storage_areas s')).
  { unfold storageAreaQueries_getAll. by rewrite sortByOrder_perm. }
  rewrite Hall, length_renumber in Hcount.
  rewrite Hall, renumber_order. f_equal. lia.
Qed.

(** ** The rank invariant *)

Lemma fold_max_spec (l : list StorageArea.t) (a0 : Z) :
  let m := fold_left (fun m b => Z.max m (StorageArea.order b)) l a0 in
  a0 <= m
  /\ (forall b, b ∈ l -> StorageArea.order b <= m)
  /\ (m = a0 \/ m ∈ map StorageArea.order l).
Proof.
  revert a0. induction l as [|b l IH]; intros a0; simpl.
  { split; [lia|]. split; [|by left]. intros b Hb. by apply elem_of_nil in Hb. }
  destruct (IH (Z.max a0 (StorageArea.order b))) as (H1 & H2 & H3).
  split; [lia|]. split.
  - intros c Hc. apply elem_of_cons in Hc as [->|Hc]; [lia|by apply H2].
  - destruct H3 as [H3|H3]; [|right; by right].
    destruct (Z.max_spec a0 (StorageArea.order b)) as [[_ Hm]|[_ Hm]].
    + right. rewrite H3, Hm. by left.
    + left. by rewrite H3, Hm.
Qed.

Lemma getMaxOrder_packed (s : Db) :
  ordersPacked (storage_areas s) ->
  storageAreaQueries_getMaxOrder s =
  match storage_areas s with
  | [] => None
  | _ :: _ => Some (Z.of_nat (length (storage_areas s)) - 1)
  end.
Proof.
  unfold storageAreaQueries_getMaxOrder, ordersPacked.
  destruct (storage_areas s) as [|a l]; [done|]. intros Hp. f_equal.
  destruct (fold_max_spec l (StorageArea.order a)) as (H1 & H2 & H3).
  set (m := fold_left _ l _) in *.
  assert (Hin : m ∈ map StorageArea.order (a :: l)).
  { destruct H3 as [->|H3]; [by left|by right]. }
  rewrite Hp in Hin. apply elem_of_seqZ in Hin.
  assert (Hlast : Z.of_nat (length (a :: l)) - 1
                  ∈ map StorageArea.order (a :: l)).
  { rewrite Hp. apply elem_of_seqZ. simpl length. lia. }
  apply list_elem_of_fmap in Hlast as (b & Hb & Hlast).
  assert (StorageArea.order b <= m).
  { apply elem_of_cons in Hlast as [->|Hlast]; [done|by apply H2]. }
  lia.
Qed.

Lemma createArea_packed (genId : string) (body : AreaBody) (s : Db) :
  ordersPacked (storage_areas s) ->
  ordersPacked (storage_areas (snd (createArea genId body s))).
Proof.
  intros Hp. unfold createArea.
  destruct (emptyb _); [done|].
  unfold storageAreaQueries_insert. simpl StorageArea.id.
  destruct (storageAreaQueries_getById s genId); [done|]. simpl.
  rewrite (getMaxOrder_packed s Hp). unfold ordersPacked in *.
  rewrite map_app, length_app, Nat.add_1_r, seqZ_S, Hp. simpl.
  destruct (storage_areas s); simpl; [done|].
  apply Permutation_app_head. apply Permutation_refl'. f_equal. lia.
Qed.

Lemma area_of_row (l : list StorageArea.t) (a b : StorageArea.t) :
  NoDup (map StorageArea.id l) ->
  find (fun x => String.eqb (StorageArea.id x) (StorageArea.id b)) l = Some a ->
  b ∈ l -> b = a.
Proof.
  induction l as [|x l IH]; intros Hnd Hfind Hin.
  { by apply elem_of_nil in Hin. }
  simpl in *. apply NoDup_cons in Hnd as [Hx Hnd].
  destruct (String.eqb_spec (StorageArea.id x) (StorageArea.id b)) as [Heq|Hne].
  - apply elem_of_cons in Hin as [->|Hin]; [congruence|].
    exfalso. apply Hx. rewrite Heq. apply list_elem_of_fmap. by exists b.
  - apply elem_of_cons in Hin as [->|Hin]; [done|]. by apply IH.
Qed.

Lemma updateArea_packed (id : string) (patch : AreaPatch) (s : Db) :
  NoDup (map StorageArea.id (storage_areas s)) ->
  ordersPacked (storage_areas s) ->
  (forall existing, storageAreaQueries_getById s id = Some existing ->
     default (StorageArea.order existing) (patch_order patch)
     = StorageArea.order existing) ->
  ordersPacked (storage_areas (snd (updateArea id patch s))).
Proof.
  intros Hnd Hp Hsame. unfold updateArea.
  destruct (storageAreaQueries_getById s id) as [existing|] eqn:Hget;
    [|done].
  rewrite (Hsame existing eq_refl). unfold ordersPacked in *.
  cbn [snd storageAreaQueries_update storage_areas].
  rewrite length_map, <- Hp.
  match goal with
  | |- map _ (map ?f ?l) ≡ₚ _ =>
      replace (map StorageArea.order (map f l)) with (map StorageArea.order l);
      [done|]
  end.
  rewrite map_map. symmetry. apply map_ext_in. intros b Hb.
  cbn [StorageArea.id].
  destruct (String.eqb_spec (StorageArea.id b) id) as [Heq|]; [|done].
  simpl. symmetry. f_equal. apply (area_of_row (storage_areas s)).
  - done.
  - by rewrite Heq.
  - by apply list_elem_of_In.
Qed.

Lemma renumber_packed (l : list StorageArea.t) :
  ordersPacked (renumber 0 l).
Proof.
  unfold ordersPacked. by rewrite renumber_order, length_renumber.
Qed.

Lemma ordersPacked_perm (l1 l2 : list StorageArea.t) :
  l1 ≡ₚ l2 -> ordersPacked l1 -> ordersPacked l2.
Proof. unfold ordersPacked. by intros ->. Qed.

Lemma deleteArea_packed (id : string) (s : Db) :
  NoDup (map StorageArea.id (storage_areas s)) ->
  ordersPacked (storage_areas s) ->
  ordersPacked (storage_areas (snd (deleteArea id s))).
Proof.
  intros Hnd Hp.
  destruct (storageAreaQueries_getById s id) as [area|] eqn:Hget.
  - destruct (deleteArea_found id s area Hnd Hget)
      as (s' & -> & _ & Hall & _). simpl.
    apply (ordersPacked_perm (storageAreaQueries_getAll s')).
    + apply sortByOrder_perm.
    + rewrite Hall. apply renumber_packed.
  - by rewrite deleteArea_not_found.
Qed.

Lemma reorderBatch_packed (ids : list string) (s : Db) :
  NoDup (map StorageArea.id (storage_areas s)) ->
  ids ≡ₚ map StorageArea.id (storage_areas s) ->
  ordersPacked (storage_areas (snd (reorderBatch ids s))).
Proof.
  intros Hnd Hperm. unfold reorderBatch, reorderAreas. simpl.
  rewrite reorderFrom_areas.
  destruct (Permutation_map_inv _ _ Hperm) as (l & -> & Hl).
  apply (ordersPacked_perm (map (reindex 0 (map StorageArea.id l)) l)).
  - by rewrite Hl.
  - rewrite reindex_renumber; [apply renumber_packed|]. by rewrite <- Hl.
Qed.

Lemma seed_packed (s : Db) :
  ordersPacked (storage_areas s) -> ordersPacked (storage_areas (seed s)).
Proof.
  intros Hp. unfold seed. destruct s as [areas its]. simpl.
  destruct areas as [|a l]; [|done]. simpl. unfold ordersPacked. by simpl.
Qed.

(** C8 (as amended).  With [id] a primary key of [storage_areas], a
    table whose ranks are a permutation of [0..count-1] is mapped to
    such a table by [createArea], by [deleteArea], by the seeding, by
    [updateArea] when the rank is left as it is, and by the reorder
    request when the sequence is a permutation of the ids of the
    table. *)
Theorem order_invariant_preserved (s : Db) :
  NoDup (map StorageArea.id (storage_areas s)) ->
  ordersPacked (storage_areas s) ->
  (forall genId body,
     ordersPacked (storage_areas (snd (createArea genId body s))))
  /\ (forall id patch,
        (forall existing, storageAreaQueries_getById s id = Some existing ->
           default (StorageArea.order existing) (patch_order patch)
           = StorageArea.order existing) ->
        ordersPacked (storage_areas (snd (updateArea id patch s))))
  /\ (forall id, ordersPacked (storage_areas (snd (deleteArea id s))))
  /\ (forall ids, ids ≡ₚ map StorageArea.id (storage_areas s) ->
        ordersPacked (storage_areas (snd (reorderBatch ids s))))
  /\ ordersPacked (storage_areas (seed s)).
Proof.
  intros Hnd Hp.
  split; [intros; by apply createArea_packed|].
  split; [intros; by apply updateArea_packed|].
  split; [intros; by apply deleteArea_packed|].
  split; [intros; by apply reorderBatch_packed|].
  by apply seed_packed.
Qed.

(** ** The constraints of the schema hold in every state

    The hypotheses of the statements above on the store (ids are
    primary keys, the area of a stored item exists) hold after the
    seeding and are kept by every handler. *)

Lemma areaById_is_Some (s : Db) (id : string) :
  is_Some (storageAreaQueries_getById s id)
  <-> id ∈ map StorageArea.id (storage_areas s).
Proof.
  unfold storageAreaQueries_getById. split.
  - intros [a Ha]. apply find_some in Ha as [Hin Heq].
    apply String.eqb_eq in Heq. subst id.
    apply list_elem_of_fmap. exists a. split; [done|by apply list_elem_of_In].
  - intros Hin. apply list_elem_of_fmap in Hin as (a & -> & Hin).
    destruct (find _ (storage_areas s)) eqn:Hfind; [by eexists|].
    pose proof (proj1 (find_None_not_in _ _) Hfind a Hin) as Hne.
    simpl in Hne. by rewrite String.eqb_refl in Hne.
Qed.

Lemma itemById_None (s : Db) (id : string) :
  itemQueries_getById s id = None -> id ∉ map PantryItem.id (items s).
Proof.
  intros Hnone Hin. apply list_elem_of_fmap in Hin as (r & -> & Hin).
  pose proof (proj1 (find_None_not_in _ _) Hnone r Hin) as Hne.
  simpl in Hne. by rewrite String.eqb_refl in Hne.
Qed.

(** The two hypotheses on a stored item, from the constraints. *)
Lemma schemaOk_item (s : Db) (id : string) (item : PantryItem.t) :
  schemaOk s -> itemQueries_getById s id = Some item ->
  foreign_keys = true ->
  is_Some (storageAreaQueries_getById s (PantryItem.storageAreaId item)).
Proof.
  intros (_ & _ & Hfk) Hget Hon. apply areaById_is_Some.
  apply (Hfk Hon). by apply (getById_found s id).
Qed.

Lemma schemaOk_map_items (f : PantryItem.t -> PantryItem.t) (s : Db) :
  (forall r, PantryItem.id (f r) = PantryItem.id r) ->
  (forall r, PantryItem.storageAreaId (f r) = PantryItem.storageAreaId r) ->
  schemaOk s -> schemaOk (mkDb (storage_areas s) (map f (items s))).
Proof.
  intros Hid Harea (Ha & Hi & Hfk). split; [done|]. split.
  - simpl. by rewrite map_id_stable.
  - intros Hon r Hr. simpl in *.
    apply list_elem_of_fmap in Hr as (r0 & -> & Hr0).
    rewrite Harea. by apply Hfk.
Qed.

Lemma schemaOk_filter_items (p : PantryItem.t -> bool) (s : Db) :
  schemaOk s ->
  schemaOk (mkDb (storage_areas s) (filter (fun r => p r) (items s))).
Proof.
  intros (Ha & Hi & Hfk). split; [done|]. split.
  - by apply (NoDup_map_filter PantryItem.id p).
  - intros Hon r Hr. simpl in *.
    apply list_elem_of_filter in Hr as [_ Hr]. by apply Hfk.
Qed.

Lemma schemaOk_insert_item (s s' : Db) (r : PantryItem.t) :
  itemQueries_insert s r = Some s' -> schemaOk s -> schemaOk s'.
Proof.
  unfold itemQueries_insert. intros Hins (Ha & Hi & Hfk).
  destruct (itemQueries_getById s (PantryItem.id r)) eqn:Hget; [done|].
  destruct (foreign_keys && _) eqn:Hcheck; [done|].
  injection Hins as <-. split; [done|]. split.
  - simpl. rewrite map_app. apply NoDup_app. split; [done|]. split.
    + intros x Hx Hx'. apply list_elem_of_singleton in Hx'. subst x.
      by apply (itemById_None s) in Hx.
    + apply NoDup_singleton.
  - intros Hon x Hx. simpl in *.
    apply elem_of_app in Hx as [Hx|Hx]; [by apply Hfk|].
    apply list_elem_of_singleton in Hx. subst x.
    rewrite Hon in Hcheck. simpl in Hcheck.
    apply negb_false_iff, bool_decide_eq_true in Hcheck.
    by apply areaById_is_Some.
Qed.

Lemma schemaOk_map_areas (f : StorageArea.t -> StorageArea.t) (s : Db) :
  (forall a, a ∈ storage_areas s -> StorageArea.id (f a) = StorageArea.id a) ->
  schemaOk s -> schemaOk (mkDb (map f (storage_areas s)) (items s)).
Proof.
  intros Hid (Ha & Hi & Hfk).
  assert (Hids : map StorageArea.id (map f (storage_areas s))
                 = map StorageArea.id (storage_areas s)).
  { rewrite map_map. apply map_ext_in. intros a Hin. apply Hid.
    by apply list_elem_of_In. }
  split; [simpl; by rewrite Hids|]. split; [done|].
  intros Hon r Hr. simpl in *. rewrite Hids. by apply Hfk.
Qed.

Lemma schemaOk_insert_area (s s' : Db) (a : StorageArea.t) :
  storageAreaQueries_insert s a = Some s' -> schemaOk s -> schemaOk s'.
Proof.
  unfold storageAreaQueries_insert. intros Hins (Ha & Hi & Hfk).
  destruct (storageAreaQueries_getById s (StorageArea.id a)) eqn:Hget;
    [done|].
  injection Hins as <-. split; [|split; [done|]].
  - simpl. rewrite map_app. apply NoDup_app. split; [done|]. split.
    + intros x Hx Hx'. apply list_elem_of_singleton in Hx'. subst x.
      apply areaById_is_Some in Hx. rewrite Hget in Hx. by destruct Hx.
    + apply NoDup_singleton.
  - intros Hon r Hr. simpl in *. rewrite map_app.
    apply elem_of_app. left. by apply Hfk.
Qed.

Lemma schemaOk_reorderFrom (index : Z) (ids : list string) (s : Db) :
  schemaOk s -> schemaOk (reorderFrom index ids s).
Proof.
  intros Hok.
  replace (reorderFrom index ids s)
    with (mkDb (map (reindex index ids) (storage_areas s)) (items s)).
  - apply schemaOk_map_areas; [|done]. intros a _. apply reindex_id.
  - rewrite <- reorderFrom_areas, <- (reorderFrom_items index ids s).
    by destruct (reorderFrom index ids s).
Qed.

Lemma schemaOk_createOrMergeItem (genId : string) (now : Z)
    (body : ItemBody) (s : Db) :
  schemaOk s -> schemaOk (snd (createOrMergeItem genId now body s)).
Proof.
  intros Hok. unfold createOrMergeItem.
  destruct (emptyb (trim _)); [done|].
  destruct (_ || _); [done|].
  destruct (emptyb _); [done|].
  destruct (itemQueries_findMergeable _ _ _ _) as [existing|].
  - assert (schemaOk (itemQueries_updateQuantity s (PantryItem.id existing)
              (jsAdd (PantryItem.quantity existing) (body_quantity body)))).
    { apply schemaOk_map_items; [| |done];
        intros r; by destruct (String.eqb _ _). }
    by destruct (itemQueries_getById _ _).
  - destruct (itemQueries_insert s _) as [s1|] eqn:Hins; [|done].
    by apply (schemaOk_insert_item s s1 _ Hins).
Qed.

Lemma schemaOk_adjustQuantity (id : string) (quantity : Z) (s : Db) :
  schemaOk s -> schemaOk (snd (adjustQuantity id quantity s)).
Proof.
  intros Hok. unfold adjustQuantity.
  destruct (itemQueries_getById s id); [|done].
  destruct (quantity <? 1).
  - apply (schemaOk_filter_items
             (fun r => negb (String.eqb (PantryItem.id r) id))), Hok.
  - assert (schemaOk (itemQueries_updateQuantity s id quantity)).
    { apply schemaOk_map_items; [| |done];
        intros r; by destruct (String.eqb _ _). }
    by destruct (itemQueries_getById _ _).
Qed.

Lemma schemaOk_openItem (genId : string) (now openedNow : Z) (id : string)
    (q : Z) (s : Db) :
  schemaOk s -> schemaOk (snd (openItem genId now openedNow id q s)).
Proof.
  intros Hok. unfold openItem.
  destruct (itemQueries_getById s id) as [item|]; [|done].
  destruct (_ <=? _).
  - match goal with
    | |- context [itemQueries_update s id ?n ?k ?o ?t ?e] =>
        assert (schemaOk (itemQueries_update s id n k o t e))
    end.
    { apply schemaOk_map_items; [| |done];
        intros r; by destruct (String.eqb _ _). }
    by destruct (itemQueries_getById _ _).
  - assert (Hupd : schemaOk (itemQueries_updateQuantity s id
                      (jsSub (PantryItem.quantity item) q))).
    { apply schemaOk_map_items; [| |done];
        intros r; by destruct (String.eqb _ _). }
    destruct (itemQueries_insert _ _) as [s2|] eqn:Hins; [|done].
    apply (schemaOk_insert_item _ s2 _ Hins) in Hupd.
    by destruct (itemQueries_getById _ _).
Qed.

Lemma schemaOk_deleteItem (id : string) (s : Db) :
  schemaOk s -> schemaOk (snd (deleteItem id s)).
Proof.
  intros Hok. unfold deleteItem.
  destruct (itemQueries_getById s id); [|done].
  apply (schemaOk_filter_items
           (fun r => negb (String.eqb (PantryItem.id r) id))), Hok.
Qed.

Lemma schemaOk_createArea (genId : string) (body : AreaBody) (s : Db) :
  schemaOk s -> schemaOk (snd (createArea genId body s)).
Proof.
  intros Hok. unfold createArea.
  destruct (emptyb _); [done|].
  destruct (storageAreaQueries_insert s _) as [s1|] eqn:Hins; [|done].
  by apply (schemaOk_insert_area s s1 _ Hins).
Qed.

Lemma schemaOk_updateArea (id : string) (patch : AreaPatch) (s : Db) :
  schemaOk s -> schemaOk (snd (updateArea id patch s)).
Proof.
  intros Hok. unfold updateArea.
  destruct (storageAreaQueries_getById s id); [|done].
  apply schemaOk_map_areas; [|done]. intros a _. simpl.
  by destruct (String.eqb_spec (StorageArea.id a) id).
Qed.

Lemma schemaOk_deleteArea (id : string) (s : Db) :
  schemaOk s -> schemaOk (snd (deleteArea id s)).
Proof.
  intros Hok. unfold deleteArea.
  destruct (storageAreaQueries_getById s id); [|done].
  set (s2 := storageAreaQueries_delete _ id).
  assert (Hok2 : schemaOk s2).
  { destruct Hok as (Ha & Hi & Hfk). split; [|split].
    - apply (NoDup_map_filter StorageArea.id
               (fun a => negb (String.eqb (StorageArea.id a) id))), Ha.
    - unfold s2, storageAreaQueries_delete. simpl.
      destruct foreign_keys;
        repeat apply (NoDup_map_filter PantryItem.id
          (fun r => negb (String.eqb (PantryItem.storageAreaId r) id)));
        done.
    - intros Hon r Hr. unfold s2, storageAreaQueries_delete in *.
      simpl in *. rewrite Hon in Hr.
      apply list_elem_of_filter in Hr as [_ Hr].
      apply list_elem_of_filter in Hr as [Hne Hr].
      specialize (Hfk Hon r Hr).
      apply list_elem_of_fmap in Hfk as (a & Heq & Hin).
      apply list_elem_of_fmap. exists a. split; [done|].
      apply list_elem_of_filter. split; [|done]. by rewrite <- Heq. }
  destruct (0 <? _); [|done]. by apply schemaOk_reorderFrom.
Qed.

Lemma schemaOk_reorderBatch (ids : list string) (s : Db) :
  schemaOk s -> schemaOk (snd (reorderBatch ids s)).
Proof. intros Hok. by apply schemaOk_reorderFrom. Qed.

Lemma schemaOk_seed (s : Db) : schemaOk s -> schemaOk (seed s).
Proof.
  intros Hok. unfold seed. destruct (_ =? 0); [|done].
  destruct (insertMany _ s) as [s'|] eqn:Hins; [|done].
  simpl in Hins.
  repeat match type of Hins with
  | match storageAreaQueries_insert ?t ?a with _ => _ end = _ =>
      let H := fresh "Hins" in
      destruct (storageAreaQueries_insert t a) eqn:H; [|done];
      apply (schemaOk_insert_area _ _ _ H) in Hok
  end.
  by injection Hins as <-.
Qed.

Lemma schemaOk_initial : schemaOk (seed (mkDb [] [])).
Proof.
  apply schemaOk_seed. split; [constructor|]. split; [constructor|].
  intros _ r Hr. by apply elem_of_nil in Hr.
Qed.

(** ** The other routes of the items *)

Lemma getById_of_member (s : Db) (r : PantryItem.t) :
  r ∈ items s -> is_Some (itemQueries_getById s (PantryItem.id r)).
Proof.
  intros Hin. destruct (itemQueries_getById s (PantryItem.id r)) eqn:Hget;
    [by eexists|].
  pose proof (proj1 (find_None_not_in _ _) Hget r Hin) as Hne.
  simpl in Hne. by rewrite String.eqb_refl in Hne.
Qed.

(** [POST /api/items] answers 400, and leaves the store as it is,
    exactly for the bodies with a blank name, a quantity below 1 or an
    empty area id. *)
Theorem createOrMergeItem_rejects_invalid (genId : string) (now : Z)
    (body : ItemBody) (s : Db) :
  (~ validBody body ->
   exists message,
     createOrMergeItem genId now body s = (Error 400 message, s))
  /\ (validBody body ->
      forall message,
        fst (createOrMergeItem genId now body s) <> Error 400 message).
Proof.
  unfold validBody, createOrMergeItem. split.
  - intros Hinvalid.
    destruct (emptyb (trim (body_name body))); [by eexists|].
    destruct (Z.eqb_spec (body_quantity body) 0); [by eexists|].
    destruct (Z.ltb_spec (body_quantity body) 1); [by eexists|].
    destruct (emptyb (body_storageAreaId body)); [by eexists|].
    exfalso. apply Hinvalid. by repeat split.
  - intros (Hname & Hq & Harea) message. rewrite Hname, Harea.
    destruct (Z.eqb_spec (body_quantity body) 0); [lia|].
    destruct (Z.ltb_spec (body_quantity body) 1); [lia|]. cbn [orb].
    destruct (itemQueries_findMergeable _ _ _ _).
    + by destruct (itemQueries_getById _ _).
    + by destruct (itemQueries_insert _ _).
Qed.

Lemma totalQuantity_app (l1 l2 : list PantryItem.t) :
  totalQuantity (l1 ++ l2) = totalQuantity l1 + totalQuantity l2.
Proof.
  induction l1 as [|r l1 IH]; simpl; [done|]. rewrite IH. lia.
Qed.

Lemma totalQuantity_perm (l1 l2 : list PantryItem.t) :
  l1 ≡ₚ l2 -> totalQuantity l1 = totalQuantity l2.
Proof.
  induction 1 as [|r l1 l2 _ IH|r1 r2 l|l1 l2 l3 _ IH1 _ IH2]; simpl; lia.
Qed.

Lemma totalQuantity_map_same (f : PantryItem.t -> PantryItem.t)
    (l : list PantryItem.t) :
  (forall r, r ∈ l -> PantryItem.quantity (f r) = PantryItem.quantity r) ->
  totalQuantity (map f l) = totalQuantity l.
Proof.
  induction l as [|r l IH]; intros Hf; simpl; [done|].
  rewrite (Hf r) by left. rewrite IH; [done|].
  intros x Hx. apply Hf. by right.
Qed.

(** Changing the row of one id changes the total by the difference. *)
Lemma totalQuantity_update (f : PantryItem.t -> PantryItem.t)
    (l : list PantryItem.t) (r : PantryItem.t) :
  NoDup (map PantryItem.id l) -> r ∈ l ->
  totalQuantity
    (map (fun x => if String.eqb (PantryItem.id x) (PantryItem.id r)
                   then f x else x) l)
  = totalQuantity l - PantryItem.quantity r + PantryItem.quantity (f r).
Proof.
  induction l as [|x l IH]; intros Hnd Hin; [by apply elem_of_nil in Hin|].
  simpl in *. apply NoDup_cons in Hnd as [Hx Hnd].
  destruct (String.eqb_spec (PantryItem.id x) (PantryItem.id r)) as [Heq|Hne].
  - assert (x = r) as ->.
    { apply elem_of_cons in Hin as [->|Hin]; [done|]. exfalso. apply Hx.
      rewrite Heq. apply list_elem_of_fmap. by exists r. }
    rewrite totalQuantity_map_same; [lia|].
    intros y Hy.
    destruct (String.eqb_spec (PantryItem.id y) (PantryItem.id r)) as [Hy'|];
      [|done].
    exfalso. apply Hx. rewrite <- Hy'. apply list_elem_of_fmap. by exists y.
  - apply elem_of_cons in Hin as [->|Hin]; [done|].
    rewrite IH by done. lia.
Qed.

(** Every accepted [POST /api/items] adds exactly the requested quantity
    to the total of the store, whether the request is merged or a
    record is created, as long as the sum with a stored quantity stays
    within [2 ^ 53], where the addition of the handler is exact; the
    areas stay as they are, and a request that is answered with an
    error changes nothing. *)
Theorem createOrMergeItem_adds_quantity (genId : string) (now : Z)
    (body : ItemBody) (s : Db) :
  NoDup (map PantryItem.id (items s)) ->
  (forall r, r ∈ items s ->
     - 2 ^ 53 <= PantryItem.quantity r + body_quantity body <= 2 ^ 53) ->
  let '(response, s') := createOrMergeItem genId now body s in
  storage_areas s' = storage_areas s
  /\ match response with
     | Json _ _ =>
         totalQuantity (items s')
         = totalQuantity (items s) + body_quantity body
         /\ (length (items s') <= S (length (items s)))%nat
     | _ => s' = s
     end.
Proof.
  intros Hnd Hsafe. unfold createOrMergeItem.
  destruct (emptyb (trim _)); [done|].
  destruct (_ || _); [done|].
  destruct (emptyb _); [done|].
  destruct (itemQueries_findMergeable _ _ _ _) as [existing|] eqn:Hfind.
  - apply findMergeable_Some in Hfind as [Hin _].
    rewrite (jsAdd_exact _ _ (Hsafe existing Hin)).
    rewrite getById_updateQuantity.
    destruct (getById_of_member s existing Hin) as [x ->]. simpl.
    split; [done|]. split; [|by rewrite length_map; lia].
    rewrite (totalQuantity_update
               (fun x => PantryItem.setQuantity x
                           (PantryItem.quantity existing
                            + body_quantity body)))
      by done.
    simpl. lia.
  - destruct (itemQueries_insert s _) as [s1|] eqn:Hins; [|done].
    unfold itemQueries_insert in Hins.
    destruct (itemQueries_getById s _); [done|].
    destruct (foreign_keys && _); [done|]. injection Hins as <-. simpl.
    split; [done|]. rewrite totalQuantity_app, length_app. simpl.
    split; lia.
Qed.

Lemma row_of_id (s : Db) (id : string) (item r : PantryItem.t) :
  NoDup (map PantryItem.id (items s)) ->
  itemQueries_getById s id = Some item ->
  r ∈ items s -> PantryItem.id r = id -> r = item.
Proof.
  intros Hnd Hget Hin Hid.
  pose proof (getById_of_row s r Hnd Hin) as Hr.
  rewrite Hid, Hget in Hr. by injection Hr.
Qed.

Lemma openItem_full_total (genId : string) (now openedNow : Z)
    (id : string) (q : Z) (s : Db) (item : PantryItem.t) :
  NoDup (map PantryItem.id (items s)) ->
  itemQueries_getById s id = Some item ->
  PantryItem.quantity item <= q ->
  totalQuantity (items (snd (openItem genId now openedNow id q s)))
  = totalQuantity (items s).
Proof.
  intros Hnd Hget Hq. rewrite (openItem_full genId now openedNow id q s item)
    by done.
  simpl. apply totalQuantity_map_same. intros r Hr.
  destruct (String.eqb_spec (PantryItem.id r) id) as [Heq|]; [|done].
  simpl. by rewrite (row_of_id s id item r).
Qed.

Lemma openItem_split_total (genId : string) (now openedNow : Z)
    (id : string) (q : Z) (s : Db) (item : PantryItem.t) :
  NoDup (map PantryItem.id (items s)) ->
  itemQueries_getById s id = Some item ->
  q < PantryItem.quantity item ->
  - 2 ^ 53 <= PantryItem.quantity item - q <= 2 ^ 53 ->
  itemQueries_getById s genId = None ->
  (foreign_keys = true ->
   is_Some (storageAreaQueries_getById s (PantryItem.storageAreaId item))) ->
  totalQuantity (items (snd (openItem genId now openedNow id q s)))
  = totalQuantity (items s).
Proof.
  intros Hnd Hget Hq Hsafe Hfresh Hfk.
  pose proof (getById_found _ _ _ Hget) as [Hin Hid].
  rewrite (openItem_split genId now openedNow id q s item) by done.
  rewrite (jsSub_exact _ _ Hsafe).
  simpl. rewrite totalQuantity_app, <- Hid.
  rewrite (totalQuantity_update
             (fun x => PantryItem.setQuantity x
                         (PantryItem.quantity item - q)))
    by done.
  simpl. lia.
Qed.

(** [openItem] keeps the total quantity of the store, whichever branch
    runs and whatever the sign of [quantityToOpen], when the generated
    id is fresh and the difference [quantity - quantityToOpen] lies
    within [2 ^ 53], where the subtraction of the handler is exact. *)
Theorem openItem_conserves_total (genId : string) (now openedNow : Z)
    (id : string) (q : Z) (s : Db) (item : PantryItem.t) :
  NoDup (map PantryItem.id (items s)) ->
  itemQueries_getById s id = Some item ->
  - 2 ^ 53 <= PantryItem.quantity item - q <= 2 ^ 53 ->
  itemQueries_getById s genId = None ->
  (foreign_keys = true ->
   is_Some (storageAreaQueries_getById s (PantryItem.storageAreaId item))) ->
  exists body s',
    openItem genId now openedNow id q s = (Json 200 body, s')
    /\ totalQuantity (items s') = totalQuantity (items s)
    /\ totalQuantity body = PantryItem.quantity item.
Proof.
  intros Hnd Hget Hsafe Hfresh Hfk.
  destruct (Z.le_gt_cases (PantryItem.quantity item) q) as [Hq|Hq].
  - pose proof (openItem_full_total genId now openedNow id q s item Hnd Hget
                  Hq) as Htotal.
    rewrite (openItem_full genId now openedNow id q s item Hget Hq) in *.
    eexists _, _. split; [done|]. split; [exact Htotal|simpl; lia].
  - assert (Hlt : q < PantryItem.quantity item) by lia.
    pose proof (openItem_split_total genId now openedNow id q s item Hnd Hget
                  Hlt Hsafe Hfresh Hfk) as Htotal.
    rewrite (openItem_split genId now openedNow id q s item Hget Hlt Hfresh
               Hfk) in *.
    eexists _, _. split; [done|]. split; [exact Htotal|].
    simpl. rewrite (jsSub_exact _ _ Hsafe). lia.
Qed.

(** When the id generated for the split-off record is already taken,
    the insert fails after the quantity of the original was reduced:
    the request is answered 500, no record is added, and the original
    keeps the reduced quantity, the difference as the handler computes
    it.  Where that difference lies within [2 ^ 53] it is exact, and
    the opened units are gone from the store. *)
Theorem openItem_id_collision_loses_quantity (genId : string)
    (now openedNow : Z) (id : string) (q : Z) (s : Db)
    (item other : PantryItem.t) :
  NoDup (map PantryItem.id (items s)) ->
  itemQueries_getById s id = Some item ->
  q < PantryItem.quantity item ->
  - 2 ^ 53 <= PantryItem.quantity item - q <= 2 ^ 53 ->
  itemQueries_getById s genId = Some other ->
  exists s',
    openItem genId now openedNow id q s = (Error 500 "Failed to open item", s')
    /\ s' = itemQueries_updateQuantity s id (PantryItem.quantity item - q)
    /\ map PantryItem.id (items s') = map PantryItem.id (items s)
    /\ itemQueries_getById s' id
       = Some (PantryItem.setQuantity item (PantryItem.quantity item - q))
    /\ totalQuantity (items s') = totalQuantity (items s) - q.
Proof.
  intros Hnd Hget Hq Hsafe Hother. rewrite <- (jsSub_exact _ _ Hsafe).
  pose proof (getById_found _ _ _ Hget) as [Hin Hid].
  eexists. split.
  { unfold openItem. rewrite Hget.
    destruct (Z.leb_spec (PantryItem.quantity item) q); [lia|].
    unfold itemQueries_insert. simpl PantryItem.id.
    by rewrite getById_updateQuantity, Hother. }
  split; [done|]. split.
  { simpl. apply map_id_stable. intros r. by destruct (String.eqb _ id). }
  split.
  { rewrite getById_updateQuantity, Hget. simpl.
    by rewrite (proj2 (String.eqb_eq _ _) Hid). }
  simpl. rewrite <- Hid.
  rewrite (totalQuantity_update
             (fun x => PantryItem.setQuantity x
                         (jsSub (PantryItem.quantity item) q)))
    by done.
  simpl. rewrite (jsSub_exact _ _ Hsafe). lia.
Qed.

Lemma filter_out_fresh (l : list PantryItem.t) (id : string) :
  find (fun r => String.eqb (PantryItem.id r) id) l = None ->
  filter (fun r => negb (String.eqb (PantryItem.id r) id)) l = l.
Proof.
  induction l as [|r l IH]; intros Hnone; [done|]. simpl in Hnone.
  destruct (String.eqb (PantryItem.id r) id) eqn:Heq; [done|].
  rewrite filter_cons_True by (by rewrite Heq). f_equal. by apply IH.
Qed.

(** Creating a record and deleting it by its id gives back the store:
    [DELETE /api/items/:id] undoes a [POST /api/items] that was not
    merged. *)
Theorem createOrMergeItem_then_deleteItem (genId : string) (now : Z)
    (body : ItemBody) (s : Db) :
  validBody body ->
  itemQueries_findMergeable s (body_storageAreaId body)
    (trim (body_name body)) (orNull (body_expiryDate body)) = None ->
  itemQueries_getById s genId = None ->
  (foreign_keys = true ->
   is_Some (storageAreaQueries_getById s (body_storageAreaId body))) ->
  exists created s',
    createOrMergeItem genId now body s = (Json 201 created, s')
    /\ PantryItem.id created = genId
    /\ deleteItem genId s' = (NoContent, s).
Proof.
  intros Hvalid Hfind Hfresh Hfk.
  eexists _, _. split; [by apply createOrMergeItem_create|].
  split; [done|].
  unfold deleteItem. rewrite getById_insert, Hfresh. simpl.
  rewrite String.eqb_refl. f_equal.
  unfold itemQueries_delete. simpl.
  rewrite filter_app, filter_out_fresh by done.
  rewrite filter_cons_False, filter_nil, app_nil_r;
    [by destruct s|].
  simpl. rewrite String.eqb_refl. exact (fun H => H).
Qed.

(** The record an accepted [POST /api/items] answers with is the one
    [GET /api/items/:id] returns for its id afterwards, merged or
    created. *)
Theorem createOrMergeItem_then_getItem (genId : string) (now : Z)
    (body : ItemBody) (s : Db) :
  validBody body ->
  itemQueries_getById s genId = None ->
  (foreign_keys = true ->
   is_Some (storageAreaQueries_getById s (body_storageAreaId body))) ->
  exists status record s',
    createOrMergeItem genId now body s = (Json status record, s')
    /\ getItem (PantryItem.id record) s' = (Json 200 record, s').
Proof.
  intros Hvalid Hfresh Hfk.
  destruct (itemQueries_findMergeable s (body_storageAreaId body)
              (trim (body_name body)) (orNull (body_expiryDate body)))
    as [existing|] eqn:Hfind.
  - pose proof (findMergeable_Some _ _ _ _ _ Hfind) as [Hin _].
    destruct (getById_of_member s existing Hin) as [x Hx].
    pose proof (getById_found _ _ _ Hx) as [_ Hid].
    assert (Hnew : itemQueries_getById
                     (itemQueries_updateQuantity s (PantryItem.id existing)
                        (jsAdd (PantryItem.quantity existing) (body_quantity body)))
                     (PantryItem.id existing)
                   = Some (PantryItem.setQuantity x
                             (jsAdd (PantryItem.quantity existing)
                                (body_quantity body)))).
    { rewrite getById_updateQuantity, Hx. simpl.
      by rewrite (proj2 (String.eqb_eq _ _) Hid). }
    eexists _, _, _. split.
    + pass_checks Hvalid body. rewrite Hfind, Hnew. reflexivity.
    + unfold getItem. simpl PantryItem.id. by rewrite Hid, Hnew.
  - eexists _, _, _. split; [by apply createOrMergeItem_create|].
    unfold getItem. simpl PantryItem.id.
    rewrite getById_insert, Hfresh. simpl. by rewrite String.eqb_refl.
Qed.

(** [DELETE /api/items/:id] on a stored item: the record is gone, a
    later lookup is answered 404, every other record and the areas are
    untouched, and the total drops by the quantity of the record. *)
Theorem deleteItem_removes (id : string) (s : Db) (item : PantryItem.t) :
  NoDup (map PantryItem.id (items s)) ->
  itemQueries_getById s id = Some item ->
  exists s',
    deleteItem id s = (NoContent, s')
    /\ getItem id s' = (Error 404 "Item not found", s')
    /\ storage_areas s' = storage_areas s
    /\ (forall r, r ∈ items s' <-> r ∈ items s /\ r <> item)
    /\ totalQuantity (items s')
       = totalQuantity (items s) - PantryItem.quantity item.
Proof.
  intros Hnd Hget.
  pose proof (getById_found _ _ _ Hget) as [Hin Hid].
  eexists. split; [unfold deleteItem; by rewrite Hget|].
  split; [unfold getItem; by rewrite getById_delete|].
  split; [done|]. split.
  - intros r. simpl. rewrite list_elem_of_filter. split.
    + intros [Hne Hr]. split; [done|]. intros ->.
      by rewrite Hid, String.eqb_refl in Hne.
    + intros [Hr Hne]. split; [|done].
      apply Is_true_true, negb_true_iff, String.eqb_neq. intros Heq.
      apply Hne. by apply (row_of_id s id).
  - simpl. clear Hget. revert Hnd Hin.
    induction (items s) as [|x l IH]; intros Hnd Hin;
      [by apply elem_of_nil in Hin|].
    simpl in Hnd. apply NoDup_cons in Hnd as [Hx Hnd].
    destruct (String.eqb_spec (PantryItem.id x) id) as [Heq|Hne].
    + rewrite filter_cons_False
        by (rewrite (proj2 (String.eqb_eq _ _) Heq); exact (fun H => H)).
      assert (x = item) as ->.
      { apply elem_of_cons in Hin as [->|Hin]; [done|]. exfalso. apply Hx.
        rewrite Heq, <- Hid. apply list_elem_of_fmap. by exists item. }
      rewrite filter_out_fresh; [simpl; lia|].
      apply find_None_not_in. intros r Hr. simpl.
      apply String.eqb_neq. intros Hr'. apply Hx. rewrite Hid, <- Hr'.
      apply list_elem_of_fmap. by exists r.
    + rewrite filter_cons_True
        by (by apply Is_true_true, negb_true_iff, String.eqb_neq).
      apply elem_of_cons in Hin as [->|Hin]; [done|]. simpl.
      rewrite IH by done. lia.
Qed.

(** ** One unopened record per key *)

Lemma uniqueKeys_map (f : PantryItem.t -> PantryItem.t)
    (l : list PantryItem.t) :
  (forall r, PantryItem.id (f r) = PantryItem.id r
             /\ PantryItem.isOpened (f r) = PantryItem.isOpened r
             /\ PantryItem.storageAreaId (f r) = PantryItem.storageAreaId r
             /\ PantryItem.name (f r) = PantryItem.name r
             /\ PantryItem.expiryDate (f r) = PantryItem.expiryDate r) ->
  uniqueKeys l -> uniqueKeys (map f l).
Proof.
  intros Hf Hu r1 r2 H1 H2.
  apply list_elem_of_fmap in H1 as (x1 & -> & H1).
  apply list_elem_of_fmap in H2 as (x2 & -> & H2).
  destruct (Hf x1) as (-> & -> & -> & -> & ->).
  destruct (Hf x2) as (-> & -> & -> & -> & ->). by apply Hu.
Qed.

Lemma uniqueKeys_filter (p : PantryItem.t -> bool) (l : list PantryItem.t) :
  uniqueKeys l -> uniqueKeys (filter (fun r => p r) l).
Proof.
  intros Hu r1 r2 H1 H2.
  apply list_elem_of_filter in H1 as [_ H1].
  apply list_elem_of_filter in H2 as [_ H2]. by apply Hu.
Qed.

(** Rows that become opened leave the keys of the others alone. *)
Lemma uniqueKeys_open (f : PantryItem.t -> PantryItem.t)
    (l : list PantryItem.t) :
  (forall r, f r = r \/ PantryItem.isOpened (f r) = true) ->
  uniqueKeys l -> uniqueKeys (map f l).
Proof.
  intros Hf Hu r1 r2 H1 H2 Ho1 Ho2.
  apply list_elem_of_fmap in H1 as (x1 & -> & H1).
  apply list_elem_of_fmap in H2 as (x2 & -> & H2).
  destruct (Hf x1) as [E1|E1]; [|congruence].
  destruct (Hf x2) as [E2|E2]; [|congruence].
  rewrite E1, E2 in *. by apply Hu.
Qed.

Lemma uniqueKeys_snoc_opened (l : list PantryItem.t) (r : PantryItem.t) :
  PantryItem.isOpened r = true -> uniqueKeys l -> uniqueKeys (l ++ [r]).
Proof.
  intros Hr Hu r1 r2 H1 H2 Ho1 Ho2.
  apply elem_of_app in H1 as [H1|H1];
    [|apply list_elem_of_singleton in H1; congruence].
  apply elem_of_app in H2 as [H2|H2];
    [|apply list_elem_of_singleton in H2; congruence].
  by apply Hu.
Qed.

(** The invariant of the merge: among the unopened records whose expiry
    date is not the empty string, no two share area, name up to case and
    expiry date.  Every handler that writes to [items] keeps it. *)
Theorem uniqueKeys_preserved (s : Db) :
  uniqueKeys (items s) ->
  (forall genId now body,
     uniqueKeys (items (snd (createOrMergeItem genId now body s))))
  /\ (forall id quantity,
        uniqueKeys (items (snd (adjustQuantity id quantity s))))
  /\ (forall genId now openedNow id q,
        uniqueKeys (items (snd (openItem genId now openedNow id q s))))
  /\ (forall id, uniqueKeys (items (snd (deleteItem id s))))
  /\ (forall id, uniqueKeys (items (snd (deleteArea id s)))).
Proof.
  intros Hu.
  assert (Hupd : forall id q,
            uniqueKeys (items (itemQueries_updateQuantity s id q))).
  { intros id q. apply uniqueKeys_map; [|done].
    intros r. by destruct (String.eqb _ id). }
  split; [|split; [|split; [|split]]].
  - intros genId now body. unfold createOrMergeItem.
    destruct (emptyb (trim _)); [done|].
    destruct (_ || _); [done|].
    destruct (emptyb _); [done|].
    destruct (itemQueries_findMergeable _ _ _ _) as [existing|] eqn:Hfind.
    + destruct (itemQueries_getById _ _); apply Hupd.
    + destruct (itemQueries_insert s _) as [s1|] eqn:Hins; [|done].
      unfold itemQueries_insert in Hins.
      destruct (itemQueries_getById s _); [done|].
      destruct (foreign_keys && _); [done|]. injection Hins as <-. simpl.
      set (new := PantryItem.mk _ _ _ _ _ _ _ _).
      assert (Hnew : forall r, r ∈ items s ->
                PantryItem.isOpened r = false ->
                PantryItem.storageAreaId r = PantryItem.storageAreaId new ->
                LOWER (PantryItem.name r) = LOWER (PantryItem.name new) ->
                PantryItem.expiryDate r = PantryItem.expiryDate new ->
                PantryItem.expiryDate new <> Some EmptyString -> False).
      { intros r Hr Ho Ha Hn He Hne.
        pose proof (proj1 (find_None_not_in _ _) Hfind r Hr) as Hm.
        assert (mergeable (body_storageAreaId body) (trim (body_name body))
                  (orNull (body_expiryDate body)) r = true); [|congruence].
        apply mergeable_iff. repeat split; [done|done|done|].
        rewrite He. simpl in *.
        destruct (body_expiryDate body) as [[|c e]|]; simpl; congruence. }
      intros r1 r2 H1 H2 Ho1 Ho2 Ha Hn He Hne.
      apply elem_of_app in H1 as [H1|H1]; apply elem_of_app in H2 as [H2|H2].
      * by apply Hu.
      * apply list_elem_of_singleton in H2. subst r2.
        exfalso. apply (Hnew r1); try done. congruence.
      * apply list_elem_of_singleton in H1. subst r1.
        exfalso. apply (Hnew r2); try done.
      * apply list_elem_of_singleton in H1, H2. congruence.
  - intros id quantity. unfold adjustQuantity.
    destruct (itemQueries_getById s id); [|done].
    destruct (quantity <? 1).
    + apply (uniqueKeys_filter
               (fun r => negb (String.eqb (PantryItem.id r) id))), Hu.
    + specialize (Hupd id quantity). by destruct (itemQueries_getById _ _).
  - intros genId now openedNow id q. unfold openItem.
    destruct (itemQueries_getById s id) as [item|]; [|done].
    destruct (_ <=? _).
    + match goal with
      | |- context [itemQueries_update s id ?n ?k ?o ?t ?e] =>
          assert (uniqueKeys (items (itemQueries_update s id n k o t e)))
      end.
      { apply uniqueKeys_open; [|done]. intros r.
        destruct (String.eqb _ id); [by right|by left]. }
      by destruct (itemQueries_getById _ _).
    + specialize (Hupd id (jsSub (PantryItem.quantity item) q)).
      unfold itemQueries_insert. simpl PantryItem.id.
      destruct (itemQueries_getById
                  (itemQueries_updateQuantity s id
                     (jsSub (PantryItem.quantity item) q)) genId);
        [done|].
      destruct (foreign_keys && _); [done|].
      match goal with
      | |- context [items ?s0 ++ [?r]] =>
          assert (uniqueKeys (items s0 ++ [r]))
            by (by apply uniqueKeys_snoc_opened)
      end.
      by destruct (itemQueries_getById _ _).
  - intros id. unfold deleteItem.
    destruct (itemQueries_getById s id); [|done].
    apply (uniqueKeys_filter
             (fun r => negb (String.eqb (PantryItem.id r) id))), Hu.
  - intros id. unfold deleteArea.
    destruct (storageAreaQueries_getById s id); [|done].
    assert (Hitems : forall s0, items (if 0 <? Z.of_nat (length
                (map StorageArea.id (storageAreaQueries_getAll s0)))
              then reorderAreas
                     (map StorageArea.id (storageAreaQueries_getAll s0)) s0
              else s0) = items s0).
    { intros s0. destruct (0 <? _); [apply reorderFrom_items|done]. }
    simpl snd. rewrite Hitems. unfold storageAreaQueries_delete. simpl.
    destruct foreign_keys;
      repeat apply (uniqueKeys_filter
        (fun r => negb (String.eqb (PantryItem.storageAreaId r) id)));
      done.
Qed.

(** With foreign keys enforced, an item for an area that does not exist
    is refused by the store: the request is answered 500 and nothing is
    written. *)
Theorem createOrMergeItem_unknown_area (genId : string) (now : Z)
    (body : ItemBody) (s : Db) :
  foreign_keys = true ->
  schemaOk s ->
  validBody body ->
  storageAreaQueries_getById s (body_storageAreaId body) = None ->
  createOrMergeItem genId now body s
  = (Error 500 "Failed to create item", s).
Proof.
  intros Hon (_ & _ & Hfk) Hvalid Harea. pass_checks Hvalid body.
  destruct (itemQueries_findMergeable _ _ _ _) as [existing|] eqn:Hfind.
  - exfalso. apply findMergeable_Some in Hfind as [Hin Hm].
    apply mergeable_iff in Hm as (Ha & _).
    specialize (Hfk Hon existing Hin). rewrite Ha in Hfk.
    apply areaById_is_Some in Hfk. rewrite Harea in Hfk. by destruct Hfk.
  - unfold itemQueries_insert. simpl PantryItem.id.
    destruct (itemQueries_getById s genId); [done|].
    rewrite Hon. simpl. rewrite Harea.
    rewrite bool_decide_eq_false_2; [done|]. by intros [x Hx].
Qed.

(** ** The other routes of the storage areas *)

Lemma insertByOrder_snoc (a new : StorageArea.t) (l : list StorageArea.t) :
  StorageArea.order a <= StorageArea.order new ->
  insertByOrder a (l ++ [new]) = insertByOrder a l ++ [new].
Proof.
  intros Hle. induction l as [|b l IH]; simpl.
  - by destruct (Z.leb_spec (StorageArea.order a) (StorageArea.order new));
      [|lia].
  - destruct (_ <=? _); [done|]. by rewrite IH.
Qed.

Lemma sortByOrder_snoc (new : StorageArea.t) (l : list StorageArea.t) :
  (forall a, a ∈ l -> StorageArea.order a <= StorageArea.order new) ->
  sortByOrder (l ++ [new]) = sortByOrder l ++ [new].
Proof.
  induction l as [|a l IH]; intros Hle; simpl; [done|].
  rewrite IH by (intros b Hb; apply Hle; by right).
  apply insertByOrder_snoc, Hle. by left.
Qed.

Lemma areaById_found (s : Db) (id : string) (a : StorageArea.t) :
  storageAreaQueries_getById s id = Some a ->
  a ∈ storage_areas s /\ StorageArea.id a = id.
Proof.
  intros H. apply find_some in H as [Hin Heq].
  split; [by apply list_elem_of_In|by apply String.eqb_eq].
Qed.

(** [POST /api/storage-areas]: a blank name is answered 400 and an id
    that is taken 500, both without a write; otherwise, in a table
    whose ranks lie within [2 ^ 53], the area is stored with the rank
    that the [+ 1] of the handler gives on doubles, which is then above
    every existing one (0 in an empty table), and the listing of the
    areas is the former listing followed by the new area. *)
Theorem createArea_spec (genId : string) (body : AreaBody) (s : Db) :
  (emptyb (trim (area_name body)) = true ->
   createArea genId body s = (Error 400 "Name is required", s))
  /\ (emptyb (trim (area_name body)) = false ->
      is_Some (storageAreaQueries_getById s genId) ->
      createArea genId body s = (Error 500 "Failed to create storage area", s))
  /\ (emptyb (trim (area_name body)) = false ->
      storageAreaQueries_getById s genId = None ->
      (forall a, a ∈ storage_areas s ->
         - 2 ^ 53 <= StorageArea.order a < 2 ^ 53) ->
      exists newArea s',
        createArea genId body s = (Json 201 newArea, s')
        /\ newArea = StorageArea.mk genId (trim (area_name body))
                       (area_icon body) (area_color body)
                       (StorageArea.order newArea)
        /\ StorageArea.order newArea
           = jsAdd (match storageAreaQueries_getMaxOrder s with
                    | Some maxOrder => maxOrder
                    | None => -1
                    end) 1
        /\ (forall a, a ∈ storage_areas s ->
              StorageArea.order a < StorageArea.order newArea)
        /\ (storage_areas s = [] -> StorageArea.order newArea = 0)
        /\ storage_areas s' = storage_areas s ++ [newArea]
        /\ items s' = items s
        /\ storageAreaQueries_getAll s' = storageAreaQueries_getAll s ++ [newArea]
        /\ getArea genId s' = (Json 200 newArea, s')).
Proof.
  unfold createArea. split; [by intros ->|]. split.
  - intros -> [a Ha]. unfold storageAreaQueries_insert. simpl StorageArea.id.
    by rewrite Ha.
  - intros -> Hfresh Hranks. unfold storageAreaQueries_insert.
    simpl StorageArea.id.
    rewrite Hfresh. eexists _, _. split; [done|]. split; [done|].
    split.
    { cbn [StorageArea.order]. symmetry. apply jsAdd_exact.
      unfold storageAreaQueries_getMaxOrder.
      change (2 ^ 53) with 9007199254740992 in *.
      destruct (storage_areas s) as [|a0 l]; [lia|].
      destruct (fold_max_spec l (StorageArea.order a0)) as (_ & _ & [->|Hm]).
      - specialize (Hranks a0 ltac:(by left)). lia.
      - apply list_elem_of_fmap in Hm as (b & -> & Hb).
        specialize (Hranks b ltac:(by right)). lia. }
    assert (Habove : forall a, a ∈ storage_areas s ->
              StorageArea.order a
              < match storageAreaQueries_getMaxOrder s with
                | Some maxOrder => maxOrder
                | None => -1
                end + 1).
    { unfold storageAreaQueries_getMaxOrder.
      destruct (storage_areas s) as [|a0 l]; intros a Ha;
        [by apply elem_of_nil in Ha|].
      destruct (fold_max_spec l (StorageArea.order a0)) as (H1 & H2 & _).
      apply elem_of_cons in Ha as [->|Ha]; [lia|].
      specialize (H2 a Ha). lia. }
    split; [exact Habove|]. split.
    { unfold storageAreaQueries_getMaxOrder. by intros ->. }
    split; [done|]. split; [done|]. split.
    + unfold storageAreaQueries_getAll. simpl.
      apply sortByOrder_snoc. intros a Ha. specialize (Habove a Ha).
      simpl. lia.
    + unfold getArea, storageAreaQueries_getById in *. simpl.
      rewrite find_snoc, Hfresh. simpl. by rewrite String.eqb_refl.
Qed.

Lemma areaById_of_row (l : list StorageArea.t) (a : StorageArea.t) :
  NoDup (map StorageArea.id l) -> a ∈ l ->
  find (fun x => String.eqb (StorageArea.id x) (StorageArea.id a)) l = Some a.
Proof.
  induction l as [|x l IH]; intros Hnd Hin; [by apply elem_of_nil in Hin|].
  simpl in *. apply NoDup_cons in Hnd as [Hx Hnd].
  destruct (String.eqb_spec (StorageArea.id x) (StorageArea.id a)) as [Heq|Hne].
  - apply elem_of_cons in Hin as [->|Hin]; [done|]. exfalso. apply Hx.
    rewrite Heq. apply list_elem_of_fmap. by exists a.
  - apply elem_of_cons in Hin as [->|Hin]; [done|]. by apply IH.
Qed.

Lemma map_replace_same (l : list StorageArea.t) (a : StorageArea.t) :
  NoDup (map StorageArea.id l) -> a ∈ l ->
  map (fun b => if String.eqb (StorageArea.id b) (StorageArea.id a)
                then a else b) l = l.
Proof.
  intros Hnd Hin. rewrite <- (map_id l) at 2. apply map_ext_in.
  intros b Hb. apply list_elem_of_In in Hb.
  destruct (String.eqb_spec (StorageArea.id b) (StorageArea.id a)) as [Heq|];
    [|done].
  pose proof (areaById_of_row l a Hnd Hin) as Ha.
  pose proof (areaById_of_row l b Hnd Hb) as Hb'.
  rewrite Heq, Ha in Hb'. by injection Hb'.
Qed.

(** [PUT /api/storage-areas/:id] on an existing area: the answer is the
    stored record afterwards; a name that is omitted or blank keeps the
    old name, an omitted icon, color or rank keeps the old value; the
    other areas and the items are untouched, and a patch without
    effective fields leaves the store as it is. *)
Theorem updateArea_spec (id : string) (patch : AreaPatch) (s : Db)
    (existing : StorageArea.t) :
  NoDup (map StorageArea.id (storage_areas s)) ->
  storageAreaQueries_getById s id = Some existing ->
  exists updated s',
    updateArea id patch s = (Json 200 updated, s')
    /\ getArea id s' = (Json 200 updated, s')
    /\ StorageArea.id updated = id
    /\ StorageArea.name updated
       = match patch_name patch with
         | Some n => if emptyb (trim n) then StorageArea.name existing
                     else trim n
         | None => StorageArea.name existing
         end
    /\ StorageArea.icon updated
       = default (StorageArea.icon existing) (patch_icon patch)
    /\ StorageArea.color updated
       = default (StorageArea.color existing) (patch_color patch)
    /\ StorageArea.order updated
       = default (StorageArea.order existing) (patch_order patch)
    /\ items s' = items s
    /\ map StorageArea.id (storage_areas s')
       = map StorageArea.id (storage_areas s)
    /\ (forall a, a ∈ storage_areas s -> StorageArea.id a <> id ->
          a ∈ storage_areas s')
    /\ (updated = existing -> s' = s).
Proof.
  intros Hnd Hget.
  pose proof (areaById_found _ _ _ Hget) as [Hin Hid].
  unfold updateArea. rewrite Hget. eexists _, _. split; [done|].
  split.
  { unfold getArea, storageAreaQueries_getById, storageAreaQueries_update.
    simpl. rewrite find_map_stable.
    - fold (storageAreaQueries_getById s id). rewrite Hget. simpl.
      by rewrite (proj2 (String.eqb_eq _ _) Hid).
    - intros x.
      destruct (String.eqb (StorageArea.id x) id) eqn:Heq; simpl;
        [by rewrite String.eqb_refl|done]. }
  repeat (split; [done|]).
  split.
  { simpl. rewrite map_map. apply map_ext. intros a.
    by destruct (String.eqb_spec (StorageArea.id a) id). }
  split.
  { intros a Ha Hne. simpl. apply list_elem_of_fmap. exists a.
    split; [|done]. by destruct (String.eqb_spec (StorageArea.id a) id). }
  intros Hsame. unfold storageAreaQueries_update. rewrite Hsame.
  rewrite map_replace_same by done. by destruct s.
Qed.

Lemma reorderFrom_eq (index : Z) (ids : list string) (s : Db) :
  reorderFrom index ids s
  = mkDb (map (reindex index ids) (storage_areas s)) (items s).
Proof.
  rewrite <- reorderFrom_areas, <- (reorderFrom_items index ids s).
  by destruct (reorderFrom index ids s).
Qed.

(** A reorder request that names every area once: the listing it
    answers with, which is the listing of the store afterwards, has the
    areas in the order of the request, with the ranks 0, 1, ... and
    every other field as before. *)
Theorem reorderBatch_lists_in_given_order (ids : list string) (s : Db) :
  NoDup (map StorageArea.id (storage_areas s)) ->
  ids ≡ₚ map StorageArea.id (storage_areas s) ->
  exists l s',
    reorderBatch ids s = (Json 200 (renumber 0 l), s')
    /\ l ≡ₚ storage_areas s
    /\ map StorageArea.id l = ids
    /\ storageAreaQueries_getAll s' = renumber 0 l
    /\ map StorageArea.id (storageAreaQueries_getAll s') = ids
    /\ map StorageArea.order (storageAreaQueries_getAll s')
       = seqZ 0 (Z.of_nat (length ids))
    /\ items s' = items s.
Proof.
  intros Hnd Hperm.
  destruct (Permutation_map_inv _ _ Hperm) as (l & -> & Hl).
  assert (Hall : storageAreaQueries_getAll
                   (reorderAreas (map StorageArea.id l) s) = renumber 0 l).
  { unfold storageAreaQueries_getAll, reorderAreas.
    rewrite reorderFrom_areas. by apply sortByOrder_reindex. }
  exists l, (reorderAreas (map StorageArea.id l) s).
  split; [unfold reorderBatch; by rewrite Hall|].
  split; [done|]. split; [done|]. split; [done|].
  rewrite Hall, renumber_id, renumber_order, length_map.
  split; [done|]. split; [done|]. apply reorderFrom_items.
Qed.

Lemma renumber_fixed (index : Z) (l : list StorageArea.t) :
  map StorageArea.order l = seqZ index (Z.of_nat (length l)) ->
  renumber index l = l.
Proof.
  revert index. induction l as [|a l IH]; intros index Hl; [done|].
  cbn [map length] in Hl. rewrite (seqZ_cons index) in Hl by lia.
  injection Hl as Ha Hl. simpl. f_equal.
  - destruct a. simpl in *. by subst.
  - apply IH. rewrite Hl. f_equal; lia.
Qed.

Lemma sorted_packed_orders (l : list StorageArea.t) :
  StronglySorted orderLe l -> ordersPacked l ->
  map StorageArea.order l = seqZ 0 (Z.of_nat (length l)).
Proof.
  intros Hsorted Hp.
  apply (StronglySorted_unique_strong Z.le); [| | |exact Hp].
  - intros; lia.
  - by apply (StronglySorted_fmap StorageArea.order orderLe Z.le).
  - rewrite <- (renumber_order 0 l).
    apply (StronglySorted_fmap StorageArea.order orderLe Z.le); [done|].
    apply orderLt_orderLe, renumber_sorted.
Qed.

(** Sending the ids of the current listing back as a reorder request
    changes nothing, when the ranks are 0..count-1. *)
Theorem reorderBatch_current_listing_noop (s : Db) :
  NoDup (map StorageArea.id (storage_areas s)) ->
  ordersPacked (storage_areas s) ->
  reorderBatch (map StorageArea.id (storageAreaQueries_getAll s)) s
  = (Json 200 (storageAreaQueries_getAll s), s).
Proof.
  intros Hnd Hp. unfold reorderBatch, reorderAreas, storageAreaQueries_getAll.
  set (l := sortByOrder (storage_areas s)).
  assert (Hl : l ≡ₚ storage_areas s) by apply sortByOrder_perm.
  assert (Hfix : map (reindex 0 (map StorageArea.id l)) l = l).
  { rewrite reindex_renumber by (by rewrite Hl).
    apply renumber_fixed, sorted_packed_orders; [apply sortByOrder_sorted|].
    by apply (ordersPacked_perm (storage_areas s)). }
  assert (Hsame : reorderFrom 0 (map StorageArea.id l) s = s).
  { rewrite reorderFrom_eq.
    replace (map (reindex 0 (map StorageArea.id l)) (storage_areas s))
      with (storage_areas s); [by destruct s|].
    rewrite <- (map_id (storage_areas s)) at 1.
    apply map_ext_in. intros a Ha. symmetry.
    apply list_elem_of_In in Ha. rewrite <- Hl in Ha.
    apply list_elem_of_lookup in Ha as [i Hi].
    assert (map (reindex 0 (map StorageArea.id l)) l !! i = l !! i)
      as Hi' by by rewrite Hfix.
    change (map ?f ?x) with (f <$> x) in Hi'.
    rewrite list_lookup_fmap, Hi in Hi'. by injection Hi'. }
  by rewrite Hsame.
Qed.

Lemma reindex_in (index : Z) (ids : list string) (a : StorageArea.t) :
  StorageArea.id a ∈ ids ->
  exists j, reindex index ids a = StorageArea.setOrder a j
            /\ index <= j < index + Z.of_nat (length ids).
Proof.
  revert index a. induction ids as [|x rest IH]; intros index a Hin.
  { by apply elem_of_nil in Hin. }
  simpl reindex. cbn [length].
  destruct (decide (StorageArea.id a ∈ rest)) as [Hrest|Hrest].
  - destruct (String.eqb_spec (StorageArea.id a) x).
    + destruct (IH (index + 1) (StorageArea.setOrder a index) Hrest)
        as (j & -> & Hj).
      exists j. split; [done|lia].
    + destruct (IH (index + 1) a Hrest) as (j & -> & Hj).
      exists j. split; [done|lia].
  - apply elem_of_cons in Hin as [->|Hin]; [|done].
    rewrite String.eqb_refl. exists index.
    split; [by apply reindex_not_in|lia].
Qed.

Lemma reindex_setOrder (index o : Z) (ids : list string) (a : StorageArea.t) :
  StorageArea.id a ∈ ids ->
  reindex index ids (StorageArea.setOrder a o) = reindex index ids a.
Proof.
  revert index a. induction ids as [|x rest IH]; intros index a Hin.
  { by apply elem_of_nil in Hin. }
  simpl.
  destruct (String.eqb_spec (StorageArea.id a) x) as [Heq|Hne]; [done|].
  apply elem_of_cons in Hin as [Heq|Hin]; [done|]. by apply IH.
Qed.

(** [reorderAreas] with any sequence of ids writes ranks only: the rows
    keep their place, id, name, icon and color, and the items are
    untouched; an area that the sequence does not name keeps its rank,
    an area that it names gets the index of one of its occurrences; and
    a second run with the same sequence changes nothing more. *)
Theorem reorderAreas_only_ranks (ids : list string) (s : Db) :
  items (reorderAreas ids s) = items s
  /\ map (fun a => StorageArea.setOrder a 0) (storage_areas (reorderAreas ids s))
     = map (fun a => StorageArea.setOrder a 0) (storage_areas s)
  /\ storage_areas (reorderAreas ids s)
     = map (reindex 0 ids) (storage_areas s)
  /\ (forall a, StorageArea.id a ∉ ids -> reindex 0 ids a = a)
  /\ (forall a, StorageArea.id a ∈ ids ->
        exists j, reindex 0 ids a = StorageArea.setOrder a j
                  /\ ids !! Z.to_nat j = Some (StorageArea.id a)
                  /\ 0 <= j < Z.of_nat (length ids))
  /\ reorderAreas ids (reorderAreas ids s) = reorderAreas ids s.
Proof.
  unfold reorderAreas.
  split; [apply reorderFrom_items|]. split.
  { rewrite reorderFrom_areas, map_map. apply map_ext. intros a.
    assert (Hform : forall k l b, StorageArea.setOrder (reindex k l b) 0
                                  = StorageArea.setOrder b 0).
    { intros k l. revert k. induction l as [|x l IH]; intros k b; simpl;
        [done|].
      rewrite IH. by destruct (String.eqb _ x). }
    apply Hform. }
  split; [apply reorderFrom_areas|].
  split; [intros a; apply reindex_not_in|].
  split.
  { assert (Hocc : forall l k a, StorageArea.id a ∈ l ->
              exists j, reindex k l a = StorageArea.setOrder a j
                        /\ l !! Z.to_nat (j - k) = Some (StorageArea.id a)
                        /\ k <= j < k + Z.of_nat (length l)).
    { induction l as [|x rest IH]; intros k a Hin.
      { by apply elem_of_nil in Hin. }
      simpl reindex. cbn [length].
      destruct (decide (StorageArea.id a ∈ rest)) as [Hrest|Hrest].
      - assert (exists j, reindex (k + 1) rest
                            (if String.eqb (StorageArea.id a) x
                             then StorageArea.setOrder a k else a)
                          = StorageArea.setOrder a j
                          /\ rest !! Z.to_nat (j - (k + 1))
                             = Some (StorageArea.id a)
                          /\ k + 1 <= j < k + 1 + Z.of_nat (length rest))
          as (j & Hj & Hlook & Hb).
        { destruct (String.eqb (StorageArea.id a) x).
          - destruct (IH (k + 1) (StorageArea.setOrder a k) Hrest)
              as (j & -> & ?). by exists j.
          - apply (IH (k + 1) a Hrest). }
        exists j. split; [done|]. split; [|lia].
        replace (Z.to_nat (j - k)) with (S (Z.to_nat (j - (k + 1)))) by lia.
        done.
      - apply elem_of_cons in Hin as [->|Hin]; [|done].
        rewrite String.eqb_refl. exists k.
        split; [by apply reindex_not_in|].
        split; [by rewrite Z.sub_diag|lia]. }
    intros a Ha. destruct (Hocc ids 0 a Ha) as (j & Hj & Hlook & Hb).
    exists j. rewrite Z.sub_0_r in Hlook. split; [done|]. split; [done|lia]. }
  rewrite !reorderFrom_eq. simpl. f_equal. rewrite map_map.
  apply map_ext. intros a.
  destruct (decide (StorageArea.id a ∈ ids)) as [Hin|Hnot].
  - destruct (reindex_in 0 ids a Hin) as (j & Hj & _).
    rewrite Hj at 1. by apply reindex_setOrder.
  - rewrite (reindex_not_in 0 ids a Hnot). by apply reindex_not_in.
Qed.

(** Every handler keeps the constraints of the schema: no handler
    leaves two rows with one id, or, where foreign keys are enforced,
    an item whose area is missing. *)
Theorem handlers_keep_schema (s : Db) :
  schemaOk s ->
  (forall genId now body, schemaOk (snd (createOrMergeItem genId now body s)))
  /\ (forall id quantity, schemaOk (snd (adjustQuantity id quantity s)))
  /\ (forall genId now openedNow id q,
        schemaOk (snd (openItem genId now openedNow id q s)))
  /\ (forall id, schemaOk (snd (deleteItem id s)))
  /\ (forall genId body, schemaOk (snd (createArea genId body s)))
  /\ (forall id patch, schemaOk (snd (updateArea id patch s)))
  /\ (forall id, schemaOk (snd (deleteArea id s)))
  /\ (forall ids, schemaOk (snd (reorderBatch ids s)))
  /\ schemaOk (seed s).
Proof.
  intros Hok.
  split; [intros; by apply schemaOk_createOrMergeItem|].
  split; [intros; by apply schemaOk_adjustQuantity|].
  split; [intros; by apply schemaOk_openItem|].
  split; [intros; by apply schemaOk_deleteItem|].
  split; [intros; by apply schemaOk_createArea|].
  split; [intros; by apply schemaOk_updateArea|].
  split; [intros; by apply schemaOk_deleteArea|].
  split; [intros; by apply schemaOk_reorderBatch|].
  by apply schemaOk_seed.
Qed.

(** ** The hook and the store *)

Lemma findIndex_None {A} (p : A -> bool) (l : list A) :
  findIndex p l = None <-> forall x, x ∈ l -> p x = false.
Proof.
  induction l as [|x l IH]; simpl.
  - split; [|done]. intros _ y Hy. by apply elem_of_nil in Hy.
  - destruct (p x) eqn:Hx.
    + split; [done|]. intros H. rewrite (H x) in Hx by left. done.
    + split.
      * intros Hf y Hy. destruct (findIndex p l) eqn:E; [done|].
        apply elem_of_cons in Hy as [->|Hy]; [done|]. by apply IH.
      * intros H. rewrite (proj2 IH); [done|].
        intros y Hy. apply H. by right.
Qed.

Lemma replaceItem_fresh (id : string) (updated : PantryItem.t)
    (l : list PantryItem.t) :
  id ∉ map PantryItem.id l -> replaceItem id updated l = l.
Proof.
  intros Hnot. unfold replaceItem. rewrite <- (map_id l) at 2.
  apply map_ext_in. intros r Hr.
  destruct (String.eqb_spec (PantryItem.id r) id) as [Heq|]; [|done].
  exfalso. apply Hnot. rewrite <- Heq. apply list_elem_of_fmap.
  exists r. split; [done|by apply list_elem_of_In].
Qed.

(** With unique ids, writing at the index found is replacing by id. *)
Lemma insert_at_findIndex (result : PantryItem.t) (l : list PantryItem.t)
    (i : nat) :
  NoDup (map PantryItem.id l) ->
  findIndex (fun item => String.eqb (PantryItem.id item)
                           (PantryItem.id result)) l = Some i ->
  <[i := result]> l = replaceItem (PantryItem.id result) result l.
Proof.
  revert i. induction l as [|x l IH]; intros i Hnd Hfind; [done|].
  simpl in *. apply NoDup_cons in Hnd as [Hx Hnd].
  destruct (String.eqb_spec (PantryItem.id x) (PantryItem.id result))
    as [Heq|Hne].
  - injection Hfind as <-. simpl. f_equal.
    symmetry. apply replaceItem_fresh. by rewrite <- Heq.
  - destruct (findIndex _ l) as [j|]; [|done]. injection Hfind as <-.
    simpl. f_equal. by apply IH.
Qed.

Lemma addItem_update_known (result : PantryItem.t) (l : list PantryItem.t) :
  NoDup (map PantryItem.id l) ->
  PantryItem.id result ∈ map PantryItem.id l ->
  addItem_update result l = replaceItem (PantryItem.id result) result l.
Proof.
  intros Hnd Hin. unfold addItem_update.
  destruct (findIndex _ l) as [i|] eqn:Hfind;
    [by apply insert_at_findIndex|].
  exfalso. apply list_elem_of_fmap in Hin as (r & Hr & Hin).
  pose proof (proj1 (findIndex_None _ _) Hfind r Hin) as Hne.
  simpl in Hne. by rewrite Hr, String.eqb_refl in Hne.
Qed.

Lemma addItem_update_new (result : PantryItem.t) (l : list PantryItem.t) :
  PantryItem.id result ∉ map PantryItem.id l ->
  addItem_update result l = l ++ [result].
Proof.
  intros Hnot. unfold addItem_update.
  destruct (findIndex _ l) as [i|] eqn:Hfind; [|done].
  exfalso. destruct (findIndex _ l) eqn:Hf in Hfind; [|done].
  assert (findIndex (fun item => String.eqb (PantryItem.id item)
                                   (PantryItem.id result)) l <> None)
    as Hsome by congruence.
  apply Hsome, findIndex_None. intros r Hr. simpl.
  apply String.eqb_neq. intros Heq. apply Hnot. rewrite <- Heq.
  apply list_elem_of_fmap. by exists r.
Qed.

(** With unique ids, replacing the row of an id is removing it and
    appending the new row, up to the order. *)
Lemma update_perm (f : PantryItem.t -> PantryItem.t) (l : list PantryItem.t)
    (r : PantryItem.t) :
  NoDup (map PantryItem.id l) -> r ∈ l ->
  map (fun x => if String.eqb (PantryItem.id x) (PantryItem.id r)
                then f x else x) l
  ≡ₚ removeItem_update (PantryItem.id r) l ++ [f r].
Proof.
  unfold removeItem_update.
  induction l as [|x l IH]; intros Hnd Hin; [by apply elem_of_nil in Hin|].
  simpl in Hnd. apply NoDup_cons in Hnd as [Hx Hnd]. cbn [map].
  destruct (String.eqb_spec (PantryItem.id x) (PantryItem.id r)) as [Heq|Hne].
  - assert (x = r) as ->.
    { apply elem_of_cons in Hin as [->|Hin]; [done|]. exfalso. apply Hx.
      rewrite Heq. apply list_elem_of_fmap. by exists r. }
    rewrite filter_cons_False
      by (rewrite String.eqb_refl; exact (fun H => H)).
    assert (Hrest : forall y, y ∈ l ->
              String.eqb (PantryItem.id y) (PantryItem.id r) = false).
    { intros y Hy. apply String.eqb_neq. intros Hy'. apply Hx.
      rewrite <- Hy'. apply list_elem_of_fmap. by exists y. }
    rewrite filter_out_fresh by (by apply find_None_not_in).
    replace (map _ l) with l.
    + apply Permutation_cons_append.
    + rewrite <- (map_id l) at 1. apply map_ext_in. intros y Hy.
      by rewrite Hrest by (by apply list_elem_of_In).
  - apply elem_of_cons in Hin as [->|Hin]; [done|].
    rewrite filter_cons_True
      by (by apply Is_true_true, negb_true_iff, String.eqb_neq).
    simpl. by rewrite IH.
Qed.

Lemma removeItem_update_perm (id : string) (l1 l2 : list PantryItem.t) :
  l1 ≡ₚ l2 -> removeItem_update id l1 ≡ₚ removeItem_update id l2.
Proof. unfold removeItem_update. by intros ->. Qed.

(** Replacing by id in the hook follows an update of the row in the
    table. *)
Lemma replaceItem_mirror (f : PantryItem.t -> PantryItem.t)
    (prev l : list PantryItem.t) (r : PantryItem.t) :
  prev ≡ₚ l -> NoDup (map PantryItem.id l) -> r ∈ l ->
  replaceItem (PantryItem.id r) (f r) prev
  ≡ₚ map (fun x => if String.eqb (PantryItem.id x) (PantryItem.id r)
                   then f x else x) l.
Proof.
  intros Hperm Hnd Hin. unfold replaceItem.
  etrans; [apply (update_perm (fun _ => f r) prev r);
           [by rewrite Hperm|by rewrite Hperm]|].
  etrans; [|symmetry; by apply (update_perm f l r)].
  apply Permutation_app_tail. by apply removeItem_update_perm.
Qed.

(** What [POST /api/items] does, by outcome. *)
Lemma createOrMergeItem_cases (genId : string) (now : Z) (body : ItemBody)
    (s : Db) :
  NoDup (map PantryItem.id (items s)) ->
  (exists status message,
     createOrMergeItem genId now body s = (Error status message, s))
  \/ (exists existing,
        existing ∈ items s
        /\ PantryItem.storageAreaId existing = body_storageAreaId body
        /\ createOrMergeItem genId now body s
           = (Json 200 (PantryItem.setQuantity existing
                          (jsAdd (PantryItem.quantity existing) (body_quantity body))),
              itemQueries_updateQuantity s (PantryItem.id existing)
                (jsAdd (PantryItem.quantity existing) (body_quantity body))))
  \/ (itemQueries_getById s genId = None
      /\ createOrMergeItem genId now body s
         = (Json 201 (newItemOf genId now body),
            mkDb (storage_areas s) (items s ++ [newItemOf genId now body]))).
Proof.
  intros Hnd. unfold createOrMergeItem.
  destruct (emptyb (trim _)); [left; by eexists _, _|].
  destruct (_ || _); [left; by eexists _, _|].
  destruct (emptyb _); [left; by eexists _, _|].
  destruct (itemQueries_findMergeable _ _ _ _) as [existing|] eqn:Hfind.
  - right. left. exists existing.
    apply findMergeable_Some in Hfind as [Hin Hm].
    apply mergeable_iff in Hm as (Ha & _).
    split; [done|]. split; [done|].
    rewrite getById_updateQuantity, (getById_of_row s existing) by done.
    simpl. by rewrite String.eqb_refl.
  - fold (newItemOf genId now body).
    destruct (itemQueries_insert s _) as [s1|] eqn:Hins;
      [|left; by eexists _, _].
    right. right. unfold itemQueries_insert in Hins. simpl in Hins.
    destruct (itemQueries_getById s genId); [done|].
    destruct (foreign_keys && _); [done|]. by injection Hins as <-.
Qed.

Lemma fetchJson_Error {A} (status : Z) (message : string) :
  exists m, fetchJson (@Error A status message) = Rejected m.
Proof. unfold fetchJson. destruct (emptyb message); by eexists. Qed.

(** [addItem] keeps the items of the hook equal, up to the order, to the
    items of the database, whatever the request and its outcome. *)
Theorem addItem_keeps_mirror (genId : string) (now : Z) (name : string)
    (quantity : Z) (storageAreaId : string) (expiryDate : option string)
    (st : PantryStore.t) (db : Db) :
  NoDup (map PantryItem.id (items db)) ->
  itemsMirror st db ->
  let '(st', db') :=
    addItem genId now name quantity storageAreaId expiryDate (st, db) in
  itemsMirror st' db'
  /\ PantryStore.storageAreas st' = PantryStore.storageAreas st
  /\ storage_areas db' = storage_areas db.
Proof.
  intros Hnd Hmirror. unfold addItem.
  destruct (_ || _); [done|].
  assert (Hnd' : NoDup (map PantryItem.id (PantryStore.items st))).
  { unfold itemsMirror in Hmirror. by rewrite Hmirror. }
  destruct (createOrMergeItem_cases genId now
              (mkItemBody (trim name) quantity storageAreaId expiryDate)
              db Hnd)
    as [(status & message & ->)|[(existing & Hin & _ & ->)|(Hfresh & ->)]].
  - by destruct (fetchJson_Error (A:=PantryItem.t) status message) as [m ->].
  - simpl. split; [|done]. unfold itemsMirror in *. simpl.
    rewrite addItem_update_known; [|done|]; cycle 1.
    { simpl. rewrite Hmirror. apply list_elem_of_fmap. by exists existing. }
    simpl.
    by apply (replaceItem_mirror
                (fun x => PantryItem.setQuantity x
                            (jsAdd (PantryItem.quantity existing) quantity))).
  - simpl. split; [|done]. unfold itemsMirror in *. simpl.
    rewrite addItem_update_new.
    + by rewrite Hmirror.
    + simpl. rewrite Hmirror. by apply itemById_None.
Qed.

(** [removeItem] keeps the items of the hook equal, up to the order, to
    the items of the database: an unknown id changes neither. *)
Theorem removeItem_keeps_mirror (id : string) (st : PantryStore.t) (db : Db) :
  itemsMirror st db ->
  let '(st', db') := removeItem id (st, db) in
  itemsMirror st' db'
  /\ (itemQueries_getById db id = None -> db' = db)
  /\ itemQueries_getById db' id = None.
Proof.
  intros Hmirror. unfold removeItem, deleteItem.
  destruct (itemQueries_getById db id) eqn:Hget; simpl.
  - split; [|split; [done|apply getById_delete]].
    unfold itemsMirror in *. simpl. by apply removeItem_update_perm.
  - done.
Qed.

(** [updateItemQuantity] keeps the items of the hook equal, up to the
    order, to the items of the database: a quantity below 1 goes to
    [DELETE /api/items/:id], any other to
    [PUT /api/items/:id/quantity]. *)
Theorem updateItemQuantity_keeps_mirror (id : string) (quantity : Z)
    (st : PantryStore.t) (db : Db) :
  NoDup (map PantryItem.id (items db)) ->
  itemsMirror st db ->
  let '(st', db') := updateItemQuantity id quantity (st, db) in
  itemsMirror st' db'
  /\ (forall item, itemQueries_getById db id = Some item ->
        itemQueries_getById db' id
        = if quantity <? 1 then None
          else Some (PantryItem.setQuantity item quantity)).
Proof.
  intros Hnd Hmirror. unfold updateItemQuantity.
  destruct (Z.ltb_spec quantity 1) as [Hq|Hq].
  - unfold deleteItem.
    destruct (itemQueries_getById db id) eqn:Hget; simpl; [|done].
    split; [|intros; apply getById_delete].
    unfold itemsMirror in *. simpl. by apply removeItem_update_perm.
  - unfold adjustQuantity.
    destruct (itemQueries_getById db id) as [item|] eqn:Hget; simpl;
      [|done].
    destruct (Z.ltb_spec quantity 1); [lia|].
    pose proof (getById_found _ _ _ Hget) as [Hin Hid].
    rewrite getById_updateQuantity, Hget. simpl.
    rewrite (proj2 (String.eqb_eq _ _) Hid). simpl.
    split;
      [|intros ? [= <-]; rewrite getById_updateQuantity, Hget; simpl;
        by rewrite (proj2 (String.eqb_eq _ _) Hid)].
    unfold itemsMirror in *. simpl. rewrite <- Hid.
    by apply (replaceItem_mirror
                (fun x => PantryItem.setQuantity x quantity)).
Qed.

(** [openItem] of the hook keeps its items equal, up to the order, to
    the items of the database, for an opened part and for an opened
    whole, when the generated id is fresh; and where the difference
    [quantity - quantityToOpen] lies within [2 ^ 53], so that the
    handler computes it exactly, the total the hook shows is
    unchanged. *)
Theorem openItem_keeps_mirror (genId : string) (now openedNow : Z)
    (id : string) (q : Z) (st : PantryStore.t) (db : Db) :
  NoDup (map PantryItem.id (items db)) ->
  itemQueries_getById db genId = None ->
  (foreign_keys = true ->
   forall item, itemQueries_getById db id = Some item ->
     is_Some (storageAreaQueries_getById db (PantryItem.storageAreaId item))) ->
  itemsMirror st db ->
  let '(st', db') :=
    usePantryStore_openItem genId now openedNow id q (st, db) in
  itemsMirror st' db'
  /\ ((forall item, itemQueries_getById db id = Some item ->
         - 2 ^ 53 <= PantryItem.quantity item - q <= 2 ^ 53) ->
      totalQuantity (PantryStore.items st')
      = totalQuantity (PantryStore.items st)).
Proof.
  intros Hnd Hfresh Hfk Hmirror. unfold usePantryStore_openItem.
  destruct (itemQueries_getById db id) as [item|] eqn:Hget.
  - pose proof (getById_found _ _ _ Hget) as [Hin Hid].
    assert (Hgoal : forall st' db',
              itemsMirror st' db' ->
              (- 2 ^ 53 <= PantryItem.quantity item - q <= 2 ^ 53 ->
               totalQuantity (items db') = totalQuantity (items db)) ->
              itemsMirror st' db'
              /\ ((forall item0, Some item = Some item0 ->
                     - 2 ^ 53 <= PantryItem.quantity item0 - q <= 2 ^ 53) ->
                  totalQuantity (PantryStore.items st')
                  = totalQuantity (PantryStore.items st))).
    { intros st' db' Hm Ht. split; [done|]. intros Hsafe.
      rewrite (totalQuantity_perm _ _ Hm), (Ht (Hsafe item eq_refl)).
      symmetry. by apply totalQuantity_perm. }
    destruct (Z.le_gt_cases (PantryItem.quantity item) q) as [Hq|Hq].
    + pose proof (openItem_full_total genId now openedNow id q db item Hnd
                    Hget Hq) as Htotal.
      rewrite (openItem_full genId now openedNow id q db item Hget Hq) in *.
      cbn [snd] in Htotal. simpl. apply Hgoal; [|intros _; exact Htotal].
      unfold itemsMirror in *. simpl. unfold openItem_update.
      rewrite <- Hid.
      etrans; [|symmetry;
        apply (update_perm
                 (fun r => PantryItem.mk (PantryItem.id r)
                             (PantryItem.name item) (PantryItem.quantity item)
                             (PantryItem.storageAreaId r)
                             (PantryItem.createdAt r) true (Some openedNow)
                             (orNull (newExpiryDate now
                                        (PantryItem.expiryDate item))))
                 (items db) item); done].
      apply Permutation_app_tail. by apply removeItem_update_perm.
    + assert (Hlt : q < PantryItem.quantity item) by lia.
      pose proof (fun Hsafe =>
                    openItem_split_total genId now openedNow id q db item Hnd
                      Hget Hlt Hsafe Hfresh
                      (fun Hon => Hfk Hon item eq_refl))
        as Htotal.
      rewrite (openItem_split genId now openedNow id q db item Hget Hlt Hfresh
                 (fun Hon => Hfk Hon item eq_refl)) in *.
      cbn [snd] in Htotal. simpl. apply Hgoal; [|exact Htotal].
      unfold itemsMirror in *. simpl. unfold openItem_update.
      rewrite <- Hid.
      etrans; [|apply Permutation_app_tail; symmetry;
        apply (update_perm
                 (fun r => PantryItem.setQuantity r
                             (jsSub (PantryItem.quantity item) q))
                 (items db) item); done].
      rewrite <- app_assoc. simpl.
      apply Permutation_app_tail. by apply removeItem_update_perm.
  - unfold openItem. rewrite Hget. by simpl.
Qed.

Lemma maxOrder_above (s : Db) (a : StorageArea.t) :
  a ∈ storage_areas s ->
  StorageArea.order a
  < match storageAreaQueries_getMaxOrder s with
    | Some maxOrder => maxOrder
    | None => -1
    end + 1.
Proof.
  unfold storageAreaQueries_getMaxOrder.
  destruct (storage_areas s) as [|a0 l]; intros Ha;
    [by apply elem_of_nil in Ha|].
  destruct (fold_max_spec l (StorageArea.order a0)) as (H1 & H2 & _).
  apply elem_of_cons in Ha as [->|Ha]; [lia|].
  specialize (H2 a Ha). lia.
Qed.

(** [addStorageArea] keeps the areas of the hook equal to the listing of
    the database, ranks aside: the new area is last in both. *)
Theorem addStorageArea_keeps_mirror (genId name : string) (icon : AreaIcon)
    (color : AreaColor) (st : PantryStore.t) (db : Db) :
  areasMirror st db ->
  let '(st', db') := addStorageArea genId name icon color (st, db) in
  areasMirror st' db'
  /\ PantryStore.items st' = PantryStore.items st
  /\ items db' = items db.
Proof.
  intros Hmirror. unfold addStorageArea.
  destruct (emptyb (trim name)); [done|].
  unfold createArea. simpl area_name.
  destruct (emptyb (trim (trim name))); [done|].
  unfold storageAreaQueries_insert. simpl StorageArea.id.
  destruct (storageAreaQueries_getById db genId); [done|]. simpl.
  split; [|done]. unfold areasMirror, storageAreaQueries_getAll in *. simpl.
  rewrite sortByOrder_snoc.
  - by rewrite !map_app, Hmirror.
  - intros a Ha. pose proof (maxOrder_above db a Ha). simpl. lia.
Qed.

Lemma insertByOrder_map (f : StorageArea.t -> StorageArea.t)
    (a : StorageArea.t) (l : list StorageArea.t) :
  StorageArea.order (f a) = StorageArea.order a ->
  (forall b, b ∈ l -> StorageArea.order (f b) = StorageArea.order b) ->
  insertByOrder (f a) (map f l) = map f (insertByOrder a l).
Proof.
  intros Ha. induction l as [|b l IH]; intros Hl; simpl; [done|].
  rewrite Ha, (Hl b) by left.
  destruct (_ <=? _); [done|]. simpl. f_equal. apply IH.
  intros c Hc. apply Hl. by right.
Qed.

(** A change of the rows that leaves the ranks alone leaves the places in
    the listing alone. *)
Lemma sortByOrder_map (f : StorageArea.t -> StorageArea.t)
    (l : list StorageArea.t) :
  (forall b, b ∈ l -> StorageArea.order (f b) = StorageArea.order b) ->
  sortByOrder (map f l) = map f (sortByOrder l).
Proof.
  induction l as [|a l IH]; intros Hl; simpl; [done|].
  rewrite IH by (intros b Hb; apply Hl; by right).
  apply insertByOrder_map; [apply Hl; by left|].
  intros b Hb. apply Hl. right. by rewrite <- (sortByOrder_perm l).
Qed.

(** [updateStorageArea] keeps the areas of the hook equal to the listing
    of the database, ranks aside, for an update that does not set the
    rank. *)
Theorem updateStorageArea_keeps_mirror (id : string) (updates : AreaPatch)
    (st : PantryStore.t) (db : Db) :
  NoDup (map StorageArea.id (storage_areas db)) ->
  patch_order updates = None ->
  areasMirror st db ->
  let '(st', db') := updateStorageArea id updates (st, db) in
  areasMirror st' db'
  /\ PantryStore.items st' = PantryStore.items st
  /\ items db' = items db.
Proof.
  intros Hnd Horder Hmirror. unfold updateStorageArea, updateArea.
  destruct (storageAreaQueries_getById db id) as [existing|] eqn:Hget;
    [|done].
  pose proof (areaById_found _ _ _ Hget) as [Hin Hid].
  rewrite Horder. simpl. split; [|done].
  set (updated := StorageArea.mk id _ _ _ _).
  unfold areasMirror, storageAreaQueries_getAll, storageAreaQueries_update
    in *.
  simpl.
  rewrite sortByOrder_map; cycle 1.
  { intros b Hb.
    destruct (String.eqb_spec (StorageArea.id b) id) as [Heq|]; [|done].
    simpl. f_equal. symmetry. apply (area_of_row (storage_areas db));
      [done| |done].
    by rewrite Heq. }
  assert (Hforget : forall l,
            map (fun a => StorageArea.setOrder a 0)
              (map (fun b => if String.eqb (StorageArea.id b) id
                             then updated else b) l)
            = map (fun b => if String.eqb (StorageArea.id b) id
                            then StorageArea.setOrder updated 0 else b)
                (map (fun a => StorageArea.setOrder a 0) l)).
  { intros l. rewrite !map_map. apply map_ext. intros a. simpl.
    by destruct (String.eqb (StorageArea.id a) id). }
  by rewrite !Hforget, Hmirror.
Qed.

Lemma forget_renumber (index : Z) (l : list StorageArea.t) :
  map (fun a => StorageArea.setOrder a 0) (renumber index l)
  = map (fun a => StorageArea.setOrder a 0) l.
Proof.
  revert index. induction l as [|a l IH]; intros index; simpl; [done|].
  by rewrite IH.
Qed.

Lemma forget_filter (q : string -> bool) (l : list StorageArea.t) :
  map (fun a => StorageArea.setOrder a 0)
    (filter (fun a => q (StorageArea.id a)) l)
  = filter (fun a => q (StorageArea.id a))
      (map (fun a => StorageArea.setOrder a 0) l).
Proof.
  induction l as [|a l IH]; [done|].
  cbn [map]. rewrite !filter_cons. simpl StorageArea.id.
  destruct (decide (q (StorageArea.id a))); simpl; by rewrite IH.
Qed.

(** [deleteStorageArea] keeps the hook and the database together: the
    items of the hook stay the items of the database, up to the order,
    and its areas stay the listing of the database, ranks aside (the
    database renumbers the ranks, the hook keeps the old ones). *)
Theorem deleteStorageArea_keeps_mirror (id : string) (st : PantryStore.t)
    (db : Db) :
  NoDup (map StorageArea.id (storage_areas db)) ->
  itemsMirror st db -> areasMirror st db ->
  let '(st', db') := deleteStorageArea id (st, db) in
  itemsMirror st' db' /\ areasMirror st' db'
  /\ (forall area, storageAreaQueries_getById db id = Some area ->
        (forall item, item ∈ PantryStore.items st' ->
           PantryItem.storageAreaId item <> id)
        /\ id ∉ map StorageArea.id (PantryStore.storageAreas st')).
Proof.
  intros Hnd Hitems Hareas. unfold deleteStorageArea.
  destruct (storageAreaQueries_getById db id) as [area|] eqn:Hget.
  - destruct (deleteArea_found id db area Hnd Hget)
      as (s' & -> & Hi & Hall & _). simpl.
    split; [|split].
    + unfold itemsMirror in *. simpl. by rewrite Hi, Hitems.
    + unfold areasMirror in *. simpl. rewrite Hall, forget_renumber.
      rewrite (forget_filter (fun x => negb (String.eqb x id))), Hareas.
      symmetry.
      apply (forget_filter (fun x => negb (String.eqb x id))).
    + intros _ _. simpl. split.
      * intros item Hitem. apply list_elem_of_filter in Hitem as [Hne _].
        intros Heq. by rewrite Heq, String.eqb_refl in Hne.
      * intros Hin. apply list_elem_of_fmap in Hin as (a & Ha & Hin).
        apply list_elem_of_filter in Hin as [Hne _].
        by rewrite <- Ha, String.eqb_refl in Hne.
  - rewrite deleteArea_not_found by done. by simpl.
Qed.

Lemma insertByName_perm (r : PantryItem.t) (l : list PantryItem.t) :
  insertByName r l ≡ₚ r :: l.
Proof.
  induction l as [|x l IH]; simpl; [done|].
  destruct (String.leb _ _); [done|]. rewrite IH. apply perm_swap.
Qed.

Lemma sortByName_perm (l : list PantryItem.t) : sortByName l ≡ₚ l.
Proof.
  induction l as [|r l IH]; simpl; [done|].
  by rewrite insertByName_perm, IH.
Qed.

(** After [loadData] (and [refresh]) the hook holds the items of the
    database and, unless the database has no area, its listing of the
    areas; an earlier error is cleared, and the database is only
    read. *)
Theorem loadData_mirrors (st : PantryStore.t) (db : Db) :
  let '(st', db') := loadData (st, db) in
  db' = db
  /\ itemsMirror st' db
  /\ PantryStore.items st' = itemQueries_getAll db
  /\ (storage_areas db <> [] ->
      PantryStore.storageAreas st' = storageAreaQueries_getAll db)
  /\ (storage_areas db = [] ->
      PantryStore.storageAreas st' = DEFAULT_STORAGE_AREAS)
  /\ PantryStore.error st' = None
  /\ PantryStore.isLoading st' = false.
Proof.
  unfold loadData. simpl.
  split; [done|]. split; [apply sortByName_perm|]. split; [done|].
  unfold storageAreaQueries_getAll.
  assert (Hlen : length (sortByOrder (storage_areas db))
                 = length (storage_areas db))
    by by rewrite sortByOrder_perm.
  rewrite Hlen. split; [|split; [|done]].
  - intros Hne. destruct (storage_areas db); [done|]. by simpl.
  - by intros ->.
Qed.

(** *** The count of an area *)

Section DropLeading.

Variable p1 : ascii -> bool.
Variable p2 : ascii -> ascii -> bool.
Variable p3 : ascii -> ascii -> ascii -> bool.

Lemma dropLeading_fixed (l : list ascii) :
  startsWith p1 p2 p3 l = false -> dropLeading p1 p2 p3 l = l.
Proof.
  destruct l as [|c1 [|c2 [|c3 l]]]; cbn [startsWith dropLeading];
    [done|..].
  - intros H. by apply orb_false_elim in H as [-> _].
  - intros H. apply orb_false_elim in H as [-> H].
    by apply orb_false_elim in H as [-> _].
  - intros H. apply orb_false_elim in H as [-> H].
    by apply orb_false_elim in H as [-> ->].
Qed.

Lemma dropLeading_spec (n : nat) (l : list ascii) :
  (length l <= n)%nat ->
  startsWith p1 p2 p3 (dropLeading p1 p2 p3 l) = false
  /\ exists l0, l = l0 ++ dropLeading p1 p2 p3 l.
Proof.
  revert l. induction n as [|n IH]; intros l Hn.
  { destruct l; [|simpl in Hn; lia]. split; [done|by exists []]. }
  destruct l as [|c1 l1]; [split; [done|by exists []]|].
  simpl in Hn. cbn [dropLeading].
  destruct (p1 c1) eqn:H1.
  { destruct (IH l1 ltac:(lia)) as [Hs [l0 Hl]].
    split; [done|]. exists (c1 :: l0). simpl. by f_equal. }
  destruct l1 as [|c2 l2].
  { split; [simpl; by rewrite H1|by exists []]. }
  simpl in Hn. destruct (p2 c1 c2) eqn:H2.
  { destruct (IH l2 ltac:(lia)) as [Hs [l0 Hl]].
    split; [done|]. exists (c1 :: c2 :: l0). simpl. by do 2 f_equal. }
  destruct l2 as [|c3 l3].
  { split; [simpl; by rewrite H1, H2|by exists []]. }
  simpl in Hn. destruct (p3 c1 c2 c3) eqn:H3.
  { destruct (IH l3 ltac:(lia)) as [Hs [l0 Hl]].
    split; [done|]. exists (c1 :: c2 :: c3 :: l0). simpl. by do 3 f_equal. }
  split; [simpl; by rewrite H1, H2, H3|by exists []].
Qed.

Lemma dropLeading_idem (l : list ascii) :
  dropLeading p1 p2 p3 (dropLeading p1 p2 p3 l) = dropLeading p1 p2 p3 l.
Proof.
  apply dropLeading_fixed. by apply (dropLeading_spec (length l)).
Qed.

(** What begins a part of the bytes begins the bytes. *)
Lemma startsWith_prefix (l l' : list ascii) :
  startsWith p1 p2 p3 (l ++ l') = false -> startsWith p1 p2 p3 l = false.
Proof.
  destruct l as [|c1 [|c2 [|c3 l]]]; cbn [startsWith app]; [done|..].
  - intros H. apply orb_false_elim in H as [-> _]. done.
  - intros H. apply orb_false_elim in H as [-> H].
    apply orb_false_elim in H as [-> _]. done.
  - done.
Qed.

End DropLeading.

(** Trimming a trimmed string changes nothing. *)
Lemma trim_idem (s : string) : trim (trim s) = trim s.
Proof.
  unfold trim. rewrite list_ascii_of_string_of_list_ascii. f_equal.
  set (x := trimStart (list_ascii_of_string s)).
  assert (Hx : startsWith isWhiteSpace1 isWhiteSpace2 isWhiteSpace3 x = false)
    by apply (dropLeading_spec _ _ _ (length (list_ascii_of_string s))), le_n.
  assert (Hstart : trimStart (trimEnd x) = trimEnd x).
  { apply dropLeading_fixed. unfold trimEnd.
    set (q2 := fun c2 c1 => isWhiteSpace2 c1 c2).
    set (q3 := fun c3 c2 c1 => isWhiteSpace3 c1 c2 c3).
    destruct (dropLeading_spec isWhiteSpace1 q2 q3 (length (rev x)) (rev x)
                (le_n _)) as [_ [l0 Hl]].
    apply (f_equal (@rev ascii)) in Hl.
    rewrite rev_involutive, rev_app_distr in Hl.
    apply (startsWith_prefix _ _ _ _ (rev l0)). by rewrite <- Hl. }
  rewrite Hstart. unfold trimEnd at 1 2.
  by rewrite rev_involutive, dropLeading_idem.
Qed.

Lemma totalQuantity_nonneg (l : list PantryItem.t) :
  Forall (fun r => 0 <= PantryItem.quantity r) l -> 0 <= totalQuantity l.
Proof. induction 1; simpl; lia. Qed.

Lemma totalQuantity_member (l : list PantryItem.t) (r : PantryItem.t) :
  Forall (fun r => 0 <= PantryItem.quantity r) l -> r ∈ l ->
  PantryItem.quantity r <= totalQuantity l.
Proof.
  induction 1 as [|x l Hx Hl IH]; intros Hin; [by apply elem_of_nil in Hin|].
  pose proof (totalQuantity_nonneg l Hl). simpl.
  apply elem_of_cons in Hin as [->|Hin]; [lia|]. specialize (IH Hin). lia.
Qed.

Lemma totalQuantity_filter_le (a : string) (l : list PantryItem.t) :
  Forall (fun r => 0 <= PantryItem.quantity r) l ->
  totalQuantity
    (filter (fun r => String.eqb (PantryItem.storageAreaId r) a) l)
  <= totalQuantity l.
Proof.
  induction 1 as [|x l Hx Hl IH]; [done|].
  rewrite filter_cons. destruct (decide _); simpl; lia.
Qed.

(** The [reduce] of the hook adds exactly while the sum stays within
    [2 ^ 53]. *)
Lemma reduce_exact (l : list PantryItem.t) (sum : Z) :
  Forall (fun r => 0 <= PantryItem.quantity r) l ->
  0 <= sum -> sum + totalQuantity l <= 2 ^ 53 ->
  fold_left (fun sum item => jsAdd sum (PantryItem.quantity item)) l sum
  = sum + totalQuantity l.
Proof.
  intros Hl. revert sum.
  induction Hl as [|x l Hx Hl IH]; intros sum Hsum Hmax; simpl; [lia|].
  pose proof (totalQuantity_nonneg l Hl). simpl in Hmax.
  rewrite jsAdd_exact by (change (2 ^ 53) with 9007199254740992 in *; lia).
  rewrite IH; lia.
Qed.

Lemma getItemCountForArea_total (st : PantryStore.t) (storageAreaId : string) :
  Forall (fun r => 0 <= PantryItem.quantity r) (PantryStore.items st) ->
  totalQuantity
    (filter (fun item => String.eqb (PantryItem.storageAreaId item)
                           storageAreaId)
       (PantryStore.items st)) <= 2 ^ 53 ->
  getItemCountForArea st storageAreaId
  = totalQuantity
      (filter (fun item => String.eqb (PantryItem.storageAreaId item)
                             storageAreaId)
         (PantryStore.items st)).
Proof.
  intros Hl Hmax. unfold getItemCountForArea.
  rewrite reduce_exact; [lia| |lia|lia].
  apply Forall_forall. intros r Hr. apply list_elem_of_filter in Hr as [_ Hr].
  by apply (proj1 (Forall_forall _ _) Hl).
Qed.

Lemma filter_area_map (f : PantryItem.t -> PantryItem.t) (a : string)
    (l : list PantryItem.t) :
  (forall r, PantryItem.storageAreaId (f r) = PantryItem.storageAreaId r) ->
  filter (fun r => String.eqb (PantryItem.storageAreaId r) a) (map f l)
  = map f (filter (fun r => String.eqb (PantryItem.storageAreaId r) a) l).
Proof.
  intros Hf. induction l as [|r l IH]; [done|].
  cbn [map]. rewrite !filter_cons, Hf.
  destruct (decide _); simpl; by rewrite IH.
Qed.

(** An accepted [POST /api/items] adds its quantity to the total of its
    area and leaves the totals of the other areas. *)
Lemma createOrMergeItem_area_total (genId : string) (now : Z)
    (body : ItemBody) (s : Db) (a : string) :
  validBody body ->
  NoDup (map PantryItem.id (items s)) ->
  itemQueries_getById s genId = None ->
  (foreign_keys = true ->
   is_Some (storageAreaQueries_getById s (body_storageAreaId body))) ->
  (forall r, r ∈ items s ->
     - 2 ^ 53 <= PantryItem.quantity r + body_quantity body <= 2 ^ 53) ->
  totalQuantity
    (filter (fun r => String.eqb (PantryItem.storageAreaId r) a)
       (items (snd (createOrMergeItem genId now body s))))
  = totalQuantity
      (filter (fun r => String.eqb (PantryItem.storageAreaId r) a) (items s))
    + (if String.eqb (body_storageAreaId body) a
       then body_quantity body else 0).
Proof.
  intros Hvalid Hnd Hfresh Hfk Hsafe.
  destruct (itemQueries_findMergeable s (body_storageAreaId body)
              (trim (body_name body)) (orNull (body_expiryDate body)))
    as [existing|] eqn:Hfind.
  - pose proof (findMergeable_Some _ _ _ _ _ Hfind) as [Hin Hm].
    apply mergeable_iff in Hm as (Harea & _).
    rewrite (createOrMergeItem_merge genId now body s existing Hvalid Hfind
               (getById_of_row s existing Hnd Hin)).
    rewrite (jsAdd_exact _ _ (Hsafe existing Hin)).
    cbn [snd itemQueries_updateQuantity items].
    rewrite filter_area_map
      by (intros r; by destruct (String.eqb (PantryItem.id r) _)).
    rewrite <- Harea.
    destruct (String.eqb_spec (PantryItem.storageAreaId existing) a)
      as [Ha|Ha].
    + rewrite (totalQuantity_update
                 (fun x => PantryItem.setQuantity x
                             (PantryItem.quantity existing
                              + body_quantity body))).
      * simpl. lia.
      * by apply (NoDup_map_filter PantryItem.id
                    (fun r => String.eqb (PantryItem.storageAreaId r) a)).
      * apply list_elem_of_filter. split; [|done].
        rewrite Ha. by rewrite String.eqb_refl.
    + rewrite totalQuantity_map_same; [lia|].
      intros r Hr. apply list_elem_of_filter in Hr as [Hra Hr].
      destruct (String.eqb_spec (PantryItem.id r) (PantryItem.id existing))
        as [Heq|]; [|done].
      exfalso. apply Ha.
      pose proof (getById_of_row s r Hnd Hr) as H1.
      pose proof (getById_of_row s existing Hnd Hin) as H2.
      rewrite Heq, H2 in H1. injection H1 as ->.
      apply Is_true_true in Hra. by apply String.eqb_eq in Hra.
  - rewrite (createOrMergeItem_create genId now body s Hvalid Hfind Hfresh
               Hfk).
    cbn [snd items]. rewrite filter_app, totalQuantity_app. f_equal.
    rewrite filter_cons, filter_nil. cbn [newItemOf PantryItem.storageAreaId].
    destruct (decide _) as [Ha|Ha].
    + apply Is_true_true in Ha. rewrite Ha. simpl. lia.
    + apply Is_true_false in Ha. rewrite Ha. by simpl.
Qed.

(** What an accepted [addItem] does: the request reaches the handler,
    and the items of the hook follow the store. *)
Lemma addItem_accepted (genId : string) (now : Z) (name : string)
    (quantity : Z) (storageAreaId : string) (expiryDate : option string)
    (st : PantryStore.t) (db : Db) :
  NoDup (map PantryItem.id (items db)) ->
  itemsMirror st db ->
  emptyb (trim name) = false -> 1 <= quantity ->
  emptyb storageAreaId = false ->
  itemQueries_getById db genId = None ->
  (foreign_keys = true ->
   is_Some (storageAreaQueries_getById db storageAreaId)) ->
  let body := mkItemBody (trim name) quantity storageAreaId expiryDate in
  validBody body
  /\ PantryStore.items
       (fst (addItem genId now name quantity storageAreaId expiryDate
               (st, db)))
     ≡ₚ items (snd (createOrMergeItem genId now body db)).
Proof.
  intros Hnd Hmirror Hname Hq Harea Hfresh Hfk body.
  assert (Hvalid : validBody body).
  { unfold validBody. simpl. by rewrite trim_idem. }
  split; [done|]. unfold addItem. rewrite Hname.
  destruct (Z.ltb_spec quantity 1); [lia|]. cbn [orb]. fold body.
  unfold itemsMirror in Hmirror.
  destruct (itemQueries_findMergeable db (body_storageAreaId body)
              (trim (body_name body)) (orNull (body_expiryDate body)))
    as [existing|] eqn:Hfind.
  - pose proof (findMergeable_Some _ _ _ _ _ Hfind) as [Hin _].
    rewrite (createOrMergeItem_merge genId now body db existing Hvalid Hfind
               (getById_of_row db existing Hnd Hin)).
    simpl. rewrite addItem_update_known; cycle 1.
    { by rewrite Hmirror. }
    { simpl. rewrite Hmirror. apply list_elem_of_fmap. by exists existing. }
    simpl.
    by apply (replaceItem_mirror
                (fun x => PantryItem.setQuantity x
                            (jsAdd (PantryItem.quantity existing) quantity))).
  - rewrite (createOrMergeItem_create genId now body db Hvalid Hfind Hfresh
               Hfk).
    simpl. rewrite addItem_update_new.
    + by rewrite Hmirror.
    + simpl. rewrite Hmirror. by apply itemById_None.
Qed.

(** An accepted [POST /api/items] leaves no negative quantity where
    there was none. *)
Lemma createOrMergeItem_nonneg (genId : string) (now : Z) (body : ItemBody)
    (s : Db) :
  NoDup (map PantryItem.id (items s)) ->
  0 <= body_quantity body ->
  Forall (fun r => 0 <= PantryItem.quantity r) (items s) ->
  (forall r, r ∈ items s ->
     - 2 ^ 53 <= PantryItem.quantity r + body_quantity body <= 2 ^ 53) ->
  Forall (fun r => 0 <= PantryItem.quantity r)
    (items (snd (createOrMergeItem genId now body s))).
Proof.
  intros Hnd Hq Hl Hsafe.
  destruct (createOrMergeItem_cases genId now body s Hnd)
    as [(status & message & ->)|[(existing & Hin & _ & ->)|(_ & ->)]];
    [done| |].
  - rewrite (jsAdd_exact _ _ (Hsafe existing Hin)).
    cbn [snd items itemQueries_updateQuantity].
    apply Forall_forall. intros r Hr.
    apply list_elem_of_fmap in Hr as (x & -> & Hx).
    pose proof (proj1 (Forall_forall _ _) Hl x Hx) as H0.
    pose proof (proj1 (Forall_forall _ _) Hl existing Hin) as H1.
    simpl in *.
    destruct (String.eqb (PantryItem.id x) (PantryItem.id existing));
      simpl; lia.
  - cbn [snd items]. apply Forall_app. split; [done|].
    by repeat constructor.
Qed.

(** An accepted [addItem] raises the count the hook shows for the area of
    the item by the quantity added, and the count of no other area,
    whether the server merged the item or created it.  The quantities
    are not negative and their total with the added quantity is at most
    [2 ^ 53], so that the additions of the handler and of the hook are
    exact. *)
Theorem addItem_raises_count (genId : string) (now : Z) (name : string)
    (quantity : Z) (storageAreaId : string) (expiryDate : option string)
    (st : PantryStore.t) (db : Db) :
  NoDup (map PantryItem.id (items db)) ->
  itemsMirror st db ->
  emptyb (trim name) = false -> 1 <= quantity ->
  emptyb storageAreaId = false ->
  itemQueries_getById db genId = None ->
  (foreign_keys = true ->
   is_Some (storageAreaQueries_getById db storageAreaId)) ->
  Forall (fun r => 0 <= PantryItem.quantity r) (items db) ->
  totalQuantity (items db) + quantity <= 2 ^ 53 ->
  let '(st', _) :=
    addItem genId now name quantity storageAreaId expiryDate (st, db) in
  forall a,
    getItemCountForArea st' a
    = getItemCountForArea st a
      + (if String.eqb storageAreaId a then quantity else 0).
Proof.
  intros Hnd Hmirror Hname Hq Harea Hfresh Hfk Hl Hmax.
  destruct (addItem_accepted genId now name quantity storageAreaId
              expiryDate st db Hnd Hmirror Hname Hq Harea Hfresh Hfk)
    as [Hvalid Hafter].
  set (body := mkItemBody (trim name) quantity storageAreaId expiryDate)
    in *.
  assert (Hsafe : forall r, r ∈ items db ->
            - 2 ^ 53 <= PantryItem.quantity r + body_quantity body
            <= 2 ^ 53).
  { intros r Hr. pose proof (totalQuantity_member _ r Hl Hr).
    pose proof (proj1 (Forall_forall _ _) Hl r Hr) as H0. simpl in *.
    change (2 ^ 53) with 9007199254740992 in *. lia. }
  pose proof (createOrMergeItem_nonneg genId now body db Hnd
                ltac:(simpl; lia) Hl Hsafe) as Hl'.
  destruct (addItem _ _ _ _ _ _ _) as [st' db']. cbn [fst] in Hafter.
  intros a.
  pose proof (createOrMergeItem_area_total genId now body db a Hvalid Hnd
                Hfresh Hfk Hsafe) as Hsum.
  pose proof (totalQuantity_filter_le a _ Hl) as Hle.
  unfold itemsMirror in Hmirror.
  pose proof (totalQuantity_perm _ _
                (filter_Permutation
                   (fun r => String.eqb (PantryItem.storageAreaId r) a)
                   _ _ Hafter)) as Hafter'.
  pose proof (totalQuantity_perm _ _
                (filter_Permutation
                   (fun r => String.eqb (PantryItem.storageAreaId r) a)
                   _ _ Hmirror)) as Hbefore'.
  cbn [body_storageAreaId body_quantity body] in Hsum.
  assert (Hbound : (if String.eqb storageAreaId a then quantity else 0)
                   <= quantity) by (destruct (String.eqb _ _); lia).
  rewrite !getItemCountForArea_total.
  - rewrite Hafter', Hbefore'. exact Hsum.
  - by rewrite Hmirror.
  - rewrite Hbefore'. lia.
  - by rewrite Hafter.
  - rewrite Hafter', Hsum. lia.
Qed.

End Backend.

(** ** The model on concrete requests

    The runtime is a process in UTC with foreign keys enforced. *)

(** [trim] removes the white space of ECMAScript at both ends, also
    where it takes two or three bytes, and nothing inside. *)
Example trim_sample :
  trim (NBSP +:+ " Oat" +:+ NBSP +:+ "milk " +:+ IDEOGRAPHIC_SPACE)
  = "Oat" +:+ NBSP +:+ "milk"
  /\ trim (NBSP +:+ IDEOGRAPHIC_SPACE) = EmptyString
  /\ trim "  Milk " = "Milk".
Proof. vm_compute. by repeat split. Qed.

(** Rounding sets in above [2 ^ 53]: to the nearest double, and to the
    even one of two that are equally near. *)
Example fl_sample :
  fl (2 ^ 53) = 2 ^ 53
  /\ fl (2 ^ 53 + 1) = 2 ^ 53
  /\ fl (2 ^ 53 + 2) = 2 ^ 53 + 2
  /\ fl (2 ^ 53 + 3) = 2 ^ 53 + 4
  /\ fl (- (2 ^ 53 + 1)) = - 2 ^ 53
  /\ fl (2 ^ 54 + 1) = 2 ^ 54
  /\ fl (2 ^ 54 + 3) = 2 ^ 54 + 4
  /\ jsAdd (2 ^ 53) 1 = 2 ^ 53
  /\ jsSub (2 ^ 53 + 2) 1 = 2 ^ 53.
Proof. vm_compute. by repeat split. Qed.

(** C1, at a concrete input.  On the seeded store, which holds no item,
    two requests for "Milk" in the fridge with the empty string as
    expiry date leave two records of quantities 1 and 2 instead of one
    record of quantity 3. *)
Theorem createOrMergeItem_twice_empty_expiry_sample :
  let body q := mkItemBody "Milk" q "fridge" (Some EmptyString) in
  let '(r1, s1) := createOrMergeItem true "id1" 1000 (body 1) seeded in
  let '(r2, s2) := createOrMergeItem true "id2" 2000 (body 2) s1 in
  items seeded = []
  /\ r1 = Json 201 (PantryItem.mk "id1" "Milk" 1 "fridge" 1000 false None
                      (Some EmptyString))
  /\ r2 = Json 201 (PantryItem.mk "id2" "Milk" 2 "fridge" 2000 false None
                      (Some EmptyString))
  /\ items s2 =
     [ PantryItem.mk "id1" "Milk" 1 "fridge" 1000 false None
         (Some EmptyString);
       PantryItem.mk "id2" "Milk" 2 "fridge" 2000 false None
         (Some EmptyString) ].
Proof. vm_compute. by repeat split. Qed.

(** With a date as expiry date, the two requests leave one record of
    quantity 3 with the id and creation time of the first request. *)
Example createOrMergeItem_twice_sample :
  let body n q := mkItemBody n q "fridge" (Some "2024-06-01") in
  let '(r1, s1) := createOrMergeItem true "id1" 1000 (body "Milk" 1) seeded in
  let '(r2, s2) := createOrMergeItem true "id2" 2000 (body " milk " 2) s1 in
  r1 = Json 201 (PantryItem.mk "id1" "Milk" 1 "fridge" 1000 false None
                   (Some "2024-06-01"))
  /\ r2 = Json 200 (PantryItem.mk "id1" "Milk" 3 "fridge" 1000 false None
                      (Some "2024-06-01"))
  /\ items s2 =
     [ PantryItem.mk "id1" "Milk" 3 "fridge" 1000 false None
         (Some "2024-06-01") ].
Proof. vm_compute. by repeat split. Qed.

(** C2, at concrete inputs.  A stored unopened "Milk" in the fridge
    whose expiry date is the empty string and a request for "milk" in
    the fridge with the empty string as expiry date agree on area, name
    and expiry date, and the request is not merged: a second record is
    inserted.  A stored "Milk" without expiry date and the same request
    differ in the expiry date, and the request is merged. *)
Theorem createOrMergeItem_empty_expiry_sample :
  let stored e := PantryItem.mk "i1" "Milk" 1 "fridge" 1000 false None e in
  let body := mkItemBody "milk" 2 "fridge" (Some EmptyString) in
  let created := PantryItem.mk "i2" "milk" 2 "fridge" 2000 false None
                   (Some EmptyString) in
  (PantryItem.expiryDate (stored (Some EmptyString)) = body_expiryDate body
   /\ createOrMergeItem true "i2" 2000 body
        (mkDb DEFAULT_STORAGE_AREAS [stored (Some EmptyString)])
      = (Json 201 created,
         mkDb DEFAULT_STORAGE_AREAS [stored (Some EmptyString); created]))
  /\ (PantryItem.expiryDate (stored None) <> body_expiryDate body
      /\ createOrMergeItem true "i2" 2000 body
           (mkDb DEFAULT_STORAGE_AREAS [stored None])
         = (Json 200 (PantryItem.setQuantity (stored None) 3),
            mkDb DEFAULT_STORAGE_AREAS
              [PantryItem.setQuantity (stored None) 3])).
Proof. vm_compute. by repeat split. Qed.

(** The merge rule on dates: a different case merges, an expiry date
    against none does not, in either direction, and an opened item is
    not merged into. *)
Example createOrMergeItem_rule_sample :
  let stored o e := PantryItem.mk "i1" "Milk" 1 "fridge" 1000 o None e in
  let db r := mkDb DEFAULT_STORAGE_AREAS [r] in
  let post e s :=
    fst (createOrMergeItem true "i2" 2000 (mkItemBody "milk" 2 "fridge" e) s) in
  let created e := PantryItem.mk "i2" "milk" 2 "fridge" 2000 false None e in
  post (Some "2024-06-01") (db (stored false (Some "2024-06-01")))
    = Json 200 (PantryItem.setQuantity (stored false (Some "2024-06-01")) 3)
  /\ post None (db (stored false None))
     = Json 200 (PantryItem.setQuantity (stored false None) 3)
  /\ post None (db (stored false (Some "2024-06-01")))
     = Json 201 (created None)
  /\ post (Some "2024-06-01") (db (stored false None))
     = Json 201 (created (Some "2024-06-01"))
  /\ post (Some "2024-06-01") (db (stored true (Some "2024-06-01")))
     = Json 201 (created (Some "2024-06-01")).
Proof. vm_compute. by repeat split. Qed.

(** Opening one of the three cartons of milk. *)
Lemma openItem_split_conserves_quantity_witness :
  itemQueries_getById fridgeWithMilk "i1" = Some milk
  /\ 1 <= 1 < PantryItem.quantity milk
  /\ PantryItem.quantity milk <= 2 ^ 53
  /\ itemQueries_getById fridgeWithMilk "i2" = None
  /\ exists original opened s',
       openItem true Utc.Date_parse Utc.startOfDay "i2"
         noon_2024_06_10 noon_2024_06_10 "i1" 1 fridgeWithMilk
       = (Json 200 [original; opened], s')
       /\ map PantryItem.id (items s') = ["i1"; "i2"]
       /\ PantryItem.quantity original = 2
       /\ PantryItem.quantity opened = 1
       /\ PantryItem.quantity original + PantryItem.quantity opened = 3
       /\ PantryItem.isOpened original = false
       /\ PantryItem.isOpened opened = true.
Proof.
  split; [reflexivity|]. split; [simpl; lia|].
  split; [intros H; discriminate H|]. split; [reflexivity|].
  destruct (openItem_split_conserves_quantity true Utc.Date_parse
              Utc.startOfDay "i2" noon_2024_06_10 noon_2024_06_10 "i1" 1
              fridgeWithMilk milk)
    as (original & opened & s' & Hrun & _ & Hids & _ & _ & _ & Hsum
        & (_ & _ & Hflag & _ & Hq & _) & (_ & _ & _ & _ & Hq' & Hopened & _)).
  - reflexivity.
  - simpl; lia.
  - intros H; discriminate H.
  - reflexivity.
  - intros _. eexists. reflexivity.
  - exists original, opened, s'. split; [exact Hrun|].
    split; [exact Hids|]. split; [exact Hq|]. split; [exact Hq'|].
    split; [exact Hsum|]. split; [exact (Hflag eq_refl)|exact Hopened].
Defined.


(** Milk that expires on 2024-06-20, opened on 2024-06-10. *)
Lemma openItem_expiry_halving_witness :
  Utc.Date_parse "2024-06-20" = Some (Utc.startOfDay noon_2024_06_10 + 10 * DAY)
  /\ exists body opened s',
       openItem true Utc.Date_parse Utc.startOfDay "i2"
         noon_2024_06_10 noon_2024_06_10 "i1" 1 fridgeWithMilk
       = (Json 200 body, s')
       /\ last body = Some opened
       /\ PantryItem.expiryDate opened = Some "2024-06-15".
Proof.
  split; [reflexivity|].
  destruct (openItem_expiry_halving true Utc.Date_parse Utc.startOfDay "i2"
              noon_2024_06_10 noon_2024_06_10 "i1" 1 fridgeWithMilk milk
              "2024-06-20")
    as (body & opened & s' & Hrun & Hlast & _ & _ & Hten & _).
  - reflexivity.
  - reflexivity.
  - reflexivity.
  - reflexivity.
  - intros _. eexists. reflexivity.
  - exists body, opened, s'. split; [exact Hrun|]. split; [exact Hlast|].
    exact (Hten eq_refl).
Defined.

(** Halving on calendar dates: opened on 2024-06-10, an expiry of
    2024-06-20 becomes 2024-06-15, expiries of 2024-06-11 and of
    2024-06-01 are kept, and three days left become one. *)
Example newExpiryDate_sample :
  newExpiryDate Utc.Date_parse Utc.startOfDay noon_2024_06_10
    (Some "2024-06-20") = Some "2024-06-15"
  /\ newExpiryDate Utc.Date_parse Utc.startOfDay noon_2024_06_10
       (Some "2024-06-11") = Some "2024-06-11"
  /\ newExpiryDate Utc.Date_parse Utc.startOfDay noon_2024_06_10
       (Some "2024-06-01") = Some "2024-06-01"
  /\ newExpiryDate Utc.Date_parse Utc.startOfDay noon_2024_06_10
       (Some "2024-06-13") = Some "2024-06-11".
Proof. vm_compute. by repeat split. Qed.

(** Two hours east of UTC the local midnight lies in the previous UTC
    day, and a date-only expiry is read as midnight UTC: for an item
    opened at noon UTC of 2024-06-10, the expiry 2024-06-20 has 11 days
    left and becomes 2024-06-14, and the expiry 2024-06-11 has 2 days
    left and becomes 2024-06-10. *)
Example newExpiryDate_east_of_utc :
  let east := startOfDayIn (2 * 60 * 60 * 1000) in
  daysLeft Utc.Date_parse (east noon_2024_06_10) "2024-06-20" = Some 11
  /\ newExpiryDate Utc.Date_parse east noon_2024_06_10 (Some "2024-06-20")
     = Some "2024-06-14"
  /\ daysLeft Utc.Date_parse (east noon_2024_06_10) "2024-06-11" = Some 2
  /\ newExpiryDate Utc.Date_parse east noon_2024_06_10 (Some "2024-06-11")
     = Some "2024-06-10".
Proof. vm_compute. by repeat split. Qed.

(** An unknown id, a quantity of 0 and a quantity of 7 for the milk. *)
Lemma adjustQuantity_spec_witness :
  adjustQuantity "i9" 2 fridgeWithMilk
    = (Error 404 "Item not found", fridgeWithMilk)
  /\ (exists s', adjustQuantity "i1" 0 fridgeWithMilk = (NoContent, s')
        /\ getItem "i1" s' = (Error 404 "Item not found", s'))
  /\ (exists updated s',
        adjustQuantity "i1" 7 fridgeWithMilk = (Json 200 updated, s')
        /\ PantryItem.quantity updated = 7).
Proof.
  split; [|split].
  - exact (proj1 (adjustQuantity_spec "i9" 2 fridgeWithMilk) eq_refl).
  - destruct (proj1 (proj2 (adjustQuantity_spec "i1" 0 fridgeWithMilk))
                milk eq_refl)
      as (s' & Hrun & _ & _ & Hgone).
    + lia.
    + exists s'. split; [exact Hrun|exact Hgone].
  - destruct (proj2 (proj2 (adjustQuantity_spec "i1" 7 fridgeWithMilk))
                milk eq_refl)
      as (updated & s' & Hrun & _ & _ & _ & Hq & _).
    + lia.
    + exists updated, s'. split; [exact Hrun|exact Hq].
Defined.

(** Deleting the fridge, which holds the milk. *)
Lemma deleteArea_repacks_order_witness :
  NoDup (map StorageArea.id (storage_areas fridgeWithMilk))
  /\ ordersPacked (storage_areas fridgeWithMilk)
  /\ exists s',
       deleteArea true "fridge" fridgeWithMilk = (NoContent, s')
       /\ items s' = []
       /\ map StorageArea.id (storageAreaQueries_getAll s')
          = ["freezer"; "pantry"]
       /\ map StorageArea.order (storageAreaQueries_getAll s') = [0; 1].
Proof.
  assert (Hnd : NoDup (map StorageArea.id (storage_areas fridgeWithMilk))).
  { apply (bool_decide_unpack _). vm_compute. exact I. }
  assert (Hp : ordersPacked (storage_areas fridgeWithMilk)).
  { unfold ordersPacked. vm_compute. apply Permutation_refl. }
  split; [exact Hnd|]. split; [exact Hp|].
  destruct (proj1 (deleteArea_repacks_order true "fridge" fridgeWithMilk
                     Hnd Hp) (StorageArea.mk "fridge" "Fridge" refrigerator
                                cyan 0) eq_refl)
    as (s' & Hrun & Hitems & _ & _ & _ & Hids & Horders).
  exists s'. split; [exact Hrun|]. split; [exact Hitems|].
  split; [exact Hids|exact Horders].
Defined.

(** C8, as stated, fails: on the seeded areas, whose ranks are 0, 1, 2, a
    reorder request that names only the pantry leaves the ranks 0, 1, 0,
    and an update that sets the rank of the fridge to 5 leaves 5, 1, 2. *)
Lemma reorderBatch_partial_breaks_order :
  NoDup (map StorageArea.id (storage_areas seeded))
  /\ ordersPacked (storage_areas seeded)
  /\ map StorageArea.order
       (storage_areas (snd (reorderBatch ["pantry"] seeded))) = [0; 1; 0]
  /\ ~ ordersPacked (storage_areas (snd (reorderBatch ["pantry"] seeded)))
  /\ map StorageArea.order
       (storage_areas
          (snd (updateArea "fridge" (mkAreaPatch None None None (Some 5))
                  seeded))) = [5; 1; 2]
  /\ ~ ordersPacked
         (storage_areas
            (snd (updateArea "fridge" (mkAreaPatch None None None (Some 5))
                    seeded))).
Proof.
  split; [apply (bool_decide_unpack _); vm_compute; exact I|].
  split; [unfold ordersPacked; vm_compute; apply Permutation_refl|].
  split; [reflexivity|]. split; [|split; [reflexivity|]].
  - unfold ordersPacked. vm_compute. intros H.
    assert (Hin : 2 ∈ [0; 1; 0]).
    { rewrite H. do 2 right. left. }
    repeat (apply elem_of_cons in Hin as [Hin|Hin]; [discriminate Hin|]).
    by apply elem_of_nil in Hin.
  - unfold ordersPacked. vm_compute. intros H.
    assert (Hin : 5 ∈ [0; 1; 2]).
    { rewrite <- H. left. }
    repeat (apply elem_of_cons in Hin as [Hin|Hin]; [discriminate Hin|]).
    by apply elem_of_nil in Hin.
Qed.

(** The five operations on the seeded areas. *)
Lemma order_invariant_preserved_witness :
  NoDup (map StorageArea.id (storage_areas seeded))
  /\ ordersPacked (storage_areas seeded)
  /\ ordersPacked
       (storage_areas
          (snd (createArea "a4" (mkAreaBody "Cellar" box slate) seeded)))
  /\ ordersPacked
       (storage_areas
          (snd (updateArea "fridge"
                  (mkAreaPatch (Some "Cooler") None (Some rose) None) seeded)))
  /\ ordersPacked (storage_areas (snd (deleteArea true "freezer" seeded)))
  /\ ordersPacked
       (storage_areas
          (snd (reorderBatch ["pantry"; "fridge"; "freezer"] seeded)))
  /\ ordersPacked (storage_areas (seed seeded)).
Proof.
  assert (Hnd : NoDup (map StorageArea.id (storage_areas seeded))).
  { apply (bool_decide_unpack _). vm_compute. exact I. }
  assert (Hp : ordersPacked (storage_areas seeded)).
  { unfold ordersPacked. vm_compute. apply Permutation_refl. }
  destruct (order_invariant_preserved true seeded Hnd Hp)
    as (Hcreate & Hupdate & Hdelete & Hreorder & Hseed).
  split; [exact Hnd|]. split; [exact Hp|].
  split; [apply Hcreate|].
  split; [apply Hupdate; intros existing _; reflexivity|].
  split; [apply Hdelete|].
  split; [|exact Hseed].
  apply Hreorder. simpl.
  apply (Permutation_cons_app ["fridge"; "freezer"] [] "pantry").
  apply Permutation_refl.
Defined.

(** C3, as stated, fails.  For the rice, of quantity [2 ^ 53 + 2],
    opening 1 unit leaves the quantities [2 ^ 53] and 1, which do not
    sum to the quantity before; for a carton that is already opened,
    opening 1 unit leaves the original opened; and when the generated
    id is the one of the eggs, the request is answered 500 and the
    table keeps its two rows. *)
Lemma openItem_split_not_as_claimed :
  let run genId id s :=
    openItem true Utc.Date_parse Utc.startOfDay genId
      noon_2024_06_10 noon_2024_06_10 id 1 s in
  let split_off name areaId expiry :=
    PantryItem.mk "i2" name 1 areaId 1717200000000 true
      (Some noon_2024_06_10) expiry in
  (1 <= 1 < PantryItem.quantity rice
   /\ run "i2" "i1" (mkDb DEFAULT_STORAGE_AREAS [rice])
      = (Json 200 [PantryItem.setQuantity rice (2 ^ 53);
                   split_off "Rice" "pantry" None],
         mkDb DEFAULT_STORAGE_AREAS
           [PantryItem.setQuantity rice (2 ^ 53);
            split_off "Rice" "pantry" None])
   /\ 2 ^ 53 + 1 <> PantryItem.quantity rice)
  /\ (1 <= 1 < PantryItem.quantity openedMilk
      /\ run "i2" "i1" (mkDb DEFAULT_STORAGE_AREAS [openedMilk])
         = (Json 200 [PantryItem.setQuantity openedMilk 2;
                      split_off "Milk" "fridge" (Some "2024-06-15")],
            mkDb DEFAULT_STORAGE_AREAS
              [PantryItem.setQuantity openedMilk 2;
               split_off "Milk" "fridge" (Some "2024-06-15")])
      /\ PantryItem.isOpened (PantryItem.setQuantity openedMilk 2) = true)
  /\ (1 <= 1 < PantryItem.quantity milk
      /\ run "i2" "i1" (mkDb DEFAULT_STORAGE_AREAS [milk; eggs])
         = (Error 500 "Failed to open item",
            mkDb DEFAULT_STORAGE_AREAS [PantryItem.setQuantity milk 2; eggs])).
Proof.
  vm_compute. repeat split; try reflexivity; intros H; discriminate H.
Qed.

(** C5, at a concrete input.  In a process two hours east of UTC, at
    noon UTC of 2024-06-10, which is 14:00 of that day there, the start
    of today is 22:00 UTC of 2024-06-09.  A date-only expiry is read as
    midnight UTC, so the expiry 2024-06-20, ten days out, has 11 days
    left and opening the carton stores 2024-06-14, four days out, and
    the expiry 2024-06-11, one day out, has 2 days left and is replaced
    by 2024-06-10, today.  In a process in UTC the same requests store
    2024-06-15 and keep 2024-06-11. *)
Theorem openItem_expiry_east_of_utc_sample :
  let east := startOfDayIn (2 * 60 * 60 * 1000) in
  let carton d :=
    PantryItem.mk "i1" "Milk" 3 "fridge" 1717200000000 false None (Some d) in
  let opened d :=
    PantryItem.mk "i1" "Milk" 3 "fridge" 1717200000000 true
      (Some noon_2024_06_10) (Some d) in
  let run zone d :=
    openItem true Utc.Date_parse zone "i2" noon_2024_06_10 noon_2024_06_10
      "i1" 3 (mkDb DEFAULT_STORAGE_AREAS [carton d]) in
  toISODate (noon_2024_06_10 + 2 * 60 * 60 * 1000) = "2024-06-10"
  /\ east noon_2024_06_10 = Utc.startOfDay noon_2024_06_10 - 2 * 60 * 60 * 1000
  /\ daysLeft Utc.Date_parse (east noon_2024_06_10) "2024-06-20" = Some 11
  /\ run east "2024-06-20"
     = (Json 200 [opened "2024-06-14"],
        mkDb DEFAULT_STORAGE_AREAS [opened "2024-06-14"])
  /\ daysLeft Utc.Date_parse (east noon_2024_06_10) "2024-06-11" = Some 2
  /\ run east "2024-06-11"
     = (Json 200 [opened "2024-06-10"],
        mkDb DEFAULT_STORAGE_AREAS [opened "2024-06-10"])
  /\ run Utc.startOfDay "2024-06-20"
     = (Json 200 [opened "2024-06-15"],
        mkDb DEFAULT_STORAGE_AREAS [opened "2024-06-15"])
  /\ run Utc.startOfDay "2024-06-11"
     = (Json 200 [opened "2024-06-11"],
        mkDb DEFAULT_STORAGE_AREAS [opened "2024-06-11"]).
Proof. vm_compute. by repeat split. Qed.

(** C9, as stated, fails: opening 0 units of the milk (quantity 3) is
    answered 200 and inserts an opened record of quantity 0; opening -2
    units raises the quantity of the original to 5 and inserts an opened
    record of quantity -2. *)
Lemma openItem_zero_mutates_store :
  let opened q :=
    PantryItem.mk "i2" "Milk" q "fridge" 1717200000000 true
      (Some noon_2024_06_10) (Some "2024-06-15") in
  let run q :=
    openItem true Utc.Date_parse Utc.startOfDay "i2"
      noon_2024_06_10 noon_2024_06_10 "i1" q fridgeWithMilk in
  itemQueries_getById fridgeWithMilk "i1" = Some milk
  /\ run 0 = (Json 200 [milk; opened 0],
              mkDb DEFAULT_STORAGE_AREAS [milk; opened 0])
  /\ snd (run 0) <> fridgeWithMilk
  /\ run (-2) = (Json 200 [PantryItem.setQuantity milk 5; opened (-2)],
                 mkDb DEFAULT_STORAGE_AREAS
                   [PantryItem.setQuantity milk 5; opened (-2)])
  /\ snd (run (-2)) <> fridgeWithMilk.
Proof.
  vm_compute. repeat split; intros H; discriminate H.
Qed.

(** Opening 0 cartons of the milk. *)
Lemma openItem_nonpositive_not_validated_witness :
  itemQueries_getById fridgeWithMilk "i1" = Some milk
  /\ 0 <= 0
  /\ exists s',
       openItem true Utc.Date_parse Utc.startOfDay "i2"
         noon_2024_06_10 noon_2024_06_10 "i1" 0 fridgeWithMilk
       = (Json 200 [PantryItem.setQuantity milk 3;
                    splitOff Utc.Date_parse Utc.startOfDay "i2"
                      noon_2024_06_10 noon_2024_06_10 0 milk], s')
       /\ s' <> fridgeWithMilk.
Proof.
  split; [reflexivity|]. split; [lia|].
  destruct (proj1 (openItem_nonpositive_not_validated true Utc.Date_parse
                     Utc.startOfDay "i2" noon_2024_06_10 noon_2024_06_10
                     "i1" 0 fridgeWithMilk milk eq_refl
                     ltac:(lia) eq_refl
                     (fun _ => ex_intro _ _ eq_refl)))
    as (s' & Hrun & _ & _ & Hne).
  - simpl; lia.
  - exists s'. split; [exact Hrun|exact Hne].
Defined.



(** The end-to-end scenario: eggs are added twice to the fridge and
    merge into one record of 12; opening 4 of them gives an unopened
    record of 8 and an opened record of 4; deleting the fridge removes
    both and moves the freezer to rank 0. *)
Example scenario_eggs :
  let areas :=
    [ StorageArea.mk "fridge" "Fridge" refrigerator cyan 0;
      StorageArea.mk "freezer" "Freezer" snowflake blue 1 ] in
  let s0 := mkDb areas [] in
  let '(r1, s1) :=
    createOrMergeItem true "e1" 100 (mkItemBody "Eggs" 6 "fridge" None) s0 in
  let '(r2, s2) :=
    createOrMergeItem true "e2" 200 (mkItemBody "eggs" 6 "fridge" None) s1 in
  let '(r3, s3) :=
    openItem true Utc.Date_parse Utc.startOfDay "e3" 300 300 "e1" 4 s2 in
  let '(r4, s4) := deleteArea true "fridge" s3 in
  r1 = Json 201 (PantryItem.mk "e1" "Eggs" 6 "fridge" 100 false None None)
  /\ r2 = Json 200 (PantryItem.mk "e1" "Eggs" 12 "fridge" 100 false None None)
  /\ r3 = Json 200
            [ PantryItem.mk "e1" "Eggs" 8 "fridge" 100 false None None;
              PantryItem.mk "e3" "Eggs" 4 "fridge" 100 true (Some 300) None ]
  /\ r4 = NoContent
  /\ s4 = mkDb [StorageArea.mk "freezer" "Freezer" snowflake blue 0] [].
Proof. vm_compute. by repeat split. Qed.


(** ** The further properties at concrete inputs *)

Ltac nodup_by_computation :=
  apply (bool_decide_unpack _); vm_compute; exact I.

Lemma createOrMergeItem_rejects_invalid_witness :
  let blank := mkItemBody (NBSP +:+ " " +:+ IDEOGRAPHIC_SPACE) 1 "fridge"
                 None in
  let wrapped := mkItemBody (NBSP +:+ "Milk" +:+ NBSP) 1 "fridge" None in
  ~ validBody blank
  /\ createOrMergeItem true "i2" 2000 blank fridgeWithMilk
     = (Error 400 "Name is required", fridgeWithMilk)
  /\ validBody wrapped
  /\ (forall message,
        fst (createOrMergeItem true "i2" 2000 wrapped fridgeWithMilk)
        <> Error 400 message).
Proof.
  intros blank wrapped.
  assert (Hbad : ~ validBody blank).
  { intros (Hname & _). vm_compute in Hname. discriminate Hname. }
  assert (Hok : validBody wrapped)
    by (repeat split; try reflexivity; simpl; lia).
  split; [exact Hbad|].
  split.
  { destruct (proj1 (createOrMergeItem_rejects_invalid true "i2" 2000 blank
                       fridgeWithMilk) Hbad) as [message Hrun].
    rewrite Hrun. vm_compute in Hrun. injection Hrun as <-. reflexivity. }
  split; [exact Hok|].
  exact (proj2 (createOrMergeItem_rejects_invalid true "i2" 2000 wrapped
                  fridgeWithMilk) Hok).
Defined.

Lemma createOrMergeItem_rule_witness :
  let body := mkItemBody (NBSP +:+ "milk ") 2 "fridge" (Some "2024-06-20") in
  validBody body
  /\ NoDup (map PantryItem.id (items fridgeWithMilk))
  /\ itemQueries_getById fridgeWithMilk "i2" = None
  /\ createOrMergeItem true "i2" 2000 body fridgeWithMilk
     = (Json 200 (PantryItem.setQuantity milk 5),
        itemQueries_updateQuantity fridgeWithMilk "i1" 5).
Proof.
  intros body.
  assert (Hv : validBody body)
    by (repeat split; try reflexivity; simpl; lia).
  assert (Hnd : NoDup (map PantryItem.id (items fridgeWithMilk)))
    by nodup_by_computation.
  split; [exact Hv|]. split; [exact Hnd|]. split; [reflexivity|].
  destruct (createOrMergeItem_rule true "i2" 2000 body fridgeWithMilk Hv Hnd
              eq_refl (fun _ => ex_intro _ _ eq_refl))
    as [[Hno _]|(r & Hin & _ & _ & _ & _ & Hrun & _)].
  - exfalso. apply (Hno milk); [by left|]. by repeat split.
  - apply list_elem_of_singleton in Hin. subst r. exact Hrun.
Defined.

Lemma createOrMergeItem_twice_witness :
  let b1 := mkItemBody "Milk" 1 "fridge" None in
  let b2 := mkItemBody " milk" 2 "fridge" None in
  validBody b1 /\ validBody b2
  /\ itemQueries_findMergeable seeded "fridge" "Milk" None = None
  /\ items (snd (createOrMergeItem true "id2" 2000 b2
                   (snd (createOrMergeItem true "id1" 1000 b1 seeded))))
     = [PantryItem.setQuantity (newItemOf "id1" 1000 b1) 3].
Proof.
  intros b1 b2.
  assert (Hv1 : validBody b1) by (repeat split; try reflexivity; simpl; lia).
  assert (Hv2 : validBody b2) by (repeat split; try reflexivity; simpl; lia).
  split; [exact Hv1|]. split; [exact Hv2|]. split; [reflexivity|].
  pose proof (createOrMergeItem_twice true "id1" "id2" 1000 2000 b1 b2 seeded
                Hv1 Hv2 eq_refl eq_refl eq_refl eq_refl eq_refl eq_refl
                (fun _ => ex_intro _ _ eq_refl)) as H.
  destruct (createOrMergeItem true "id1" 1000 b1 seeded) as [r1 s1].
  cbn [snd].
  destruct (createOrMergeItem true "id2" 2000 b2 s1) as [r2 s2].
  cbv zeta in H. destruct H as (_ & _ & Hitems & _). exact Hitems.
Defined.

Lemma createOrMergeItem_adds_quantity_witness :
  NoDup (map PantryItem.id (items fridgeWithMilk))
  /\ totalQuantity (items fridgeWithMilk) = 3
  /\ totalQuantity
       (items (snd (createOrMergeItem true "i2" 2000
                      (mkItemBody "milk" 2 "fridge" (Some "2024-06-20"))
                      fridgeWithMilk)))
     = 5.
Proof.
  assert (Hnd : NoDup (map PantryItem.id (items fridgeWithMilk)))
    by nodup_by_computation.
  split; [exact Hnd|]. split; [reflexivity|].
  assert (Hsafe : forall r, r ∈ items fridgeWithMilk ->
            - 2 ^ 53 <= PantryItem.quantity r + 2 <= 2 ^ 53).
  { intros r Hr. apply list_elem_of_singleton in Hr. subst r.
    split; intros H; discriminate H. }
  pose proof (createOrMergeItem_adds_quantity true "i2" 2000
                (mkItemBody "milk" 2 "fridge" (Some "2024-06-20"))
                fridgeWithMilk Hnd Hsafe) as H.
  destruct (createOrMergeItem true "i2" 2000 _ fridgeWithMilk)
    as [response s'] eqn:Hrun.
  vm_compute in Hrun. injection Hrun as Hresponse Hs'. subst response.
  destruct H as (_ & Htotal & _). exact Htotal.
Defined.

Lemma openItem_conserves_total_witness :
  NoDup (map PantryItem.id (items fridgeWithMilk))
  /\ itemQueries_getById fridgeWithMilk "i1" = Some milk
  /\ itemQueries_getById fridgeWithMilk "i2" = None
  /\ exists body s',
       openItem true Utc.Date_parse Utc.startOfDay "i2"
         noon_2024_06_10 noon_2024_06_10 "i1" 1 fridgeWithMilk
       = (Json 200 body, s')
       /\ totalQuantity (items s') = 3
       /\ totalQuantity body = 3.
Proof.
  assert (Hnd : NoDup (map PantryItem.id (items fridgeWithMilk)))
    by nodup_by_computation.
  split; [exact Hnd|]. split; [reflexivity|]. split; [reflexivity|].
  assert (Hsafe : - 2 ^ 53 <= PantryItem.quantity milk - 1 <= 2 ^ 53)
    by (split; intros H; discriminate H).
  exact (openItem_conserves_total true Utc.Date_parse Utc.startOfDay "i2"
           noon_2024_06_10 noon_2024_06_10 "i1" 1 fridgeWithMilk milk Hnd
           eq_refl Hsafe eq_refl (fun _ => ex_intro _ _ eq_refl)).
Defined.

Lemma openItem_id_collision_loses_quantity_witness :
  let s := mkDb DEFAULT_STORAGE_AREAS [milk; eggs] in
  NoDup (map PantryItem.id (items s))
  /\ itemQueries_getById s "i1" = Some milk
  /\ 1 < PantryItem.quantity milk
  /\ itemQueries_getById s "i2" = Some eggs
  /\ exists s',
       openItem true Utc.Date_parse Utc.startOfDay "i2"
         noon_2024_06_10 noon_2024_06_10 "i1" 1 s
       = (Error 500 "Failed to open item", s')
       /\ totalQuantity (items s) = 9
       /\ totalQuantity (items s') = 8.
Proof.
  intros s.
  assert (Hnd : NoDup (map PantryItem.id (items s)))
    by nodup_by_computation.
  assert (Hq : 1 < PantryItem.quantity milk) by (simpl; lia).
  split; [exact Hnd|]. split; [reflexivity|]. split; [exact Hq|].
  split; [reflexivity|].
  assert (Hsafe : - 2 ^ 53 <= PantryItem.quantity milk - 1 <= 2 ^ 53)
    by (split; intros H; discriminate H).
  destruct (openItem_id_collision_loses_quantity true Utc.Date_parse
              Utc.startOfDay "i2" noon_2024_06_10 noon_2024_06_10 "i1" 1 s
              milk eggs Hnd eq_refl Hq Hsafe eq_refl)
    as (s' & Hrun & _ & _ & _ & Htotal).
  exists s'. split; [exact Hrun|]. split; [reflexivity|exact Htotal].
Defined.

Lemma createOrMergeItem_then_deleteItem_witness :
  let body := mkItemBody "Milk" 1 "fridge" None in
  validBody body
  /\ itemQueries_findMergeable seeded "fridge" "Milk" None = None
  /\ exists created s',
       createOrMergeItem true "id1" 1000 body seeded = (Json 201 created, s')
       /\ deleteItem "id1" s' = (NoContent, seeded).
Proof.
  intros body.
  assert (Hv : validBody body) by (repeat split; try reflexivity; simpl; lia).
  split; [exact Hv|]. split; [reflexivity|].
  destruct (createOrMergeItem_then_deleteItem true "id1" 1000 body seeded Hv
              eq_refl eq_refl (fun _ => ex_intro _ _ eq_refl))
    as (created & s' & Hrun & _ & Hdelete).
  exists created, s'. split; [exact Hrun|exact Hdelete].
Defined.

Lemma createOrMergeItem_then_getItem_witness :
  let body := mkItemBody "milk" 2 "fridge" (Some "2024-06-20") in
  validBody body
  /\ itemQueries_getById fridgeWithMilk "i2" = None
  /\ exists status record s',
       createOrMergeItem true "i2" 2000 body fridgeWithMilk
       = (Json status record, s')
       /\ getItem (PantryItem.id record) s' = (Json 200 record, s').
Proof.
  intros body.
  assert (Hv : validBody body) by (repeat split; try reflexivity; simpl; lia).
  split; [exact Hv|]. split; [reflexivity|].
  exact (createOrMergeItem_then_getItem true "i2" 2000 body fridgeWithMilk Hv
           eq_refl (fun _ => ex_intro _ _ eq_refl)).
Defined.

Lemma deleteItem_removes_witness :
  NoDup (map PantryItem.id (items fridgeWithMilk))
  /\ itemQueries_getById fridgeWithMilk "i1" = Some milk
  /\ exists s',
       deleteItem "i1" fridgeWithMilk = (NoContent, s')
       /\ getItem "i1" s' = (Error 404 "Item not found", s')
       /\ totalQuantity (items s') = 0.
Proof.
  assert (Hnd : NoDup (map PantryItem.id (items fridgeWithMilk)))
    by nodup_by_computation.
  split; [exact Hnd|]. split; [reflexivity|].
  destruct (deleteItem_removes "i1" fridgeWithMilk milk Hnd eq_refl)
    as (s' & Hrun & Hget & _ & _ & Htotal).
  exists s'. split; [exact Hrun|]. split; [exact Hget|exact Htotal].
Defined.

Lemma uniqueKeys_fridgeWithMilk : uniqueKeys (items fridgeWithMilk).
Proof.
  intros r1 r2 H1 H2 _ _ _ _ _ _.
  apply list_elem_of_singleton in H1, H2. by subst.
Defined.

Lemma uniqueKeys_preserved_witness :
  uniqueKeys (items fridgeWithMilk)
  /\ uniqueKeys
       (items (snd (createOrMergeItem true "i2" 2000
                      (mkItemBody "milk" 2 "fridge" (Some "2024-06-21"))
                      fridgeWithMilk)))
  /\ uniqueKeys
       (items (snd (openItem true Utc.Date_parse Utc.startOfDay "i2"
                      noon_2024_06_10 noon_2024_06_10 "i1" 1
                      fridgeWithMilk))).
Proof.
  destruct (uniqueKeys_preserved true Utc.Date_parse Utc.startOfDay
              fridgeWithMilk uniqueKeys_fridgeWithMilk)
    as (Hcreate & _ & Hopen & _).
  split; [exact uniqueKeys_fridgeWithMilk|].
  split; [apply Hcreate|apply Hopen].
Defined.

Lemma schemaOk_seeded : schemaOk true seeded.
Proof.
  split; [nodup_by_computation|]. split; [constructor|].
  intros _ r Hr. by apply elem_of_nil in Hr.
Defined.

Lemma createOrMergeItem_unknown_area_witness :
  let body := mkItemBody "Wine" 1 "cellar" None in
  schemaOk true seeded
  /\ validBody body
  /\ storageAreaQueries_getById seeded "cellar" = None
  /\ createOrMergeItem true "id1" 1000 body seeded
     = (Error 500 "Failed to create item", seeded).
Proof.
  intros body.
  assert (Hv : validBody body) by (repeat split; try reflexivity; simpl; lia).
  split; [exact schemaOk_seeded|]. split; [exact Hv|].
  split; [reflexivity|].
  exact (createOrMergeItem_unknown_area true "id1" 1000 body seeded eq_refl
           schemaOk_seeded Hv eq_refl).
Defined.

Lemma createArea_spec_witness :
  emptyb (trim (area_name (mkAreaBody NBSP box slate))) = true
  /\ createArea "a4" (mkAreaBody NBSP box slate) seeded
     = (Error 400 "Name is required", seeded)
  /\ emptyb (trim (area_name (mkAreaBody " Cellar " box slate))) = false
  /\ storageAreaQueries_getById seeded "a4" = None
  /\ (forall a, a ∈ storage_areas seeded ->
        - 2 ^ 53 <= StorageArea.order a < 2 ^ 53)
  /\ exists newArea s',
       createArea "a4" (mkAreaBody " Cellar " box slate) seeded
       = (Json 201 newArea, s')
       /\ StorageArea.name newArea = "Cellar"
       /\ map StorageArea.id (storageAreaQueries_getAll s')
          = ["fridge"; "freezer"; "pantry"; "a4"]
       /\ getArea "a4" s' = (Json 200 newArea, s').
Proof.
  assert (Hranks : forall a, a ∈ storage_areas seeded ->
            - 2 ^ 53 <= StorageArea.order a < 2 ^ 53).
  { intros a Ha.
    repeat (apply elem_of_cons in Ha as [->|Ha];
            [split; [intros H; discriminate H|reflexivity]|]).
    by apply elem_of_nil in Ha. }
  split; [reflexivity|].
  split; [exact (proj1 (createArea_spec "a4" (mkAreaBody NBSP box slate)
                          seeded) eq_refl)|].
  split; [reflexivity|]. split; [reflexivity|]. split; [exact Hranks|].
  destruct (createArea_spec "a4" (mkAreaBody " Cellar " box slate) seeded)
    as (_ & _ & Hcreate).
  destruct (Hcreate eq_refl eq_refl Hranks)
    as (newArea & s' & Hrun & Hnew & _ & _ & _ & _ & _ & Hall & Hget).
  exists newArea, s'. split; [exact Hrun|].
  split; [rewrite Hnew; reflexivity|]. split; [|exact Hget].
  rewrite Hall, map_app, Hnew. reflexivity.
Defined.

Lemma updateArea_spec_witness :
  NoDup (map StorageArea.id (storage_areas seeded))
  /\ storageAreaQueries_getById seeded "fridge"
     = Some (StorageArea.mk "fridge" "Fridge" refrigerator cyan 0)
  /\ (exists updated s',
        updateArea "fridge"
          (mkAreaPatch (Some (" Cooler" +:+ NBSP)) None (Some rose) None)
          seeded
        = (Json 200 updated, s')
        /\ getArea "fridge" s' = (Json 200 updated, s')
        /\ updated = StorageArea.mk "fridge" "Cooler" refrigerator rose 0)
  /\ (exists updated s',
        updateArea "fridge" (mkAreaPatch (Some NBSP) None None None) seeded
        = (Json 200 updated, s')
        /\ StorageArea.name updated = "Fridge"
        /\ s' = seeded).
Proof.
  assert (Hnd : NoDup (map StorageArea.id (storage_areas seeded)))
    by nodup_by_computation.
  split; [exact Hnd|]. split; [reflexivity|]. split.
  - destruct (updateArea_spec "fridge"
                (mkAreaPatch (Some (" Cooler" +:+ NBSP)) None (Some rose)
                   None) seeded
                (StorageArea.mk "fridge" "Fridge" refrigerator cyan 0) Hnd
                eq_refl)
      as (updated & s' & Hrun & Hget & Hid & Hname & Hicon & Hcolor & Horder
          & _).
    exists updated, s'. split; [exact Hrun|]. split; [exact Hget|].
    destruct updated as [id name icon color order]. simpl in *. by subst.
  - destruct (updateArea_spec "fridge"
                (mkAreaPatch (Some NBSP) None None None) seeded
                (StorageArea.mk "fridge" "Fridge" refrigerator cyan 0) Hnd
                eq_refl)
      as (updated & s' & Hrun & _ & Hid & Hname & Hicon & Hcolor & Horder
          & _ & _ & _ & Hsame).
    exists updated, s'. split; [exact Hrun|]. split; [exact Hname|].
    apply Hsame.
    destruct updated as [id name icon color order]. simpl in *. by subst.
Defined.

Lemma reorderBatch_lists_in_given_order_witness :
  NoDup (map StorageArea.id (storage_areas seeded))
  /\ ["pantry"; "fridge"; "freezer"]
     ≡ₚ map StorageArea.id (storage_areas seeded)
  /\ exists l s',
       reorderBatch ["pantry"; "fridge"; "freezer"] seeded
       = (Json 200 (renumber 0 l), s')
       /\ map StorageArea.id (storageAreaQueries_getAll s')
          = ["pantry"; "fridge"; "freezer"]
       /\ map StorageArea.order (storageAreaQueries_getAll s') = [0; 1; 2].
Proof.
  assert (Hnd : NoDup (map StorageArea.id (storage_areas seeded)))
    by nodup_by_computation.
  assert (Hperm : ["pantry"; "fridge"; "freezer"]
                  ≡ₚ map StorageArea.id (storage_areas seeded)).
  { simpl. apply (Permutation_cons_app ["fridge"; "freezer"] [] "pantry").
    apply Permutation_refl. }
  split; [exact Hnd|]. split; [exact Hperm|].
  destruct (reorderBatch_lists_in_given_order
              ["pantry"; "fridge"; "freezer"] seeded Hnd Hperm)
    as (l & s' & Hrun & _ & _ & _ & Hids & Horders & _).
  exists l, s'. split; [exact Hrun|]. split; [exact Hids|exact Horders].
Defined.

Lemma reorderBatch_current_listing_noop_witness :
  NoDup (map StorageArea.id (storage_areas seeded))
  /\ ordersPacked (storage_areas seeded)
  /\ reorderBatch ["fridge"; "freezer"; "pantry"] seeded
     = (Json 200 DEFAULT_STORAGE_AREAS, seeded).
Proof.
  assert (Hnd : NoDup (map StorageArea.id (storage_areas seeded)))
    by nodup_by_computation.
  assert (Hp : ordersPacked (storage_areas seeded)).
  { unfold ordersPacked. vm_compute. apply Permutation_refl. }
  split; [exact Hnd|]. split; [exact Hp|].
  exact (reorderBatch_current_listing_noop seeded Hnd Hp).
Defined.

Lemma reorderAreas_only_ranks_witness :
  ("fridge" ∉ ["pantry"])
  /\ storage_areas (reorderAreas ["pantry"] seeded)
     = [ StorageArea.mk "fridge" "Fridge" refrigerator cyan 0;
         StorageArea.mk "freezer" "Freezer" snowflake blue 1;
         StorageArea.mk "pantry" "Pantry" warehouse amber 0 ]
  /\ reorderAreas ["pantry"] (reorderAreas ["pantry"] seeded)
     = reorderAreas ["pantry"] seeded.
Proof.
  split.
  { intros Hin. apply list_elem_of_singleton in Hin. discriminate Hin. }
  destruct (reorderAreas_only_ranks ["pantry"] seeded)
    as (_ & _ & Hareas & _ & _ & Hidem).
  split; [exact Hareas|exact Hidem].
Defined.

Lemma schemaOk_fridgeWithMilk : schemaOk true fridgeWithMilk.
Proof.
  split; [nodup_by_computation|]. split; [nodup_by_computation|].
  intros _ r Hr. apply list_elem_of_singleton in Hr. subst r.
  simpl. by left.
Defined.

Lemma handlers_keep_schema_witness :
  schemaOk true fridgeWithMilk
  /\ schemaOk true
       (snd (openItem true Utc.Date_parse Utc.startOfDay "i2"
               noon_2024_06_10 noon_2024_06_10 "i1" 1 fridgeWithMilk))
  /\ schemaOk true (snd (deleteArea true "fridge" fridgeWithMilk))
  /\ schemaOk true
       (snd (createArea "a4" (mkAreaBody "Cellar" box slate)
               fridgeWithMilk)).
Proof.
  destruct (handlers_keep_schema true Utc.Date_parse Utc.startOfDay
              fridgeWithMilk schemaOk_fridgeWithMilk)
    as (_ & _ & Hopen & _ & Hcreate & _ & Hdelete & _).
  split; [exact schemaOk_fridgeWithMilk|].
  split; [apply Hopen|]. split; [apply Hdelete|apply Hcreate].
Defined.

Lemma itemsMirror_storeWithMilk : itemsMirror storeWithMilk fridgeWithMilk.
Proof. apply Permutation_refl. Defined.

Lemma areasMirror_storeWithMilk : areasMirror storeWithMilk fridgeWithMilk.
Proof. reflexivity. Defined.

Lemma addItem_keeps_mirror_witness :
  NoDup (map PantryItem.id (items fridgeWithMilk))
  /\ itemsMirror storeWithMilk fridgeWithMilk
  /\ let '(st', db') :=
       addItem true "i2" 2000 " milk " 2 "fridge" (Some "2024-06-20")
         (storeWithMilk, fridgeWithMilk) in
     itemsMirror st' db'
     /\ PantryStore.storageAreas st' = PantryStore.storageAreas storeWithMilk
     /\ storage_areas db' = storage_areas fridgeWithMilk.
Proof.
  assert (Hnd : NoDup (map PantryItem.id (items fridgeWithMilk)))
    by nodup_by_computation.
  split; [exact Hnd|]. split; [exact itemsMirror_storeWithMilk|].
  exact (addItem_keeps_mirror true "i2" 2000 " milk " 2 "fridge"
           (Some "2024-06-20") storeWithMilk fridgeWithMilk Hnd
           itemsMirror_storeWithMilk).
Defined.

Lemma removeItem_keeps_mirror_witness :
  itemsMirror storeWithMilk fridgeWithMilk
  /\ let '(st', db') := removeItem "i1" (storeWithMilk, fridgeWithMilk) in
     itemsMirror st' db'
     /\ (itemQueries_getById fridgeWithMilk "i1" = None ->
         db' = fridgeWithMilk)
     /\ itemQueries_getById db' "i1" = None.
Proof.
  split; [exact itemsMirror_storeWithMilk|].
  exact (removeItem_keeps_mirror "i1" storeWithMilk fridgeWithMilk
           itemsMirror_storeWithMilk).
Defined.

Lemma updateItemQuantity_keeps_mirror_witness :
  NoDup (map PantryItem.id (items fridgeWithMilk))
  /\ itemsMirror storeWithMilk fridgeWithMilk
  /\ let '(st', db') :=
       updateItemQuantity "i1" 7 (storeWithMilk, fridgeWithMilk) in
     itemsMirror st' db'
     /\ itemQueries_getById db' "i1" = Some (PantryItem.setQuantity milk 7).
Proof.
  assert (Hnd : NoDup (map PantryItem.id (items fridgeWithMilk)))
    by nodup_by_computation.
  split; [exact Hnd|]. split; [exact itemsMirror_storeWithMilk|].
  pose proof (updateItemQuantity_keeps_mirror "i1" 7 storeWithMilk
                fridgeWithMilk Hnd itemsMirror_storeWithMilk) as H.
  destruct (updateItemQuantity "i1" 7 (storeWithMilk, fridgeWithMilk))
    as [st' db'].
  destruct H as [Hmirror Hget]. split; [exact Hmirror|].
  exact (Hget milk eq_refl).
Defined.

Lemma openItem_keeps_mirror_witness :
  NoDup (map PantryItem.id (items fridgeWithMilk))
  /\ itemQueries_getById fridgeWithMilk "i2" = None
  /\ itemsMirror storeWithMilk fridgeWithMilk
  /\ (forall item, itemQueries_getById fridgeWithMilk "i1" = Some item ->
        - 2 ^ 53 <= PantryItem.quantity item - 1 <= 2 ^ 53)
  /\ let '(st', db') :=
       usePantryStore_openItem true Utc.Date_parse Utc.startOfDay "i2"
         noon_2024_06_10 noon_2024_06_10 "i1" 1
         (storeWithMilk, fridgeWithMilk) in
     itemsMirror st' db'
     /\ totalQuantity (PantryStore.items st')
        = totalQuantity (PantryStore.items storeWithMilk).
Proof.
  assert (Hnd : NoDup (map PantryItem.id (items fridgeWithMilk)))
    by nodup_by_computation.
  assert (Hsafe : forall item,
            itemQueries_getById fridgeWithMilk "i1" = Some item ->
            - 2 ^ 53 <= PantryItem.quantity item - 1 <= 2 ^ 53).
  { intros item Hitem. injection Hitem as <-.
    split; intros H; discriminate H. }
  split; [exact Hnd|]. split; [reflexivity|].
  split; [exact itemsMirror_storeWithMilk|]. split; [exact Hsafe|].
  assert (Hfk : true = true ->
            forall item, itemQueries_getById fridgeWithMilk "i1" = Some item ->
              is_Some (storageAreaQueries_getById fridgeWithMilk
                         (PantryItem.storageAreaId item))).
  { intros _ item Hitem. injection Hitem as <-. eexists. reflexivity. }
  pose proof (openItem_keeps_mirror true Utc.Date_parse Utc.startOfDay "i2"
                noon_2024_06_10 noon_2024_06_10 "i1" 1 storeWithMilk
                fridgeWithMilk Hnd eq_refl Hfk itemsMirror_storeWithMilk)
    as H.
  destruct (usePantryStore_openItem true Utc.Date_parse Utc.startOfDay "i2"
              noon_2024_06_10 noon_2024_06_10 "i1" 1
              (storeWithMilk, fridgeWithMilk)) as [st' db'].
  destruct H as [Hmirror Htotal]. split; [exact Hmirror|exact (Htotal Hsafe)].
Defined.

Lemma addStorageArea_keeps_mirror_witness :
  areasMirror storeWithMilk fridgeWithMilk
  /\ let '(st', db') :=
       addStorageArea "a4" " Cellar " box slate
         (storeWithMilk, fridgeWithMilk) in
     areasMirror st' db'
     /\ PantryStore.items st' = PantryStore.items storeWithMilk
     /\ items db' = items fridgeWithMilk.
Proof.
  split; [exact areasMirror_storeWithMilk|].
  exact (addStorageArea_keeps_mirror "a4" " Cellar " box slate storeWithMilk
           fridgeWithMilk areasMirror_storeWithMilk).
Defined.

Lemma updateStorageArea_keeps_mirror_witness :
  NoDup (map StorageArea.id (storage_areas fridgeWithMilk))
  /\ areasMirror storeWithMilk fridgeWithMilk
  /\ let '(st', db') :=
       updateStorageArea "fridge"
         (mkAreaPatch (Some "Cooler") None (Some rose) None)
         (storeWithMilk, fridgeWithMilk) in
     areasMirror st' db'
     /\ PantryStore.items st' = PantryStore.items storeWithMilk
     /\ items db' = items fridgeWithMilk.
Proof.
  assert (Hnd : NoDup (map StorageArea.id (storage_areas fridgeWithMilk)))
    by nodup_by_computation.
  split; [exact Hnd|]. split; [exact areasMirror_storeWithMilk|].
  exact (updateStorageArea_keeps_mirror "fridge"
           (mkAreaPatch (Some "Cooler") None (Some rose) None) storeWithMilk
           fridgeWithMilk Hnd eq_refl areasMirror_storeWithMilk).
Defined.

Lemma deleteStorageArea_keeps_mirror_witness :
  NoDup (map StorageArea.id (storage_areas fridgeWithMilk))
  /\ itemsMirror storeWithMilk fridgeWithMilk
  /\ areasMirror storeWithMilk fridgeWithMilk
  /\ let '(st', db') :=
       deleteStorageArea true "fridge" (storeWithMilk, fridgeWithMilk) in
     itemsMirror st' db' /\ areasMirror st' db'
     /\ ("fridge" ∉ map StorageArea.id (PantryStore.storageAreas st')).
Proof.
  assert (Hnd : NoDup (map StorageArea.id (storage_areas fridgeWithMilk)))
    by nodup_by_computation.
  split; [exact Hnd|]. split; [exact itemsMirror_storeWithMilk|].
  split; [exact areasMirror_storeWithMilk|].
  pose proof (deleteStorageArea_keeps_mirror true "fridge" storeWithMilk
                fridgeWithMilk Hnd itemsMirror_storeWithMilk
                areasMirror_storeWithMilk) as H.
  destruct (deleteStorageArea true "fridge" (storeWithMilk, fridgeWithMilk))
    as [st' db'].
  destruct H as (Hitems & Hareas & Hgone).
  split; [exact Hitems|]. split; [exact Hareas|].
  exact (proj2 (Hgone _ eq_refl)).
Defined.

Lemma loadData_mirrors_witness :
  storage_areas fridgeWithMilk <> []
  /\ loadData "Cannot read properties of undefined" (initialStore, fridgeWithMilk)
     = (storeWithMilk, fridgeWithMilk).
Proof.
  assert (Hne : storage_areas fridgeWithMilk <> []) by discriminate.
  split; [exact Hne|].
  pose proof (loadData_mirrors "Cannot read properties of undefined"
                initialStore fridgeWithMilk) as H.
  destruct (loadData _ (initialStore, fridgeWithMilk)) as [st' db'].
  destruct H as (-> & _ & Hitems & Hareas & _ & Herror & Hloading).
  specialize (Hareas Hne). destruct st' as [areas its loading err].
  simpl in *. by subst.
Defined.

Lemma addItem_raises_count_witness :
  NoDup (map PantryItem.id (items fridgeWithMilk))
  /\ itemsMirror storeWithMilk fridgeWithMilk
  /\ emptyb (trim " milk ") = false
  /\ itemQueries_getById fridgeWithMilk "i2" = None
  /\ Forall (fun r => 0 <= PantryItem.quantity r) (items fridgeWithMilk)
  /\ totalQuantity (items fridgeWithMilk) + 2 <= 2 ^ 53
  /\ getItemCountForArea storeWithMilk "fridge" = 3
  /\ let '(st', _) :=
       addItem true "i2" 2000 " milk " 2 "fridge" (Some "2024-06-20")
         (storeWithMilk, fridgeWithMilk) in
     getItemCountForArea st' "fridge" = 5
     /\ getItemCountForArea st' "pantry" = 0.
Proof.
  assert (Hnd : NoDup (map PantryItem.id (items fridgeWithMilk)))
    by nodup_by_computation.
  assert (Hl : Forall (fun r => 0 <= PantryItem.quantity r)
                 (items fridgeWithMilk)).
  { repeat constructor. intros H. discriminate H. }
  assert (Hmax : totalQuantity (items fridgeWithMilk) + 2 <= 2 ^ 53)
    by (intros H; discriminate H).
  split; [exact Hnd|]. split; [exact itemsMirror_storeWithMilk|].
  split; [reflexivity|]. split; [reflexivity|]. split; [exact Hl|].
  split; [exact Hmax|]. split; [reflexivity|].
  assert (Hq : 1 <= 2) by lia.
  pose proof (addItem_raises_count true "i2" 2000 " milk " 2 "fridge"
                (Some "2024-06-20") storeWithMilk fridgeWithMilk Hnd
                itemsMirror_storeWithMilk eq_refl Hq eq_refl eq_refl
                (fun _ => ex_intro _ _ eq_refl) Hl Hmax) as H.
  destruct (addItem true "i2" 2000 " milk " 2 "fridge" (Some "2024-06-20")
              (storeWithMilk, fridgeWithMilk)) as [st' db'].
  split; [exact (H "fridge")|exact (H "pantry")].
Defined.
